(** * PredictionLogger: the prediction ledger and its accuracy scoring

    A shallow embedding of the [PredictionLogger] contract
    (contracts/PredictionLogger.sol, Solidity ^0.8.20), of the sentiment
    classification of [GET /api/crypto/:symbol/analysis] and of the
    [POST /api/admin/bulk-resolve] handler, together with the properties the
    specification states about them.

    Conventions.
    - A [uint256] is a [Z] in [0, MAX_UINT256].  Solidity 0.8 arithmetic is
      checked: an overflowing [+], [*], [++] or an underflowing [-] reverts
      with [Panic(0x11)], a division by zero with [Panic(0x12)].  The checks
      are written out in [checked_add], [checked_sub], [checked_mul] and
      [checked_div].
    - A Solidity [mapping] is a [gmap] read with the type's zero value as the
      default.
    - A reverting call leaves the storage as it was: contract functions return
      [Result (State * A)] and [execute] keeps the old state on [Err].
    - [msg.sender] and [block.timestamp] are the first two arguments of every
      contract function.  Events are not part of the storage and are left out.
    - The inherited OpenZeppelin contracts ([AccessControl], [Pausable],
      [ReentrancyGuard], version 5) are modelled by their storage and by the
      custom errors their modifiers revert with.
    - A JavaScript number is a [spec_float] (IEEE 754 binary64); the built-ins
      the handlers call ([parseFloat], [ToNumber] on strings, the ethers
      conversions) are section variables. *)

From Stdlib Require Import ZArith Lia String List Bool SpecFloat.
From stdpp Require Import base gmap strings list sorting.

Local Open Scope Z_scope.

(** ** Results of a call *)

Definition address := Z.

Inductive Role := DEFAULT_ADMIN_ROLE | ADMIN_ROLE | ORACLE_ROLE.

Inductive Error :=
| RequireFailed (reason : string)
| Panic (code : Z)
| EnforcedPause
| ExpectedPause
| ReentrancyGuardReentrantCall
| AccessControlUnauthorizedAccount (account : address) (neededRole : Role)
| AccessControlBadConfirmation.

Inductive Result (A : Type) :=
| Ok (a : A)
| Err (e : Error).
Arguments Ok {A} a.
Arguments Err {A} e.

#[global] Instance Result_ret : MRet Result := fun A a => Ok a.

#[global] Instance Result_bind : MBind Result := fun A B k r =>
  match r with
  | Ok a => k a
  | Err e => Err e
  end.

#[global] Instance Result_fmap : FMap Result := fun A B f r =>
  match r with
  | Ok a => Ok (f a)
  | Err e => Err e
  end.

Definition require (c : bool) (reason : string) : Result unit :=
  if c then Ok tt else Err (RequireFailed reason).

(** ** Checked [uint256] arithmetic *)

Definition MAX_UINT256 : Z := 2 ^ 256 - 1.
Definition BASIS_POINTS : Z := 10000.

Definition ARITHMETIC_OVERFLOW : Z := 17. (* Panic(0x11) *)
Definition DIVISION_BY_ZERO : Z := 18.    (* Panic(0x12) *)

Definition checked_add (a b : Z) : Result Z :=
  if a + b <=? MAX_UINT256 then Ok (a + b) else Err (Panic ARITHMETIC_OVERFLOW).

Definition checked_sub (a b : Z) : Result Z :=
  if b <=? a then Ok (a - b) else Err (Panic ARITHMETIC_OVERFLOW).

Definition checked_mul (a b : Z) : Result Z :=
  if a * b <=? MAX_UINT256 then Ok (a * b) else Err (Panic ARITHMETIC_OVERFLOW).

Definition checked_div (a b : Z) : Result Z :=
  if b =? 0 then Err (Panic DIVISION_BY_ZERO) else Ok (a / b).

(** ** calculateAccuracy (PredictionLogger.sol) *)

Definition calculateAccuracy (predictedPrice actualPrice : Z) : Result Z :=
  if predictedPrice =? actualPrice then Ok BASIS_POINTS
  else
    difference ← (if predictedPrice >? actualPrice
                  then checked_sub predictedPrice actualPrice
                  else checked_sub actualPrice predictedPrice);
    scaled ← checked_mul difference BASIS_POINTS;
    percentageDifference ← checked_div scaled actualPrice;
    if percentageDifference >=? BASIS_POINTS then Ok 0
    else checked_sub BASIS_POINTS percentageDifference.

(** ** Storage of the contract *)

#[global] Instance Role_eq_dec : EqDecision Role.
Proof. solve_decision. Defined.

Definition Role_to_nat (r : Role) : nat :=
  match r with DEFAULT_ADMIN_ROLE => 0%nat | ADMIN_ROLE => 1%nat | ORACLE_ROLE => 2%nat end.

Definition Role_of_nat (n : nat) : option Role :=
  match n with
  | 0%nat => Some DEFAULT_ADMIN_ROLE
  | 1%nat => Some ADMIN_ROLE
  | 2%nat => Some ORACLE_ROLE
  | _ => None
  end.

#[global] Instance Role_countable : Countable Role.
Proof.
  refine (inj_countable Role_to_nat Role_of_nat _).
  intros []; reflexivity.
Defined.

(** struct Prediction *)
Module Prediction.
Record t := mk {
  id : Z;
  predictor : address;
  cryptocurrency : string;
  currentPrice : Z;
  predictedPrice : Z;
  predictionTimestamp : Z;
  targetTimestamp : Z;
  modelType : string;
  isResolved : bool;
  actualPrice : Z;
  wasAccurate : bool;
  accuracyPercentage : Z;
  additionalData : string
}.

(** The value a [mapping(uint256 => Prediction)] holds at a key never written. *)
Definition zero : t := mk 0 0 "" 0 0 0 0 "" false 0 false 0 "".

(** The four storage writes of [resolvePrediction] to [prediction]. *)
Definition resolve (p : t) (actual : Z) (accuracy : Z) (accurate : bool) : t :=
  mk (id p) (predictor p) (cryptocurrency p) (currentPrice p) (predictedPrice p)
     (predictionTimestamp p) (targetTimestamp p) (modelType p)
     true actual accurate accuracy (additionalData p).
End Prediction.

(** struct UserStats *)
Module UserStats.
Record t := mk {
  totalPredictions : Z;
  accuratePredictions : Z;
  totalAccuracyScore : Z;
  modelTypeCount : gmap string Z;
  cryptoCount : gmap string Z
}.
Definition zero : t := mk 0 0 0 ∅ ∅.
End UserStats.

(** struct ModelPerformance *)
Module ModelPerformance.
Record t := mk {
  totalPredictions : Z;
  accuratePredictions : Z;
  totalAccuracyScore : Z;
  cryptoPerformance : gmap string Z
}.
Definition zero : t := mk 0 0 0 ∅.
End ModelPerformance.

(** Reading a [mapping]: a key never written holds the zero value of the
    value type. *)
Class ZeroValue (V : Type) := zero_value : V.

#[global] Instance Z_zero : ZeroValue Z := 0.
#[global] Instance list_zero {A} : ZeroValue (list A) := [].
#[global] Instance Prediction_zero : ZeroValue Prediction.t := Prediction.zero.
#[global] Instance UserStats_zero : ZeroValue UserStats.t := UserStats.zero.
#[global] Instance ModelPerformance_zero : ZeroValue ModelPerformance.t :=
  ModelPerformance.zero.

Definition get {K V} `{Countable K} `{ZeroValue V} (m : gmap K V) (k : K) : V :=
  default zero_value (m !! k).

(** The storage variables of [PredictionLogger], followed by the storage of
    the contracts it inherits from: [Pausable._paused],
    [ReentrancyGuard._status] ([true] for ENTERED) and
    [AccessControl._roles] (the pairs [(role, account)] with [hasRole]). *)
Record State := mkState {
  predictions : gmap Z Prediction.t;
  userStats : gmap address UserStats.t;
  userPredictions : gmap address (list Z);
  modelPerformance : gmap string ModelPerformance.t;
  cryptoPredictions : gmap string (list Z);
  modelTypePredictions : gmap string (list Z);
  predictionCounter : Z;
  accuracyThreshold : Z;
  paused : bool;
  entered : bool;
  roles : gset (Role * address)
}.

Definition set_paused (b : bool) (s : State) : State :=
  mkState (predictions s) (userStats s) (userPredictions s) (modelPerformance s)
          (cryptoPredictions s) (modelTypePredictions s) (predictionCounter s)
          (accuracyThreshold s) b (entered s) (roles s).

Definition set_entered (b : bool) (s : State) : State :=
  mkState (predictions s) (userStats s) (userPredictions s) (modelPerformance s)
          (cryptoPredictions s) (modelTypePredictions s) (predictionCounter s)
          (accuracyThreshold s) (paused s) b (roles s).

Definition set_roles (r : gset (Role * address)) (s : State) : State :=
  mkState (predictions s) (userStats s) (userPredictions s) (modelPerformance s)
          (cryptoPredictions s) (modelTypePredictions s) (predictionCounter s)
          (accuracyThreshold s) (paused s) (entered s) r.

Definition set_accuracyThreshold (t : Z) (s : State) : State :=
  mkState (predictions s) (userStats s) (userPredictions s) (modelPerformance s)
          (cryptoPredictions s) (modelTypePredictions s) (predictionCounter s)
          t (paused s) (entered s) (roles s).

Definition hasRole (r : Role) (account : address) (s : State) : bool :=
  bool_decide ((r, account) ∈ roles s).

(** [constructor()]: every mapping empty, the counter 0, the threshold 500,
    not paused, and the three roles granted to the deployer. *)
Definition constructor (deployer : address) : State :=
  mkState ∅ ∅ ∅ ∅ ∅ ∅ 0 500 false false
          ({[ (DEFAULT_ADMIN_ROLE, deployer) ]} ∪ {[ (ADMIN_ROLE, deployer) ]}
             ∪ {[ (ORACLE_ROLE, deployer) ]}).

(** ** Modifiers *)

Definition predictionExists (predictionId : Z) (s : State) : Result unit :=
  require ((0 <? predictionId) && (predictionId <=? predictionCounter s))
          "Prediction does not exist".

Definition notResolved (predictionId : Z) (s : State) : Result unit :=
  require (negb (Prediction.isResolved (get (predictions s) predictionId)))
          "Prediction already resolved".

Definition whenNotPaused (s : State) : Result unit :=
  if paused s then Err EnforcedPause else Ok tt.

Definition whenPaused (s : State) : Result unit :=
  if paused s then Ok tt else Err ExpectedPause.

Definition nonReentrantBefore (s : State) : Result State :=
  if entered s then Err ReentrancyGuardReentrantCall else Ok (set_entered true s).

Definition nonReentrantAfter (s : State) : State := set_entered false s.

Definition onlyRole (r : Role) (sender : address) (s : State) : Result unit :=
  if hasRole r sender s then Ok tt else Err (AccessControlUnauthorizedAccount sender r).

(** ** makePrediction *)

Definition makePrediction (sender : address) (now : Z)
    (cryptocurrency : string) (currentPrice predictedPrice targetTimestamp : Z)
    (modelType additionalData : string) (s : State) : Result (State * Z) :=
  s ← nonReentrantBefore s;
  _ ← whenNotPaused s;
  _ ← require (0 <? Z.of_nat (String.length cryptocurrency)) "Cryptocurrency cannot be empty";
  _ ← require (0 <? currentPrice) "Current price must be greater than 0";
  _ ← require (0 <? predictedPrice) "Predicted price must be greater than 0";
  _ ← require (now <? targetTimestamp) "Target timestamp must be in the future";
  _ ← require (0 <? Z.of_nat (String.length modelType)) "Model type cannot be empty";
  predictionId ← checked_add (predictionCounter s) 1;
  let prediction :=
    Prediction.mk predictionId sender cryptocurrency currentPrice predictedPrice
                  now targetTimestamp modelType false 0 false 0 additionalData in
  (* Update user stats *)
  let stats := get (userStats s) sender in
  total ← checked_add (UserStats.totalPredictions stats) 1;
  perModel ← checked_add (get (UserStats.modelTypeCount stats) modelType) 1;
  perCrypto ← checked_add (get (UserStats.cryptoCount stats) cryptocurrency) 1;
  let stats' :=
    UserStats.mk total (UserStats.accuratePredictions stats)
                 (UserStats.totalAccuracyScore stats)
                 (<[modelType := perModel]> (UserStats.modelTypeCount stats))
                 (<[cryptocurrency := perCrypto]> (UserStats.cryptoCount stats)) in
  (* Update model performance *)
  let perf := get (modelPerformance s) modelType in
  perfTotal ← checked_add (ModelPerformance.totalPredictions perf) 1;
  let perf' :=
    ModelPerformance.mk perfTotal (ModelPerformance.accuratePredictions perf)
                        (ModelPerformance.totalAccuracyScore perf)
                        (ModelPerformance.cryptoPerformance perf) in
  Ok (nonReentrantAfter
        (mkState (<[predictionId := prediction]> (predictions s))
                 (<[sender := stats']> (userStats s))
                 (<[sender := get (userPredictions s) sender ++ [predictionId]]>
                    (userPredictions s))
                 (<[modelType := perf']> (modelPerformance s))
                 (<[cryptocurrency := get (cryptoPredictions s) cryptocurrency ++ [predictionId]]>
                    (cryptoPredictions s))
                 (<[modelType := get (modelTypePredictions s) modelType ++ [predictionId]]>
                    (modelTypePredictions s))
                 predictionId (accuracyThreshold s) (paused s) (entered s) (roles s)),
      predictionId).

(** ** resolvePrediction *)

Definition resolvePrediction (sender : address) (now : Z)
    (predictionId actualPrice : Z) (s : State) : Result (State * unit) :=
  _ ← predictionExists predictionId s;
  _ ← notResolved predictionId s;
  let prediction := get (predictions s) predictionId in
  _ ← require (hasRole ORACLE_ROLE sender s
               || bool_decide (Prediction.predictor prediction = sender))
              "Not authorized to resolve prediction";
  _ ← require (0 <? actualPrice) "Actual price must be greater than 0";
  _ ← require (Prediction.targetTimestamp prediction <=? now)
              "Cannot resolve before target timestamp";
  (* Calculate accuracy *)
  accuracyPercentage ← calculateAccuracy (Prediction.predictedPrice prediction) actualPrice;
  (* Determine if prediction was accurate based on threshold *)
  bound ← checked_sub BASIS_POINTS (accuracyThreshold s);
  let wasAccurate := bound <=? accuracyPercentage in
  (* Update user stats *)
  let stats := get (userStats s) (Prediction.predictor prediction) in
  accurate ← (if wasAccurate then checked_add (UserStats.accuratePredictions stats) 1
              else Ok (UserStats.accuratePredictions stats));
  score ← checked_add (UserStats.totalAccuracyScore stats) accuracyPercentage;
  let stats' :=
    UserStats.mk (UserStats.totalPredictions stats) accurate score
                 (UserStats.modelTypeCount stats) (UserStats.cryptoCount stats) in
  (* Update model performance *)
  let modelPerf := get (modelPerformance s) (Prediction.modelType prediction) in
  perfAccurate ← (if wasAccurate
                  then checked_add (ModelPerformance.accuratePredictions modelPerf) 1
                  else Ok (ModelPerformance.accuratePredictions modelPerf));
  perfScore ← checked_add (ModelPerformance.totalAccuracyScore modelPerf) accuracyPercentage;
  let modelPerf' :=
    ModelPerformance.mk (ModelPerformance.totalPredictions modelPerf) perfAccurate perfScore
                        (ModelPerformance.cryptoPerformance modelPerf) in
  Ok (mkState (<[predictionId :=
                   Prediction.resolve prediction actualPrice accuracyPercentage wasAccurate]>
                 (predictions s))
              (<[Prediction.predictor prediction := stats']> (userStats s))
              (userPredictions s)
              (<[Prediction.modelType prediction := modelPerf']> (modelPerformance s))
              (cryptoPredictions s) (modelTypePredictions s)
              (predictionCounter s) (accuracyThreshold s) (paused s) (entered s) (roles s),
      tt).

(** ** Views *)

Definition getUserAccuracyRate (user : address) (s : State) : Result Z :=
  let stats := get (userStats s) user in
  if UserStats.totalPredictions stats =? 0 then Ok 0
  else
    scaled ← checked_mul (UserStats.accuratePredictions stats) BASIS_POINTS;
    checked_div scaled (UserStats.totalPredictions stats).


Definition getUserPredictions (user : address) (s : State) : list Z :=
  get (userPredictions s) user.

Definition getCryptoPredictions (cryptocurrency : string) (s : State) : list Z :=
  get (cryptoPredictions s) cryptocurrency.

Definition getModelTypePredictions (modelType : string) (s : State) : list Z :=
  get (modelTypePredictions s) modelType.

(** ** Admin functions *)

Definition setAccuracyThreshold (sender : address) (newThreshold : Z) (s : State)
  : Result (State * unit) :=
  _ ← onlyRole ADMIN_ROLE sender s;
  _ ← require (newThreshold <=? BASIS_POINTS) "Threshold cannot exceed 100%";
  Ok (set_accuracyThreshold newThreshold s, tt).

Definition pause (sender : address) (s : State) : Result (State * unit) :=
  _ ← onlyRole ADMIN_ROLE sender s;
  _ ← whenNotPaused s;
  Ok (set_paused true s, tt).

Definition unpause (sender : address) (s : State) : Result (State * unit) :=
  _ ← onlyRole ADMIN_ROLE sender s;
  _ ← whenPaused s;
  Ok (set_paused false s, tt).

Definition _grantRole (r : Role) (account : address) (s : State) : State :=
  set_roles ({[ (r, account) ]} ∪ roles s) s.

Definition _revokeRole (r : Role) (account : address) (s : State) : State :=
  set_roles (roles s ∖ {[ (r, account) ]}) s.

Definition grantOracleRole (sender oracle : address) (s : State) : Result (State * unit) :=
  _ ← onlyRole ADMIN_ROLE sender s;
  Ok (_grantRole ORACLE_ROLE oracle s, tt).

Definition revokeOracleRole (sender oracle : address) (s : State) : Result (State * unit) :=
  _ ← onlyRole ADMIN_ROLE sender s;
  Ok (_revokeRole ORACLE_ROLE oracle s, tt).

(** The external functions inherited from [AccessControl].  The contract never
    calls [_setRoleAdmin], so the admin role of every role is
    [DEFAULT_ADMIN_ROLE]. *)
Definition grantRole (sender : address) (r : Role) (account : address) (s : State)
  : Result (State * unit) :=
  _ ← onlyRole DEFAULT_ADMIN_ROLE sender s;
  Ok (_grantRole r account s, tt).

Definition revokeRole (sender : address) (r : Role) (account : address) (s : State)
  : Result (State * unit) :=
  _ ← onlyRole DEFAULT_ADMIN_ROLE sender s;
  Ok (_revokeRole r account s, tt).

Definition renounceRole (sender : address) (r : Role) (callerConfirmation : address)
    (s : State) : Result (State * unit) :=
  if bool_decide (callerConfirmation = sender)
  then Ok (_revokeRole r callerConfirmation s, tt)
  else Err AccessControlBadConfirmation.

(** ** Transactions *)

Inductive Call :=
| MakePrediction (cryptocurrency : string) (currentPrice predictedPrice targetTimestamp : Z)
                 (modelType additionalData : string)
| ResolvePrediction (predictionId actualPrice : Z)
| SetAccuracyThreshold (newThreshold : Z)
| Pause
| Unpause
| GrantOracleRole (oracle : address)
| RevokeOracleRole (oracle : address)
| GrantRole (r : Role) (account : address)
| RevokeRole (r : Role) (account : address)
| RenounceRole (r : Role) (callerConfirmation : address).

Definition dispatch (sender : address) (now : Z) (c : Call) (s : State) : Result State :=
  match c with
  | MakePrediction cryptocurrency currentPrice predictedPrice targetTimestamp
                   modelType additionalData =>
      fst <$> makePrediction sender now cryptocurrency currentPrice predictedPrice
                targetTimestamp modelType additionalData s
  | ResolvePrediction predictionId actualPrice =>
      fst <$> resolvePrediction sender now predictionId actualPrice s
  | SetAccuracyThreshold newThreshold => fst <$> setAccuracyThreshold sender newThreshold s
  | Pause => fst <$> pause sender s
  | Unpause => fst <$> unpause sender s
  | GrantOracleRole oracle => fst <$> grantOracleRole sender oracle s
  | RevokeOracleRole oracle => fst <$> revokeOracleRole sender oracle s
  | GrantRole r account => fst <$> grantRole sender r account s
  | RevokeRole r account => fst <$> revokeRole sender r account s
  | RenounceRole r callerConfirmation => fst <$> renounceRole sender r callerConfirmation s
  end.

(** A transaction either commits the state its call computed or reverts and
    leaves the storage as it found it. *)
Definition execute (sender : address) (now : Z) (c : Call) (s : State)
  : State * option Error :=
  match dispatch sender now c s with
  | Ok s' => (s', None)
  | Err e => (s, Some e)
  end.

(** One committed transaction. *)
Definition step (s s' : State) : Prop :=
  ∃ sender now c, dispatch sender now c s = Ok s'.

(** The states the contract can be in: the state the constructor leaves,
    followed by any number of committed transactions. *)
Inductive reachable : State → Prop :=
| reachable_constructor deployer : reachable (constructor deployer)
| reachable_step s s' : reachable s → step s s' → reachable s'.

(** ** What the statistics are meant to count *)

Definition storedPredictions (s : State) : list Prediction.t :=
  get (predictions s) <$> seqZ 1 (predictionCounter s).

Definition madeBy (u : address) (p : Prediction.t) : Prop :=
  Prediction.predictor p = u.

Definition accurateBy (u : address) (p : Prediction.t) : Prop :=
  Prediction.predictor p = u ∧ Prediction.isResolved p = true
  ∧ Prediction.wasAccurate p = true.

#[global] Instance madeBy_dec u p : Decision (madeBy u p).
Proof. unfold madeBy. apply _. Defined.

#[global] Instance accurateBy_dec u p : Decision (accurateBy u p).
Proof. unfold accurateBy. apply _. Defined.

#[global] Typeclasses Opaque madeBy accurateBy.

Definition countMadeBy (u : address) (s : State) : Z :=
  Z.of_nat (length (filter (madeBy u) (storedPredictions s))).

Definition countAccurateBy (u : address) (s : State) : Z :=
  Z.of_nat (length (filter (accurateBy u) (storedPredictions s))).

Definition stats_consistent (s : State) : Prop :=
  ∀ u, UserStats.totalPredictions (get (userStats s) u) = countMadeBy u s
       ∧ UserStats.accuratePredictions (get (userStats s) u) = countAccurateBy u s.

(** ** The API layer: JavaScript values

    A JavaScript number is an IEEE 754 binary64, here a [spec_float];
    [a > b] on numbers is [SFltb b a] and [a <= b] is [SFleb a b], both false
    when an operand is NaN. *)

#[warnings="-register-all"] Inductive JsValue :=
| JUndefined
| JNull
| JBool (b : bool)
| JNumber (x : spec_float)
| JString (s : string)
| JArray (items : list JsValue)
| JObject (props : list (string * JsValue)).

Inductive Thrown :=
| TypeError
| ServiceError (message : string).

Fixpoint lookupProp (k : string) (props : list (string * JsValue)) : JsValue :=
  match props with
  | [] => JUndefined
  | (k', v) :: rest => if String.eqb k k' then v else lookupProp k rest
  end.

(** [v.k] for the property names the handlers read ([predictionId], [id],
    [actualPrice], [predictions]): reading a property of [null] or
    [undefined] throws a TypeError, an object yields its own property, and
    every other value yields [undefined]. *)
Definition getProp (v : JsValue) (k : string) : Thrown + JsValue :=
  match v with
  | JUndefined | JNull => inl TypeError
  | JObject props => inr (lookupProp k props)
  | _ => inr JUndefined
  end.

Definition ToBoolean (v : JsValue) : bool :=
  match v with
  | JUndefined | JNull => false
  | JBool b => b
  | JNumber (S754_zero _) | JNumber S754_nan => false
  | JNumber _ => true
  | JString s => negb (String.eqb s "")
  | JArray _ | JObject _ => true
  end.

(** [a || b] *)
Definition jsOr (a b : JsValue) : JsValue := if ToBoolean a then a else b.

Definition js_zero : spec_float := S754_zero false.
Definition js_one : spec_float := S754_finite false 4503599627370496 (-52).

(** ** Sentiment classification of GET /api/crypto/:symbol/analysis *)

Module Api.
(** A prediction as [blockchainService.getPrediction] returns it: the
    numeric fields are decimal strings. *)
Record Prediction := mkPrediction {
  id : string;
  predictor : string;
  cryptocurrency : string;
  currentPrice : string;
  predictedPrice : string;
  predictionTimestamp : string;
  targetTimestamp : string;
  modelType : string;
  isResolved : bool;
  actualPrice : option string;
  wasAccurate : bool;
  accuracyPercentage : string;
  additionalData : string
}.

Record Sentiment := mkSentiment {
  bullish : Z;
  bearish : Z;
  neutral : Z;
  sentiment : string
}.
End Api.

Section Sentiment.
(** The built-in [parseFloat]. *)
Variable parseFloat : string → spec_float.

(** The body of the [forEach] callback, on the pair
    [(bullishCount, bearishCount)]. *)
Definition countSentiment (counts : Z * Z) (p : Api.Prediction) : Z * Z :=
  let '(bullishCount, bearishCount) := counts in
  if SFltb (parseFloat (Api.currentPrice p)) (parseFloat (Api.predictedPrice p))
  then (bullishCount + 1, bearishCount)
  else (bullishCount, bearishCount + 1).

(** [predictedPrice > currentPrice] on the parsed prices. *)
Definition predictsRise (p : Api.Prediction) : bool :=
  SFltb (parseFloat (Api.currentPrice p)) (parseFloat (Api.predictedPrice p)).

Definition analyseSentiment (filteredPredictions : list Api.Prediction) : Api.Sentiment :=
  let '(bullishCount, bearishCount) := foldl countSentiment (0, 0) filteredPredictions in
  Api.mkSentiment
    bullishCount bearishCount
    (Z.of_nat (length filteredPredictions) - bullishCount - bearishCount)
    (if bearishCount <? bullishCount then "bullish"
     else if bullishCount <? bearishCount then "bearish" else "neutral").
End Sentiment.

(** ** POST /api/admin/bulk-resolve *)

Record Receipt := mkReceipt {
  txHash : string;
  blockNumber : Z;
  gasUsed : string
}.

(** An element of [results]: [{ predictionId: resolveId, ...result }]. *)
Record ResolvedItem := mkResolvedItem {
  resolvedId : JsValue;
  receipt : Receipt
}.

(** An element of [errors]: [{ predictionId, error }]. *)
Record FailedItem := mkFailedItem {
  failedId : JsValue;
  error : string
}.

(** The [data] object of the 200 response. *)
Record BulkReport := mkBulkReport {
  resolved : Z;
  failed : Z;
  details : list ResolvedItem;
  errors : list FailedItem;
  summary_total : Z;
  summary_successful : Z;
  summary_failed : Z
}.

Inductive Response :=
| Forbidden (error : string)          (* res.status(403) *)
| BadRequest (error : string)         (* res.status(400) *)
| Json (data : BulkReport)            (* res.json({ success: true, data }) *)
| Next (thrown : Thrown).             (* next(error) *)

(** [requireAdmin]: [!adminKey || adminKey !== process.env.ADMIN_API_KEY]. *)
Definition requireAdmin (adminKey envKey : option string) : bool :=
  match adminKey with
  | None => false
  | Some k => negb (String.eqb k "") && bool_decide (envKey = Some k)
  end.

Section BulkResolve.
(** The ledger behind [blockchainService]. *)
Context {Chain : Type}.

(** [ToNumber] on strings and on objects (the string grammar and
    [ToPrimitive]). *)
Variable StringToNumber : string → spec_float.
Variable ObjectToNumber : JsValue → spec_float.

(** [blockchainService.resolvePrediction(resolveId, actualPrice)]: the state
    of the ledger after the call, with the receipt it returned or the
    message of the error it threw. *)
Variable resolveOnChain : JsValue → JsValue → Chain → Chain * (string + Receipt).

Definition ToNumber (v : JsValue) : spec_float :=
  match v with
  | JUndefined => S754_nan
  | JNull => js_zero
  | JBool b => if b then js_one else js_zero
  | JNumber x => x
  | JString s => StringToNumber s
  | JArray _ | JObject _ => ObjectToNumber v
  end.

(** The loop state: the ledger and the two arrays. *)
Definition LoopState : Type := Chain * list ResolvedItem * list FailedItem.

(** The body of the inner [try]: either what it threw (with the ledger as
    the throwing call left it) or the state after it. *)
Definition tryBody (pred : JsValue) (st : LoopState) : (Chain * Thrown) + LoopState :=
  let '(chain, results, errors) := st in
  match getProp pred "predictionId", getProp pred "id", getProp pred "actualPrice" with
  | inr predictionId, inr id, inr actualPrice =>
      let resolveId := jsOr predictionId id in
      if negb (ToBoolean resolveId) || negb (ToBoolean actualPrice)
         || SFleb (ToNumber actualPrice) js_zero
      then inr (chain, results, errors ++ [mkFailedItem resolveId "Invalid prediction data"])
      else
        match resolveOnChain resolveId actualPrice chain with
        | (chain', inr result) =>
            inr (chain', results ++ [mkResolvedItem resolveId result], errors)
        | (chain', inl message) => inl (chain', ServiceError message)
        end
  | _, _, _ => inl (chain, TypeError)
  end.

Definition errorMessage (t : Thrown) : string :=
  match t with
  | TypeError => "TypeError"
  | ServiceError message => message
  end.

(** The inner [catch] block:
    [errors.push({ predictionId: pred.predictionId || pred.id, error: error.message })].
    It reads [pred] again, and throws in its turn when that read throws. *)
Definition catchBlock (pred : JsValue) (thrown : Thrown) (st : LoopState)
  : (Chain * Thrown) + LoopState :=
  let '(chain, results, errors) := st in
  match getProp pred "predictionId" with
  | inl t => inl (chain, t)
  | inr predictionId =>
      if ToBoolean predictionId
      then inr (chain, results, errors ++ [mkFailedItem predictionId (errorMessage thrown)])
      else
        match getProp pred "id" with
        | inl t => inl (chain, t)
        | inr id => inr (chain, results, errors ++ [mkFailedItem id (errorMessage thrown)])
        end
  end.

(** One iteration of [for (const pred of predictions)]. *)
Definition iteration (pred : JsValue) (st : LoopState) : (Chain * Thrown) + LoopState :=
  match tryBody pred st with
  | inr st' => inr st'
  | inl (chain', thrown) =>
      let '(_, results, errors) := st in
      catchBlock pred thrown (chain', results, errors)
  end.

(** The [for] loop; an exception that leaves an iteration leaves the loop. *)
Fixpoint forOf (predictions : list JsValue) (st : LoopState) : (Chain * Thrown) + LoopState :=
  match predictions with
  | [] => inr st
  | pred :: rest =>
      match iteration pred st with
      | inr st' => forOf rest st'
      | inl t => inl t
      end
  end.

(** The route handler after [requireAdmin]: the ledger it leaves and the
    response it sends. *)
Definition bulkResolve (body : JsValue) (chain : Chain) : Chain * Response :=
  match getProp body "predictions" with
  | inl t => (chain, Next t)
  | inr (JArray predictions) =>
      if (length predictions =? 0)%nat
      then (chain, BadRequest "Predictions array is required and must not be empty")
      else
        match forOf predictions (chain, [], []) with
        | inr (chain', results, errors) =>
            (chain',
             Json (mkBulkReport
                     (Z.of_nat (length results)) (Z.of_nat (length errors))
                     results errors
                     (Z.of_nat (length predictions))
                     (Z.of_nat (length results)) (Z.of_nat (length errors))))
        | inl (chain', t) => (chain', Next t)
        end
  | inr _ => (chain, BadRequest "Predictions array is required and must not be empty")
  end.

Definition bulkResolveRoute (adminKey envKey : option string) (body : JsValue)
    (chain : Chain) : Chain * Response :=
  if requireAdmin adminKey envKey then bulkResolve body chain
  else (chain, Forbidden "Admin privileges required").
End BulkResolve.

(** ** blockchainService.resolvePrediction over the contract *)

(** The ledger the service talks to: the contract's storage, the account of
    the service's signer and the timestamp of the block that includes the
    transaction. *)
Record Ledger := mkLedger {
  contractState : State;
  signer : address;
  blockTimestamp : Z
}.

Section BlockchainService.
(** The ethers library: the encoding of a value as a [uint256] argument and
    [ethers.parseUnits(v.toString(), 18)], [None] where they throw; and the
    receipt of a mined transaction. *)
Variable toUint256 : JsValue → option Z.
Variable parseUnits18 : JsValue → option Z.
Variable receiptOf : State → Receipt.
(** [error.message] of what ethers throws: for a value it cannot convert, and
    for a call the contract reverts (a text that embeds the revert reason
    among other fields of the failed call). *)
Variable invalidValueMessage : JsValue → string.
Variable revertMessage : Error → string.

Definition serviceResolvePrediction (predictionId actualPrice : JsValue) (l : Ledger)
  : Ledger * (string + Receipt) :=
  match parseUnits18 actualPrice with
  | None => (l, inl (invalidValueMessage actualPrice))
  | Some price =>
      match toUint256 predictionId with
      | None => (l, inl (invalidValueMessage predictionId))
      | Some pid =>
          match resolvePrediction (signer l) (blockTimestamp l) pid price (contractState l) with
          | Ok (s', _) => (mkLedger s' (signer l) (blockTimestamp l), inr (receiptOf s'))
          | Err e => (l, inl (revertMessage e))
          end
      end
  end.
End BlockchainService.

(** ** Auxiliary notions for the properties *)

(** The accuracy flag [resolvePrediction] derives from a score. *)
Definition meetsThreshold (s : State) (accuracy : Z) : bool :=
  BASIS_POINTS - accuracyThreshold s <=? accuracy.

Definition flag (b : bool) : Z := if b then 1 else 0.

(** The admin and role calls leave the ledger part of the storage alone. *)
Definition same_ledger (s s' : State) : Prop :=
  predictions s' = predictions s
  ∧ userStats s' = userStats s
  ∧ userPredictions s' = userPredictions s
  ∧ modelPerformance s' = modelPerformance s
  ∧ cryptoPredictions s' = cryptoPredictions s
  ∧ modelTypePredictions s' = modelTypePredictions s
  ∧ predictionCounter s' = predictionCounter s
  ∧ entered s' = entered s.

Definition ledger_inv (s : State) : Prop :=
  0 <= predictionCounter s ∧ stats_consistent s.

(** Running a list of transactions [(sender, timestamp, call)] in order. *)
Definition run (txs : list (address * Z * Call)) (s : State) : State :=
  foldl (λ st tx, (execute tx.1.1 tx.1.2 tx.2 st).1) s txs.

(** The prediction [i] exists, is resolved and reads [p]. *)
Definition sealed (i : Z) (p : Prediction.t) (s : State) : Prop :=
  (0 < i <= predictionCounter s)
  ∧ get (predictions s) i = p
  ∧ Prediction.isResolved p = true.

(** ** Example ledgers *)

(** The scenario of the specification: account 7 submits a BTC prediction
    (current price 50000, predicted 55000, target one hour ahead, model LSTM),
    then resolves it at 54000 once the target time has passed. *)
Definition scenario_submitted : State :=
  run [(7, 100, MakePrediction "BTC" 50000 55000 3700 "LSTM" "{}")] (constructor 1).

Definition scenario_resolved : State :=
  run [(7, 4000, ResolvePrediction 1 54000)] scenario_submitted.

(** Two predictions by account 7, the first resolved accurately and the second
    still pending: the rate is 1 of 2. *)
Definition scenario_pending : State :=
  run [(7, 4100, MakePrediction "ETH" 3000 3300 9000 "LSTM" "{}")] scenario_resolved.

(** After the scenario's resolution: the admin lowers the threshold and
    account 7 submits another prediction. *)
Definition scenario_later : State :=
  run [(1, 5000, SetAccuracyThreshold 100);
       (7, 5001, MakePrediction "BTC" 54000 60000 9000 "ARIMA" "{}")] scenario_resolved.

(** The scenario's prediction is submitted, then the admin pauses the
    contract. *)
Definition scenario_paused : State := run [(1, 200, Pause)] scenario_submitted.

(** ** Example requests *)

(** A prediction whose predicted price equals the current price. *)
Definition flat_prediction : Api.Prediction :=
  Api.mkPrediction "1" "0x0000000000000000000000000000000000000007" "BTC"
                   "50000.0" "50000.0" "100" "3700" "LSTM" false None false "0" "{}".

(** The JavaScript number an integer literal denotes. *)
Definition JNum (n : Z) : JsValue := JNumber (binary_normalize 53 1024 n 0 false).

(** [{ predictionId: n, actualPrice: a }] *)
Definition entry (n a : Z) : JsValue :=
  JObject [("predictionId", JNum n); ("actualPrice", JNum a)].

(** [{ predictions: [...] }] *)
Definition batch (predictions : list JsValue) : JsValue :=
  JObject [("predictions", JArray predictions)].


Definition ether (n : Z) : Z := n * 10 ^ 18.

(** Three pending predictions, by accounts 7, 8 and 9. *)
Definition bulk_state_0 : State :=
  run [(7, 100, MakePrediction "BTC" (ether 50000) (ether 55000) 3700 "LSTM" "{}");
       (8, 110, MakePrediction "ETH" (ether 3000) (ether 3300) 3700 "ARIMA" "{}");
       (9, 120, MakePrediction "SOL" (ether 140) (ether 200) 3700 "LSTM" "{}")]
      (constructor 1).

Definition bulk_state_1 : State :=
  run [(1, 10000, ResolvePrediction 1 (ether 54000))] bulk_state_0.

Definition bulk_state_2 : State :=
  run [(1, 10000, ResolvePrediction 2 (ether 3200))] bulk_state_1.

Definition bulk_state_3 : State :=
  run [(1, 10000, ResolvePrediction 3 (ether 150))] bulk_state_2.

(** ** The remaining views of the contract *)

Definition getModelAccuracyRate (modelType : string) (s : State) : Result Z :=
  let performance := get (modelPerformance s) modelType in
  if ModelPerformance.totalPredictions performance =? 0 then Ok 0
  else
    scaled ← checked_mul (ModelPerformance.accuratePredictions performance) BASIS_POINTS;
    checked_div scaled (ModelPerformance.totalPredictions performance).


Definition getUserModelTypeCount (user : address) (modelType : string) (s : State) : Z :=
  get (UserStats.modelTypeCount (get (userStats s) user)) modelType.

Definition getUserCryptoCount (user : address) (cryptocurrency : string) (s : State) : Z :=
  get (UserStats.cryptoCount (get (userStats s) user)) cryptocurrency.

(** ** Tallies over the stored predictions *)

(** The sum of [f] over the stored predictions. *)
Definition tally (f : Prediction.t → Z) (s : State) : Z :=
  foldr (λ p acc, f p + acc) 0 (storedPredictions s).

(** The number of stored predictions that satisfy [P], and the sum of their
    accuracy scores. *)
Definition countWhere (P : Prediction.t → bool) (s : State) : Z :=
  tally (λ p, if P p then 1 else 0) s.

Definition scoreWhere (P : Prediction.t → bool) (s : State) : Z :=
  tally (λ p, if P p then Prediction.accuracyPercentage p else 0) s.

(** The identifiers of the stored predictions that satisfy [P], in the order
    of creation. *)
Definition idsWhere (P : Prediction.t → bool) (s : State) : list Z :=
  List.filter (λ i, P (get (predictions s) i)) (seqZ 1 (predictionCounter s)).

Definition by_user (u : address) (p : Prediction.t) : bool :=
  bool_decide (Prediction.predictor p = u).

Definition with_model (m : string) (p : Prediction.t) : bool :=
  bool_decide (Prediction.modelType p = m).

Definition on_crypto (c : string) (p : Prediction.t) : bool :=
  bool_decide (Prediction.cryptocurrency p = c).

Definition resolved_accurate (p : Prediction.t) : bool :=
  Prediction.isResolved p && Prediction.wasAccurate p.

(** The storage a successful [makePrediction] commits. *)
Definition submitted (sender : address) (now : Z) (c : string) (cur pred target : Z)
    (m d : string) (s : State) : State :=
  let i := predictionCounter s + 1 in
  let stats := get (userStats s) sender in
  let perf := get (modelPerformance s) m in
  mkState
    (<[i := Prediction.mk i sender c cur pred now target m false 0 false 0 d]> (predictions s))
    (<[sender :=
         UserStats.mk (UserStats.totalPredictions stats + 1)
                      (UserStats.accuratePredictions stats)
                      (UserStats.totalAccuracyScore stats)
                      (<[m := get (UserStats.modelTypeCount stats) m + 1]>
                         (UserStats.modelTypeCount stats))
                      (<[c := get (UserStats.cryptoCount stats) c + 1]>
                         (UserStats.cryptoCount stats))]> (userStats s))
    (<[sender := get (userPredictions s) sender ++ [i]]> (userPredictions s))
    (<[m := ModelPerformance.mk (ModelPerformance.totalPredictions perf + 1)
                                (ModelPerformance.accuratePredictions perf)
                                (ModelPerformance.totalAccuracyScore perf)
                                (ModelPerformance.cryptoPerformance perf)]>
       (modelPerformance s))
    (<[c := get (cryptoPredictions s) c ++ [i]]> (cryptoPredictions s))
    (<[m := get (modelTypePredictions s) m ++ [i]]> (modelTypePredictions s))
    i (accuracyThreshold s) (paused s) false (roles s).

(** The storage a successful [resolvePrediction] commits, given the score
    [calculateAccuracy] returned. *)
Definition settled (i price accuracy : Z) (s : State) : State :=
  let p := get (predictions s) i in
  let hit := meetsThreshold s accuracy in
  let stats := get (userStats s) (Prediction.predictor p) in
  let perf := get (modelPerformance s) (Prediction.modelType p) in
  mkState
    (<[i := Prediction.resolve p price accuracy hit]> (predictions s))
    (<[Prediction.predictor p :=
         UserStats.mk (UserStats.totalPredictions stats)
                      (UserStats.accuratePredictions stats + flag hit)
                      (UserStats.totalAccuracyScore stats + accuracy)
                      (UserStats.modelTypeCount stats) (UserStats.cryptoCount stats)]>
       (userStats s))
    (userPredictions s)
    (<[Prediction.modelType p :=
         ModelPerformance.mk (ModelPerformance.totalPredictions perf)
                             (ModelPerformance.accuratePredictions perf + flag hit)
                             (ModelPerformance.totalAccuracyScore perf + accuracy)
                             (ModelPerformance.cryptoPerformance perf)]>
       (modelPerformance s))
    (cryptoPredictions s) (modelTypePredictions s)
    (predictionCounter s) (accuracyThreshold s) (paused s) (entered s) (roles s).

(** What every stored prediction satisfies. *)
Definition well_formed (i : Z) (p : Prediction.t) : Prop :=
  Prediction.id p = i
  ∧ Prediction.cryptocurrency p ≠ ""
  ∧ Prediction.modelType p ≠ ""
  ∧ 0 < Prediction.currentPrice p
  ∧ 0 < Prediction.predictedPrice p
  ∧ Prediction.predictionTimestamp p < Prediction.targetTimestamp p
  ∧ (Prediction.isResolved p = false →
     Prediction.actualPrice p = 0 ∧ Prediction.wasAccurate p = false
     ∧ Prediction.accuracyPercentage p = 0)
  ∧ (Prediction.isResolved p = true →
     0 < Prediction.actualPrice p ∧ 0 <= Prediction.accuracyPercentage p <= BASIS_POINTS).

Definition ledger_well_formed (s : State) : Prop :=
  0 <= predictionCounter s
  ∧ (∀ i, 0 < i <= predictionCounter s →
          ∃ p, predictions s !! i = Some p ∧ well_formed i p)
  ∧ (∀ i, ¬ (0 < i <= predictionCounter s) → predictions s !! i = None).

(** The aggregates and the index lists, as tallies over the ledger. *)
Definition aggregates_consistent (s : State) : Prop :=
  (∀ u, UserStats.totalAccuracyScore (get (userStats s) u)
        = scoreWhere (λ p, by_user u p && Prediction.isResolved p) s)
  ∧ (∀ u m, getUserModelTypeCount u m s = countWhere (λ p, by_user u p && with_model m p) s)
  ∧ (∀ u c, getUserCryptoCount u c s = countWhere (λ p, by_user u p && on_crypto c p) s)
  ∧ (∀ m, ModelPerformance.totalPredictions (get (modelPerformance s) m)
          = countWhere (with_model m) s)
  ∧ (∀ m, ModelPerformance.accuratePredictions (get (modelPerformance s) m)
          = countWhere (λ p, with_model m p && resolved_accurate p) s)
  ∧ (∀ m, ModelPerformance.totalAccuracyScore (get (modelPerformance s) m)
          = scoreWhere (λ p, with_model m p && Prediction.isResolved p) s)
  ∧ (∀ u, getUserPredictions u s = idsWhere (by_user u) s)
  ∧ (∀ c, getCryptoPredictions c s = idsWhere (on_crypto c) s)
  ∧ (∀ m, getModelTypePredictions m s = idsWhere (with_model m) s).

(** The fields [makePrediction] writes and nothing writes afterwards. *)
Definition same_creation (p p' : Prediction.t) : Prop :=
  Prediction.id p' = Prediction.id p
  ∧ Prediction.predictor p' = Prediction.predictor p
  ∧ Prediction.cryptocurrency p' = Prediction.cryptocurrency p
  ∧ Prediction.currentPrice p' = Prediction.currentPrice p
  ∧ Prediction.predictedPrice p' = Prediction.predictedPrice p
  ∧ Prediction.predictionTimestamp p' = Prediction.predictionTimestamp p
  ∧ Prediction.targetTimestamp p' = Prediction.targetTimestamp p
  ∧ Prediction.modelType p' = Prediction.modelType p
  ∧ Prediction.additionalData p' = Prediction.additionalData p.

(** ** POST /api/admin/pause and /api/admin/unpause *)

(** The object [pauseContract] and [unpauseContract] return:
    [{ txHash: receipt.hash, blockNumber: receipt.blockNumber,
       gasUsed: receipt.gasUsed.toString() }]. *)
Definition receiptObject (r : Receipt) : JsValue :=
  JObject [("txHash", JString (txHash r));
           ("blockNumber", JNum (blockNumber r));
           ("gasUsed", JString (gasUsed r))].

Inductive AdminResponse :=
| AdminForbidden (error : string)                (* res.status(403) *)
| AdminJson (data : JsValue) (message : string)  (* res.json({ success: true, data, message }) *)
| AdminNext (thrown : Thrown).                   (* next(error) *)

Section AdminRoutes.
Context {Chain : Type}.

(** [v.toString()] on a value that is not [null] or [undefined]. *)
Variable toStringOf : JsValue → string.

(** [blockchainService.pauseContract()] and [unpauseContract()]: the ledger
    after the call, with the object returned or the message of the error
    thrown. *)
Variable pauseContract : Chain → Chain * (string + JsValue).
Variable unpauseContract : Chain → Chain * (string + JsValue).

(** [v.toString()] *)
Definition callToString (v : JsValue) : Thrown + JsValue :=
  match v with
  | JUndefined | JNull => inl TypeError
  | _ => inr (JString (toStringOf v))
  end.

(** The [data] object both routes build:
    [{ txHash: result.receipt.hash, blockNumber: result.receipt.blockNumber,
       gasUsed: result.receipt.gasUsed.toString() }]. *)
Definition receiptData (result : JsValue) : Thrown + JsValue :=
  match getProp result "receipt" with
  | inl t => inl t
  | inr receipt =>
      match getProp receipt "hash", getProp receipt "blockNumber",
            getProp receipt "gasUsed" with
      | inr hash, inr number, inr gas =>
          match callToString gas with
          | inl t => inl t
          | inr used =>
              inr (JObject [("txHash", hash); ("blockNumber", number); ("gasUsed", used)])
          end
      | _, _, _ => inl TypeError
      end
  end.

Definition adminRoute (service : Chain → Chain * (string + JsValue)) (message : string)
    (adminKey envKey : option string) (chain : Chain) : Chain * AdminResponse :=
  if requireAdmin adminKey envKey then
    match service chain with
    | (chain', inl thrown) => (chain', AdminNext (ServiceError thrown))
    | (chain', inr result) =>
        match receiptData result with
        | inl t => (chain', AdminNext t)
        | inr data => (chain', AdminJson data message)
        end
    end
  else (chain, AdminForbidden "Admin privileges required").

Definition pauseRoute := adminRoute pauseContract "Contract paused successfully".
Definition unpauseRoute := adminRoute unpauseContract "Contract unpaused successfully".
End AdminRoutes.

Section AdminService.
Variable receiptOf : State → Receipt.
(** [error.message] of what ethers throws for a call the contract reverts. *)
Variable revertMessage : Error → string.

Definition servicePauseContract (l : Ledger) : Ledger * (string + JsValue) :=
  match pause (signer l) (contractState l) with
  | Ok (s', _) => (mkLedger s' (signer l) (blockTimestamp l), inr (receiptObject (receiptOf s')))
  | Err e => (l, inl (revertMessage e))
  end.

Definition serviceUnpauseContract (l : Ledger) : Ledger * (string + JsValue) :=
  match unpause (signer l) (contractState l) with
  | Ok (s', _) => (mkLedger s' (signer l) (blockTimestamp l), inr (receiptObject (receiptOf s')))
  | Err e => (l, inl (revertMessage e))
  end.
End AdminService.

(** ** GET /api/crypto/:symbol/predictions: the query filters *)

Section PredictionFilters.
(** [String.prototype.toLowerCase] *)
Variable toLowerCase : string → string.

(** [resolved], [modelType] and [user] are the query parameters, [None] when
    absent.  [resolved] filters as soon as it is present, on
    [resolved === 'true']; the other two filter when they are not empty. *)
Definition applyFilters (resolved modelType user : option string)
    (predictions : list Api.Prediction) : list Api.Prediction :=
  let predictions :=
    match resolved with
    | Some r =>
        List.filter (λ p, Bool.eqb (Api.isResolved p) (String.eqb r "true")) predictions
    | None => predictions
    end in
  let predictions :=
    match modelType with
    | Some m =>
        if String.eqb m "" then predictions
        else List.filter (λ p, String.eqb (toLowerCase (Api.modelType p)) (toLowerCase m))
                         predictions
    | None => predictions
    end in
  match user with
  | Some u =>
      if String.eqb u "" then predictions
      else List.filter (λ p, String.eqb (toLowerCase (Api.predictor p)) (toLowerCase u))
                       predictions
  | None => predictions
  end.
End PredictionFilters.

(** ** GET /api/crypto/trending *)

Module Trend.
Record Entry := mk {
  symbol : string;
  totalPredictions : Z;
  recentPredictions : Z;
  trendScore : Z
}.
End Trend.

Definition trendingCryptos : list string :=
  ["BTC"; "ETH"; "BLOCKDAG"; "ADA"; "SOL"; "DOT"; "LINK"; "UNI"; "AVAX"; "MATIC"].

(** [items.sort((a, b) => b.trendScore - a.trendScore)]: the sort is stable,
    so an entry goes before the first entry whose score is not larger. *)
Fixpoint insertByScore (x : Trend.Entry) (l : list Trend.Entry) : list Trend.Entry :=
  match l with
  | [] => [x]
  | y :: rest =>
      if Trend.trendScore x <? Trend.trendScore y then y :: insertByScore x rest
      else x :: y :: rest
  end.

Definition sortByScore (l : list Trend.Entry) : list Trend.Entry :=
  foldr insertByScore [] l.

(** [items.slice(0, end)] for [end = parseInt(limit)], [None] standing for
    NaN: NaN counts as 0 and a negative end counts from the back. *)
Definition sliceTo {A} (limit : option Z) (l : list A) : list A :=
  match limit with
  | None => []
  | Some n =>
      if n <? 0 then take (Z.to_nat (Z.of_nat (length l) + n)) l
      else take (Z.to_nat n) l
  end.

(** [a] may stand before [b] in the ranking. *)
Definition outranks (a b : Trend.Entry) : Prop := Trend.trendScore b <= Trend.trendScore a.

Section Trending.
(** [parseInt], [None] for NaN. *)
Variable parseInt : string → option Z.
(** [blockchainService.getCryptoPredictions(crypto)]: the error thrown or the
    predictions. *)
Variable fetchPredictions : string → string + list Api.Prediction.
(** [Date.now()] *)
Variable now : Z.

Definition oneDayAgo : spec_float :=
  SFsub 53 1024 (binary_normalize 53 1024 now 0 false)
        (binary_normalize 53 1024 (24 * 60 * 60 * 1000) 0 false).

(** [parseInt(p.predictionTimestamp) * 1000 > oneDayAgo] *)
Definition isRecent (p : Api.Prediction) : bool :=
  match parseInt (Api.predictionTimestamp p) with
  | None => false
  | Some t =>
      SFltb oneDayAgo
            (SFmul 53 1024 (binary_normalize 53 1024 t 0 false)
                   (binary_normalize 53 1024 1000 0 false))
  end.

(** The entry of one symbol; a failed service call gives the zero entry. *)
Definition activityOf (crypto : string) : Trend.Entry :=
  match fetchPredictions crypto with
  | inr predictions =>
      let recentPredictions := List.filter isRecent predictions in
      Trend.mk crypto (Z.of_nat (length predictions))
               (Z.of_nat (length recentPredictions))
               (Z.of_nat (length recentPredictions) * 2 + Z.of_nat (length predictions))
  | inl _ => Trend.mk crypto 0 0 0
  end.

(** [limit] is the query parameter, 10 when absent. *)
Definition trending (limit : option string) : list Trend.Entry :=
  let cryptoActivity := map activityOf trendingCryptos in
  sliceTo (match limit with Some l => parseInt l | None => Some 10 end)
          (sortByScore (List.filter (λ e, 0 <? Trend.trendScore e) cryptoActivity)).
End Trending.

(** ** blockchainService.getPrediction and getUserPredictions *)

(** ** The contract test of the accuracy calculator *)

(** The expectations of the test "Should calculate accuracy correctly":
    [expect(await predictionLogger.calculateAccuracy(predicted, actual)).to.equal(expected)]. *)
Module AccuracyCase.
Record t := mk { predicted : Z; actual : Z; expected : Z }.
End AccuracyCase.

Definition accuracyTest : list AccuracyCase.t :=
  [AccuracyCase.mk 50000 50000 10000;
   AccuracyCase.mk 50000 45000 9000;
   AccuracyCase.mk 50000 25000 5000].

(** An expectation is met when the call returns the expected number. *)
Definition meetsExpectation (c : AccuracyCase.t) : bool :=
  match calculateAccuracy (AccuracyCase.predicted c) (AccuracyCase.actual c) with
  | Ok r => r =? AccuracyCase.expected c
  | Err _ => false
  end.

(** ** Promise.all *)

(** [Promise.all] over settled promises: the values in order, or the error
    of a rejected one (the first in order stands for the first to reject). *)
Fixpoint promiseAll {A} (promises : list (string + A)) : string + list A :=
  match promises with
  | [] => inr []
  | inl e :: _ => inl e
  | inr v :: rest =>
      match promiseAll rest with
      | inl e => inl e
      | inr vs => inr (v :: vs)
      end
  end.

Section Hydration.
(** [ethers.formatUnits(v, 18)], [v.toString()] on a [uint256], and the
    string form of an address. *)
Variable formatUnits18 : Z → string.
Variable uintToString : Z → string.
Variable addressToString : address → string.
(** [error.message] of what ethers throws for an integer that is no
    [uint256]. *)
Variable outOfRangeMessage : Z → string.

(** The object [getPrediction] builds from the struct the public getter
    [predictions(id)] returns; [actualPrice] is [null] for the price 0. *)
Definition hydrate (prediction : Prediction.t) : Api.Prediction :=
  Api.mkPrediction
    (uintToString (Prediction.id prediction))
    (addressToString (Prediction.predictor prediction))
    (Prediction.cryptocurrency prediction)
    (formatUnits18 (Prediction.currentPrice prediction))
    (formatUnits18 (Prediction.predictedPrice prediction))
    (uintToString (Prediction.predictionTimestamp prediction))
    (uintToString (Prediction.targetTimestamp prediction))
    (Prediction.modelType prediction)
    (Prediction.isResolved prediction)
    (if Prediction.actualPrice prediction =? 0 then None
     else Some (formatUnits18 (Prediction.actualPrice prediction)))
    (Prediction.wasAccurate prediction)
    (uintToString (Prediction.accuracyPercentage prediction))
    (Prediction.additionalData prediction).

(** [getPrediction(predictionId)], with the message of the error it rethrows
    or the object it returns; [predictionId] is the integer the argument
    denotes.  ethers encodes the argument of [this.contract.predictions] as a
    [uint256] and throws for an integer outside [0 .. 2^256 - 1] before any
    call is made.  The getter of the public mapping does not revert: an id
    never written reads as the zero struct. *)
Definition serviceGetPrediction (predictionId : Z) (s : State) : string + Api.Prediction :=
  if (0 <=? predictionId) && (predictionId <=? MAX_UINT256)
  then inr (hydrate (get (predictions s) predictionId))
  else inl (outOfRangeMessage predictionId).

(** [getUserPredictions(userAddress)]: the ids of the contract's list, each
    sent back through [getPrediction] as [id.toString()], which denotes the
    same integer; the error of a failed [getPrediction] is rethrown. *)
Definition serviceGetUserPredictions (user : address) (s : State)
  : string + list Api.Prediction :=
  promiseAll (map (λ id, serviceGetPrediction id s) (getUserPredictions user s)).
End Hydration.

(** * Properties *)

(** ** The accuracy calculator *)

Lemma checked_sub_ok a b : b <= a → checked_sub a b = Ok (a - b).
Proof. intros H. unfold checked_sub. by rewrite (proj2 (Z.leb_le b a) H). Qed.

Lemma calculateAccuracy_refl x : calculateAccuracy x x = Ok BASIS_POINTS.
Proof. unfold calculateAccuracy. by rewrite Z.eqb_refl. Qed.

(** What the body computes once the two prices differ, the actual price is
    not zero and the scaled difference fits a [uint256]. *)
Lemma calculateAccuracy_differ p a :
  p ≠ a → a ≠ 0 → Z.abs (p - a) * BASIS_POINTS <= MAX_UINT256 →
  calculateAccuracy p a =
    Ok (Z.max 0 (BASIS_POINTS - Z.abs (p - a) * BASIS_POINTS / a)).
Proof.
  intros Hne Ha Hfit. unfold calculateAccuracy.
  rewrite (proj2 (Z.eqb_neq p a) Hne).
  assert (Hdiff : (if p >? a then checked_sub p a else checked_sub a p)
                  = Ok (Z.abs (p - a))).
  { destruct (Z.gtb_spec p a).
    - rewrite checked_sub_ok by lia. f_equal. lia.
    - rewrite checked_sub_ok by lia. f_equal. lia. }
  rewrite Hdiff. cbn [mbind Result_bind].
  unfold checked_mul. rewrite (proj2 (Z.leb_le _ _) Hfit).
  unfold checked_div. rewrite (proj2 (Z.eqb_neq a 0) Ha).
  cbn [mbind Result_bind].
  generalize (Z.abs (p - a) * BASIS_POINTS / a). intros pd.
  destruct (Z.geb_spec pd BASIS_POINTS).
  - f_equal. lia.
  - rewrite checked_sub_ok by lia. f_equal. lia.
Qed.

Lemma calculateAccuracy_overflow p a :
  p ≠ a → MAX_UINT256 < Z.abs (p - a) * BASIS_POINTS →
  calculateAccuracy p a = Err (Panic ARITHMETIC_OVERFLOW).
Proof.
  intros Hne Hbig. unfold calculateAccuracy.
  rewrite (proj2 (Z.eqb_neq p a) Hne).
  assert (Hdiff : (if p >? a then checked_sub p a else checked_sub a p)
                  = Ok (Z.abs (p - a))).
  { destruct (Z.gtb_spec p a).
    - rewrite checked_sub_ok by lia. f_equal. lia.
    - rewrite checked_sub_ok by lia. f_equal. lia. }
  rewrite Hdiff. cbn [mbind Result_bind].
  unfold checked_mul. by rewrite (proj2 (Z.leb_gt _ _) Hbig).
Qed.

Example calculateAccuracy_scenario : calculateAccuracy 55000 54000 = Ok 9815.
Proof. reflexivity. Qed.

(** The denominator is the actual price: overshooting 45000 by 5000 and
    undershooting 50000 by 5000 score differently. *)
Example calculateAccuracy_asymmetry :
  calculateAccuracy 50000 45000 = Ok 8889 ∧ calculateAccuracy 45000 50000 = Ok 9000.
Proof. split; reflexivity. Qed.

(** C1 (as the code has it).  For positive prices whose scaled difference
    [|predicted - actual| * 10000] fits a [uint256], [calculateAccuracy]
    returns 10000 on equal prices and otherwise
    [max 0 (10000 - floor (|predicted - actual| * 10000 / actual))], with the
    actual price as the denominator; when the scaled difference does not fit,
    the checked multiplication reverts with [Panic(0x11)]. *)
Theorem calculateAccuracy_formula (predicted actual : Z) :
  0 < predicted → 0 < actual →
  calculateAccuracy predicted actual =
    if predicted =? actual then Ok 10000
    else if Z.abs (predicted - actual) * 10000 <=? MAX_UINT256
         then Ok (Z.max 0 (10000 - Z.abs (predicted - actual) * 10000 / actual))
         else Err (Panic ARITHMETIC_OVERFLOW).
Proof.
  intros Hp Ha.
  destruct (Z.eqb_spec predicted actual) as [->|Hne].
  - apply calculateAccuracy_refl.
  - destruct (Z.leb_spec (Z.abs (predicted - actual) * 10000) MAX_UINT256).
    + apply calculateAccuracy_differ; [done | lia | done].
    + by apply calculateAccuracy_overflow.
Qed.

Lemma calculateAccuracy_formula_witness :
  calculateAccuracy 55000 54000 = Ok 9815.
Proof.
  rewrite (calculateAccuracy_formula 55000 54000); [reflexivity | lia | lia].
Defined.

(** C1 (as stated) fails: two positive [uint256] prices on which
    [calculateAccuracy] raises instead of returning a score. *)
Lemma calculateAccuracy_raises :
  ¬ (∀ predicted actual,
       0 < predicted <= MAX_UINT256 → 0 < actual <= MAX_UINT256 →
       calculateAccuracy predicted actual =
         Ok (if predicted =? actual then 10000
             else Z.max 0 (10000 - Z.abs (predicted - actual) * 10000 / actual))).
Proof.
  intros H. specialize (H MAX_UINT256 1).
  assert (Hraise : calculateAccuracy MAX_UINT256 1 = Err (Panic ARITHMETIC_OVERFLOW))
    by reflexivity.
  rewrite Hraise in H.
  assert (Hmax : 1 <= MAX_UINT256) by (vm_compute; discriminate).
  discriminate H; lia.
Qed.

(** C4 fails on the code.  [calculateAccuracy 50000 50000] is 10000, but
    with predicted 50000 and actual 25000 the code divides the difference by
    the actual price and returns 0, not the 5000 of the claim (which is what
    the code returns for predicted 25000 against actual 50000).  Of the three
    expectations of the contract's own test the code meets only the first: it
    returns 8889 where the test expects 9000 and 0 where it expects 5000. *)
Theorem calculateAccuracy_fails_contract_test :
  calculateAccuracy 50000 50000 = Ok 10000
  ∧ calculateAccuracy 50000 25000 = Ok 0
  ∧ calculateAccuracy 50000 25000 ≠ Ok 5000
  ∧ calculateAccuracy 25000 50000 = Ok 5000
  ∧ calculateAccuracy 50000 45000 = Ok 8889
  ∧ map meetsExpectation accuracyTest = [true; false; false].
Proof. repeat split; try reflexivity. intros H. vm_compute in H. discriminate H. Qed.

(** C10.  [calculateAccuracy x x] is 10000 for every [x], zero included, and
    the division by the actual price is only reached when the two prices
    differ: a division-by-zero panic implies [predicted ≠ actual]. *)
Theorem calculateAccuracy_equal_short_circuits :
  (∀ x, calculateAccuracy x x = Ok 10000)
  ∧ calculateAccuracy 0 0 = Ok 10000
  ∧ (∀ predicted actual,
       calculateAccuracy predicted actual = Err (Panic DIVISION_BY_ZERO) →
       predicted ≠ actual ∧ actual = 0)
  ∧ calculateAccuracy 1 0 = Err (Panic DIVISION_BY_ZERO).
Proof.
  split; [apply calculateAccuracy_refl|].
  split; [reflexivity|].
  split; [|reflexivity].
  intros p a H.
  destruct (Z.eq_dec p a) as [->|Hne].
  - rewrite calculateAccuracy_refl in H. discriminate H.
  - split; [done|].
    destruct (Z.eq_dec a 0) as [|Ha]; [done|exfalso].
    destruct (Z.le_gt_cases (Z.abs (p - a) * BASIS_POINTS) MAX_UINT256).
    + rewrite calculateAccuracy_differ in H by done. discriminate H.
    + rewrite calculateAccuracy_overflow in H by (done || lia). discriminate H.
Qed.

(** ** Reasoning about results and mappings *)

Lemma bind_Ok {A B} (r : Result A) (k : A → Result B) (b : B) :
  r ≫= k = Ok b → ∃ a, r = Ok a ∧ k a = Ok b.
Proof. destruct r as [a|e]; [eauto | discriminate]. Qed.

Lemma fmap_Ok {A B} (f : A → B) (r : Result A) (b : B) :
  f <$> r = Ok b → ∃ a, r = Ok a ∧ b = f a.
Proof. destruct r as [a|e]; [|discriminate]. intros [= <-]. eauto. Qed.

Lemma require_Ok c reason u : require c reason = Ok u → c = true.
Proof. by destruct c. Qed.

Lemma checked_add_Ok a b c : checked_add a b = Ok c → c = a + b ∧ a + b <= MAX_UINT256.
Proof.
  unfold checked_add. destruct (Z.leb_spec (a + b) MAX_UINT256); [|discriminate].
  by intros [= <-].
Qed.

Lemma checked_sub_Ok a b c : checked_sub a b = Ok c → c = a - b ∧ b <= a.
Proof.
  unfold checked_sub. destruct (Z.leb_spec b a); [|discriminate].
  by intros [= <-].
Qed.

Lemma get_insert_eq {K V} `{Countable K} `{ZeroValue V} (m : gmap K V) k v :
  get (<[k := v]> m) k = v.
Proof. unfold get. by rewrite lookup_insert_eq. Qed.

Lemma get_insert_ne {K V} `{Countable K} `{ZeroValue V} (m : gmap K V) k k' v :
  k ≠ k' → get (<[k := v]> m) k' = get m k'.
Proof. intros Hne. unfold get. by rewrite lookup_insert_ne. Qed.

Lemma get_empty {K V} `{Countable K} `{ZeroValue V} (k : K) :
  get (∅ : gmap K V) k = zero_value.
Proof. unfold get. by rewrite lookup_empty. Qed.

Ltac inv_bind H :=
  repeat (let a := fresh "x" in
          let E := fresh "E" in
          apply bind_Ok in H as (a & E & H)).

(** ** What a successful call has done *)

Lemma resolvePrediction_Ok sender now i price s s' u :
  resolvePrediction sender now i price s = Ok (s', u) →
  let p := get (predictions s) i in
  ∃ accuracy stats' perf',
    (0 < i <= predictionCounter s)
    ∧ Prediction.isResolved p = false
    ∧ (hasRole ORACLE_ROLE sender s = true ∨ Prediction.predictor p = sender)
    ∧ 0 < price
    ∧ Prediction.targetTimestamp p <= now
    ∧ calculateAccuracy (Prediction.predictedPrice p) price = Ok accuracy
    ∧ UserStats.totalPredictions stats'
      = UserStats.totalPredictions (get (userStats s) (Prediction.predictor p))
    ∧ UserStats.accuratePredictions stats'
      = UserStats.accuratePredictions (get (userStats s) (Prediction.predictor p))
        + flag (meetsThreshold s accuracy)
    ∧ UserStats.totalAccuracyScore stats'
      = UserStats.totalAccuracyScore (get (userStats s) (Prediction.predictor p)) + accuracy
    ∧ UserStats.modelTypeCount stats'
      = UserStats.modelTypeCount (get (userStats s) (Prediction.predictor p))
    ∧ UserStats.cryptoCount stats'
      = UserStats.cryptoCount (get (userStats s) (Prediction.predictor p))
    ∧ ModelPerformance.totalPredictions perf'
      = ModelPerformance.totalPredictions (get (modelPerformance s) (Prediction.modelType p))
    ∧ ModelPerformance.accuratePredictions perf'
      = ModelPerformance.accuratePredictions (get (modelPerformance s) (Prediction.modelType p))
        + flag (meetsThreshold s accuracy)
    ∧ ModelPerformance.totalAccuracyScore perf'
      = ModelPerformance.totalAccuracyScore (get (modelPerformance s) (Prediction.modelType p))
        + accuracy
    ∧ ModelPerformance.cryptoPerformance perf'
      = ModelPerformance.cryptoPerformance (get (modelPerformance s) (Prediction.modelType p))
    ∧ s' = mkState
             (<[i := Prediction.resolve p price accuracy (meetsThreshold s accuracy)]>
                (predictions s))
             (<[Prediction.predictor p := stats']> (userStats s))
             (userPredictions s)
             (<[Prediction.modelType p := perf']> (modelPerformance s))
             (cryptoPredictions s) (modelTypePredictions s)
             (predictionCounter s) (accuracyThreshold s) (paused s) (entered s) (roles s).
Proof.
  intros H p. unfold resolvePrediction in H. fold p in H.
  inv_bind H.
  apply require_Ok, andb_prop in E as [Hlo Hhi].
  apply require_Ok, negb_true_iff in E0.
  apply require_Ok, orb_prop in E1.
  apply require_Ok in E2, E3.
  apply checked_sub_Ok in E5 as [-> Hthr].
  injection H as <- <-.
  set (stats := get (userStats s) (Prediction.predictor p)) in *.
  set (perf := get (modelPerformance s) (Prediction.modelType p)) in *.
  fold (meetsThreshold s x4) in *.
  exists x4,
    (UserStats.mk (UserStats.totalPredictions stats) x6 x7
                  (UserStats.modelTypeCount stats) (UserStats.cryptoCount stats)),
    (ModelPerformance.mk (ModelPerformance.totalPredictions perf) x8 x9
                         (ModelPerformance.cryptoPerformance perf)).
  cbn [UserStats.totalPredictions UserStats.accuratePredictions
    UserStats.totalAccuracyScore UserStats.modelTypeCount UserStats.cryptoCount
    ModelPerformance.totalPredictions ModelPerformance.accuratePredictions
    ModelPerformance.totalAccuracyScore ModelPerformance.cryptoPerformance].
  assert (Hu : x6 = UserStats.accuratePredictions stats + flag (meetsThreshold s x4)).
  { destruct (meetsThreshold s x4); cbn [flag].
    - by apply checked_add_Ok in E6 as [-> _].
    - injection E6 as <-. lia. }
  assert (Hm : x8 = ModelPerformance.accuratePredictions perf
                    + flag (meetsThreshold s x4)).
  { destruct (meetsThreshold s x4); cbn [flag].
    - by apply checked_add_Ok in E8 as [-> _].
    - injection E8 as <-. lia. }
  apply checked_add_Ok in E7 as [E7 _]. apply checked_add_Ok in E9 as [E9 _].
  repeat split; try done; try lia.
  destruct E1 as [Ho|Hp]; [by left | right].
  by apply bool_decide_eq_true in Hp.
Qed.

Lemma makePrediction_Ok sender now c cur pred target m d s s' i :
  makePrediction sender now c cur pred target m d s = Ok (s', i) →
  ∃ stats' perf',
    entered s = false
    ∧ paused s = false
    ∧ 0 < cur ∧ 0 < pred ∧ now < target
    ∧ i = predictionCounter s + 1
    ∧ UserStats.totalPredictions stats'
      = UserStats.totalPredictions (get (userStats s) sender) + 1
    ∧ UserStats.accuratePredictions stats'
      = UserStats.accuratePredictions (get (userStats s) sender)
    ∧ UserStats.totalAccuracyScore stats'
      = UserStats.totalAccuracyScore (get (userStats s) sender)
    ∧ ModelPerformance.totalPredictions perf'
      = ModelPerformance.totalPredictions (get (modelPerformance s) m) + 1
    ∧ ModelPerformance.accuratePredictions perf'
      = ModelPerformance.accuratePredictions (get (modelPerformance s) m)
    ∧ ModelPerformance.totalAccuracyScore perf'
      = ModelPerformance.totalAccuracyScore (get (modelPerformance s) m)
    ∧ s' = mkState
             (<[i := Prediction.mk i sender c cur pred now target m false 0 false 0 d]>
                (predictions s))
             (<[sender := stats']> (userStats s))
             (<[sender := get (userPredictions s) sender ++ [i]]> (userPredictions s))
             (<[m := perf']> (modelPerformance s))
             (<[c := get (cryptoPredictions s) c ++ [i]]> (cryptoPredictions s))
             (<[m := get (modelTypePredictions s) m ++ [i]]> (modelTypePredictions s))
             i (accuracyThreshold s) (paused s) false (roles s).
Proof.
  intros H. unfold makePrediction in H.
  apply bind_Ok in H as (s1 & Hguard & H).
  unfold nonReentrantBefore in Hguard.
  destruct (entered s) eqn:Hentered; [discriminate|]. injection Hguard as <-.
  cbn [set_entered predictions userStats userPredictions modelPerformance
       cryptoPredictions modelTypePredictions predictionCounter accuracyThreshold
       paused entered roles] in H.
  apply bind_Ok in H as (? & Hpause & H).
  unfold whenNotPaused in Hpause. cbn [set_entered paused] in Hpause.
  destruct (paused s) eqn:Hpaused; [discriminate|].
  inv_bind H.
  apply require_Ok in E0, E1, E2.
  apply checked_add_Ok in E4 as [-> _], E5 as [E5 _], E6 as [E6 _], E7 as [E7 _],
    E8 as [E8 _].
  injection H as <- <-.
  set (stats := get (userStats s) sender) in *.
  set (perf := get (modelPerformance s) m) in *.
  exists
    (UserStats.mk x6 (UserStats.accuratePredictions stats)
                  (UserStats.totalAccuracyScore stats)
                  (<[m := x7]> (UserStats.modelTypeCount stats))
                  (<[c := x8]> (UserStats.cryptoCount stats))),
    (ModelPerformance.mk x9 (ModelPerformance.accuratePredictions perf)
                         (ModelPerformance.totalAccuracyScore perf)
                         (ModelPerformance.cryptoPerformance perf)).
  cbn [UserStats.totalPredictions UserStats.accuratePredictions
    UserStats.totalAccuracyScore ModelPerformance.totalPredictions
    ModelPerformance.accuratePredictions ModelPerformance.totalAccuracyScore].
  repeat split; try done; try lia.
Qed.

Lemma step_cases s s' :
  step s s' →
  (∃ sender now c cur pred target m d i,
     makePrediction sender now c cur pred target m d s = Ok (s', i))
  ∨ (∃ sender now i price u, resolvePrediction sender now i price s = Ok (s', u))
  ∨ same_ledger s s'.
Proof.
  intros (sender & now & call & H).
  destruct call; cbn [dispatch] in H; apply fmap_Ok in H as ([s1 v] & H & ->);
    cbn [fst].
  - left. by repeat eexists.
  - right; left. by repeat eexists.
  - right; right. unfold setAccuracyThreshold in H. inv_bind H.
    by injection H as <- <-.
  - right; right. unfold pause in H. inv_bind H. by injection H as <- <-.
  - right; right. unfold unpause in H. inv_bind H. by injection H as <- <-.
  - right; right. unfold grantOracleRole in H. inv_bind H. by injection H as <- <-.
  - right; right. unfold revokeOracleRole in H. inv_bind H. by injection H as <- <-.
  - right; right. unfold grantRole in H. inv_bind H. by injection H as <- <-.
  - right; right. unfold revokeRole in H. inv_bind H. by injection H as <- <-.
  - right; right. unfold renounceRole in H. case_bool_decide; [|discriminate].
    by injection H as <- <-.
Qed.

(** ** Counting stored predictions *)

Lemma fmap_get_insert_fresh (m : gmap Z Prediction.t) i p (l : list Z) :
  i ∉ l → get (<[i := p]> m) <$> l = get m <$> l.
Proof.
  intros Hi. apply list_fmap_ext. intros k j Hj.
  apply get_insert_ne. intros ->. apply Hi. by eapply list_elem_of_lookup_2.
Qed.

Lemma elem_of_seqZ_iff m n k : k ∈ seqZ m n ↔ m <= k < m + n.
Proof. apply elem_of_seqZ. Qed.

(** The stored predictions, split around the identifier [i]. *)
Lemma storedPredictions_split s i :
  0 < i <= predictionCounter s →
  storedPredictions s =
    (get (predictions s) <$> seqZ 1 (i - 1))
      ++ get (predictions s) i
      :: (get (predictions s) <$> seqZ (i + 1) (predictionCounter s - i)).
Proof.
  intros Hi. unfold storedPredictions.
  replace (predictionCounter s) with ((i - 1) + (1 + (predictionCounter s - i))) at 1 by lia.
  rewrite seqZ_app by lia. rewrite fmap_app. f_equal.
  rewrite seqZ_cons by lia. rewrite fmap_cons. f_equal; [f_equal; lia|].
  f_equal. f_equal; lia.
Qed.

Lemma length_filter_app_cons {A} (P : A → Prop) `{∀ x, Decision (P x)} (l1 l2 : list A) x :
  Z.of_nat (length (filter P (l1 ++ x :: l2))) =
    Z.of_nat (length (filter P l1)) + (if decide (P x) then 1 else 0)
    + Z.of_nat (length (filter P l2)).
Proof.
  rewrite filter_app, filter_cons, length_app.
  destruct (decide (P x)); cbn [length]; lia.
Qed.

(** Writing the prediction [i] replaces one element of the stored list. *)
Lemma count_after_write (P : Prediction.t → Prop) `{∀ x, Decision (P x)} s s' i p' :
  0 < i <= predictionCounter s →
  predictions s' = <[i := p']> (predictions s) →
  predictionCounter s' = predictionCounter s →
  Z.of_nat (length (filter P (storedPredictions s'))) =
    Z.of_nat (length (filter P (storedPredictions s)))
    - (if decide (P (get (predictions s) i)) then 1 else 0)
    + (if decide (P p') then 1 else 0).
Proof.
  intros Hi Hp Hc.
  rewrite (storedPredictions_split s i) by done.
  rewrite (storedPredictions_split s' i) by (rewrite Hc; done).
  rewrite Hp, Hc, get_insert_eq.
  rewrite !fmap_get_insert_fresh by (rewrite elem_of_seqZ_iff; lia).
  rewrite !length_filter_app_cons. lia.
Qed.

(** Appending the prediction [predictionCounter + 1] extends the stored list. *)
Lemma storedPredictions_push s s' p :
  0 <= predictionCounter s →
  predictions s' = <[predictionCounter s + 1 := p]> (predictions s) →
  predictionCounter s' = predictionCounter s + 1 →
  storedPredictions s' = storedPredictions s ++ [p].
Proof.
  intros Hc Hp Hc'. unfold storedPredictions.
  rewrite Hc', Hp. rewrite seqZ_app by lia. rewrite fmap_app.
  rewrite fmap_get_insert_fresh by (rewrite elem_of_seqZ_iff; lia).
  f_equal. rewrite seqZ_cons by lia. rewrite seqZ_nil by lia.
  cbn [fmap list_fmap]. f_equal. replace (1 + predictionCounter s) with (predictionCounter s + 1) by lia.
  apply get_insert_eq.
Qed.

Lemma storedPredictions_same_ledger s s' :
  same_ledger s s' → storedPredictions s' = storedPredictions s.
Proof.
  intros (Hp & _ & _ & _ & _ & _ & Hc & _). unfold storedPredictions.
  by rewrite Hp, Hc.
Qed.

(** ** The statistics agree with the stored predictions *)

Lemma ledger_inv_constructor deployer : ledger_inv (constructor deployer).
Proof.
  split; [done|]. intros u. unfold countMadeBy, countAccurateBy, storedPredictions.
  cbn [constructor userStats predictionCounter]. rewrite get_empty. done.
Qed.

Lemma ledger_inv_makePrediction sender now c cur pred target m d s s' i :
  ledger_inv s →
  makePrediction sender now c cur pred target m d s = Ok (s', i) →
  ledger_inv s'.
Proof.
  intros [Hc Hs] H.
  apply makePrediction_Ok in H
    as (stats' & perf' & _ & _ & _ & _ & _ & -> & Ht & Ha & _ & _ & _ & _ & ->).
  split; [cbn [predictionCounter]; lia|].
  intros u. destruct (Hs u) as [Htot Hacc].
  unfold countMadeBy, countAccurateBy in *.
  erewrite !(storedPredictions_push s) by (exact Hc || reflexivity).
  rewrite !filter_app, !length_app, !Nat2Z.inj_add.
  cbn [userStats]. rewrite !filter_cons, !filter_nil.
  destruct (decide (sender = u)) as [->|Hne].
  - rewrite get_insert_eq, Ht, Ha, Htot, Hacc.
    rewrite decide_True by done.
    rewrite decide_False by (intros (_ & Hr & _); discriminate Hr).
    cbn [length]. lia.
  - rewrite get_insert_ne by done. rewrite Htot, Hacc.
    rewrite decide_False by done.
    rewrite decide_False by (intros (_ & Hr & _); discriminate Hr).
    cbn [length]. lia.
Qed.

Lemma ledger_inv_resolvePrediction sender now i price s s' u :
  ledger_inv s →
  resolvePrediction sender now i price s = Ok (s', u) →
  ledger_inv s'.
Proof.
  intros [Hc Hs] H.
  apply resolvePrediction_Ok in H
    as (accuracy & stats' & perf' & Hi & Hunres & _ & _ & _ & _
        & Ht & Ha & _ & _ & _ & _ & _ & _ & _ & ->).
  set (p := get (predictions s) i) in *.
  split; [done|].
  intros v. destruct (Hs v) as [Htot Hacc].
  unfold countMadeBy, countAccurateBy in *.
  erewrite (count_after_write (madeBy v) s) by (exact Hi || reflexivity).
  erewrite (count_after_write (accurateBy v) s) by (exact Hi || reflexivity).
  fold p. cbn [userStats].
  assert (Hold : ¬ accurateBy v p).
  { intros (_ & Hr & _). rewrite Hunres in Hr. discriminate Hr. }
  rewrite (decide_False (P := accurateBy v p)) by done.
  destruct (decide (Prediction.predictor p = v)) as [Hv|Hv].
  - subst v. rewrite get_insert_eq, Ht, Ha, Htot, Hacc.
    rewrite !(decide_True (P := madeBy _ _)) by done.
    split; [lia|].
    destruct (meetsThreshold s accuracy) eqn:Hm; cbn [flag].
    + rewrite decide_True by done. lia.
    + rewrite decide_False by (intros (_ & _ & Hw); discriminate Hw). lia.
  - rewrite get_insert_ne by done. rewrite Htot, Hacc.
    rewrite !(decide_False (P := madeBy v _)) by done.
    rewrite decide_False by (intros (Hw & _); done).
    lia.
Qed.

Lemma ledger_inv_same_ledger s s' : ledger_inv s → same_ledger s s' → ledger_inv s'.
Proof.
  intros [Hc Hs] Hsame.
  pose proof (storedPredictions_same_ledger _ _ Hsame) as Hst.
  destruct Hsame as (_ & Hu & _ & _ & _ & _ & Hcount & _).
  split; [by rewrite Hcount|].
  intros u. unfold countMadeBy, countAccurateBy. rewrite Hst, Hu. apply Hs.
Qed.

Lemma ledger_inv_step s s' : ledger_inv s → step s s' → ledger_inv s'.
Proof.
  intros Hinv Hstep.
  destruct (step_cases _ _ Hstep)
    as [(? & ? & ? & ? & ? & ? & ? & ? & ? & H)|[(? & ? & ? & ? & ? & H)|H]].
  - by eapply ledger_inv_makePrediction.
  - by eapply ledger_inv_resolvePrediction.
  - by eapply ledger_inv_same_ledger.
Qed.

Lemma reachable_ledger_inv s : reachable s → ledger_inv s.
Proof.
  induction 1 as [deployer|s s' _ IH Hstep].
  - apply ledger_inv_constructor.
  - by eapply ledger_inv_step.
Qed.

Lemma reachable_execute sender now c s :
  reachable s → reachable (execute sender now c s).1.
Proof.
  intros Hs. unfold execute.
  destruct (dispatch sender now c s) as [s'|e] eqn:Hd; cbn [fst]; [|done].
  eapply reachable_step; [done|]. by exists sender, now, c.
Qed.

Lemma reachable_run txs s : reachable s → reachable (run txs s).
Proof.
  revert s. induction txs as [|[[sender now] c] txs IH]; intros s Hs; [done|].
  apply IH. by apply reachable_execute.
Qed.

Example scenario_resolution :
  get (predictions scenario_resolved) 1
  = Prediction.mk 1 7 "BTC" 50000 55000 100 3700 "LSTM" true 54000 true 9815 "{}".
Proof. vm_compute. reflexivity. Qed.

(** C2.  In every reachable state the statistics of every user agree with the
    stored predictions: [totalPredictions] is the number of stored predictions
    the user made and [accuratePredictions] the number of those that are
    resolved and accurate; in particular the state after any successful
    [makePrediction] or [resolvePrediction] satisfies it again. *)
Theorem stats_consistency (s : State) :
  reachable s →
  (∀ u, UserStats.totalPredictions (get (userStats s) u) = countMadeBy u s
        ∧ UserStats.accuratePredictions (get (userStats s) u) = countAccurateBy u s)
  ∧ (∀ sender now c cur pred target m d s' i,
       makePrediction sender now c cur pred target m d s = Ok (s', i) →
       stats_consistent s')
  ∧ (∀ sender now i price s' u,
       resolvePrediction sender now i price s = Ok (s', u) →
       stats_consistent s').
Proof.
  intros Hs. pose proof (reachable_ledger_inv s Hs) as Hinv.
  split; [apply Hinv|]. split.
  - intros * H. by eapply ledger_inv_makePrediction.
  - intros * H. by eapply ledger_inv_resolvePrediction.
Qed.

Lemma stats_consistency_witness :
  UserStats.totalPredictions (get (userStats scenario_resolved) 7) = 1
  ∧ countMadeBy 7 scenario_resolved = 1
  ∧ UserStats.accuratePredictions (get (userStats scenario_resolved) 7) = 1
  ∧ countAccurateBy 7 scenario_resolved = 1.
Proof.
  assert (Hr : reachable scenario_resolved)
    by (apply reachable_run, reachable_run, reachable_constructor).
  destruct (stats_consistency scenario_resolved Hr) as [H _].
  destruct (H 7) as [<- <-]. vm_compute. done.
Defined.

(** ** The accuracy rate of a user *)

Lemma getUserAccuracyRate_zero u s :
  UserStats.totalPredictions (get (userStats s) u) = 0 → getUserAccuracyRate u s = Ok 0.
Proof. intros H. unfold getUserAccuracyRate. by rewrite H. Qed.

Lemma getUserAccuracyRate_nonzero u s :
  UserStats.totalPredictions (get (userStats s) u) ≠ 0 →
  UserStats.accuratePredictions (get (userStats s) u) * BASIS_POINTS <= MAX_UINT256 →
  getUserAccuracyRate u s =
    Ok (UserStats.accuratePredictions (get (userStats s) u) * BASIS_POINTS
        / UserStats.totalPredictions (get (userStats s) u)).
Proof.
  intros Hne Hfit. unfold getUserAccuracyRate.
  rewrite (proj2 (Z.eqb_neq _ _) Hne).
  unfold checked_mul. rewrite (proj2 (Z.leb_le _ _) Hfit). cbn [mbind Result_bind].
  unfold checked_div. by rewrite (proj2 (Z.eqb_neq _ _) Hne).
Qed.

(** C5.  In a reachable state [getUserAccuracyRate u] is 0 when the user has no
    predictions and otherwise [floor (accuratePredictions * 10000 /
    totalPredictions)], as long as the checked product fits a [uint256]; the
    denominator [totalPredictions] is the number of all stored predictions of
    the user, resolved or not, and the numerator the number of the resolved
    accurate ones. *)
Theorem getUserAccuracyRate_formula (s : State) (u : address) :
  reachable s →
  let stats := get (userStats s) u in
  UserStats.totalPredictions stats = countMadeBy u s
  ∧ UserStats.accuratePredictions stats = countAccurateBy u s
  ∧ (UserStats.totalPredictions stats = 0 → getUserAccuracyRate u s = Ok 0)
  ∧ (UserStats.totalPredictions stats ≠ 0 →
     UserStats.accuratePredictions stats * 10000 <= MAX_UINT256 →
     getUserAccuracyRate u s =
       Ok (UserStats.accuratePredictions stats * 10000 / UserStats.totalPredictions stats)
     ∧ getUserAccuracyRate u s = Ok (countAccurateBy u s * 10000 / countMadeBy u s)).
Proof.
  intros Hs stats. destruct (reachable_ledger_inv s Hs) as [_ Hc].
  destruct (Hc u) as [Ht Ha]. fold stats in Ht, Ha.
  split; [done|]. split; [done|]. split.
  - apply getUserAccuracyRate_zero.
  - intros Hne Hfit. rewrite <- Ht, <- Ha. split; by apply getUserAccuracyRate_nonzero.
Qed.

Lemma getUserAccuracyRate_formula_witness :
  countMadeBy 7 scenario_pending = 2
  ∧ countAccurateBy 7 scenario_pending = 1
  ∧ getUserAccuracyRate 7 scenario_pending = Ok 5000.
Proof.
  assert (Hr : reachable scenario_pending)
    by (apply reachable_run, reachable_run, reachable_run, reachable_constructor).
  destruct (getUserAccuracyRate_formula scenario_pending 7 Hr) as (Ht & Ha & _ & Hrate).
  split; [by vm_compute|]. split; [by vm_compute|].
  destruct Hrate as [_ ->]; [by vm_compute | by vm_compute | by vm_compute].
Defined.

(** ** Resolution is write-once *)

Lemma resolvePrediction_seals sender now i price s s' u :
  resolvePrediction sender now i price s = Ok (s', u) →
  sealed i (get (predictions s') i) s'.
Proof.
  intros H. apply resolvePrediction_Ok in H
    as (accuracy & stats' & perf' & Hi & _ & _ & _ & _ & _ & _ & _ & _ & _ & _ & _ & _ & _ & _ & ->).
  unfold sealed. cbn [predictions predictionCounter]. rewrite get_insert_eq.
  split; [done|]. split; reflexivity.
Qed.

Lemma sealed_rejects i p s sender now price :
  sealed i p s →
  resolvePrediction sender now i price s = Err (RequireFailed "Prediction already resolved").
Proof.
  intros ([Hlo Hhi] & Hp & Hr). unfold resolvePrediction, predictionExists, notResolved.
  rewrite (proj2 (Z.ltb_lt 0 i) Hlo), (proj2 (Z.leb_le _ _) Hhi), Hp, Hr. reflexivity.
Qed.

Lemma sealed_step i p s s' : sealed i p s → step s s' → sealed i p s'.
Proof.
  intros (Hi & Hp & Hr) Hstep.
  destruct (step_cases _ _ Hstep)
    as [(? & ? & ? & ? & ? & ? & ? & ? & j & H)|[(sender & now & j & price & ? & H)|H]].
  - apply makePrediction_Ok in H
      as (stats' & perf' & _ & _ & _ & _ & _ & -> & _ & _ & _ & _ & _ & _ & ->).
    split; [cbn [predictionCounter]; lia|]. split; [|done].
    cbn [predictions]. rewrite get_insert_ne by lia. done.
  - destruct (decide (j = i)) as [->|Hne].
    + rewrite (sealed_rejects i p s) in H by done. discriminate H.
    + apply resolvePrediction_Ok in H
        as (accuracy & stats' & perf' & _ & _ & _ & _ & _ & _ & _ & _ & _ & _ & _ & _ & _ & _ & _ & ->).
      split; [done|]. split; [|done].
      cbn [predictions]. by rewrite get_insert_ne.
  - destruct H as (Hpred & _ & _ & _ & _ & _ & Hc & _).
    split; [by rewrite Hc|]. split; [by rewrite Hpred|done].
Qed.

Lemma sealed_steps i p s s' : sealed i p s → rtc step s s' → sealed i p s'.
Proof. intros Hs Hsteps. induction Hsteps; eauto using sealed_step. Qed.

Lemma steps_execute sender now c s : rtc step s (execute sender now c s).1.
Proof.
  unfold execute. destruct (dispatch sender now c s) as [s'|e] eqn:Hd; cbn [fst]; [|done].
  apply rtc_once. by exists sender, now, c.
Qed.

Lemma steps_run txs s : rtc step s (run txs s).
Proof.
  revert s. induction txs as [|[[sender now] c] txs IH]; intros s; [done|].
  eapply rtc_trans; [apply steps_execute | apply IH].
Qed.

(** C3.  After one successful [resolvePrediction] on [i], however many
    transactions are committed afterwards, the stored prediction [i] (all of
    its fields) stays what that resolution left, and every further
    [resolvePrediction] on [i] reverts with "Prediction already resolved",
    whoever sends it, with whatever price, at whatever time. *)
Theorem resolution_write_once sender now i price (s s1 : State) u :
  resolvePrediction sender now i price s = Ok (s1, u) →
  ∀ s2, rtc step s1 s2 →
    get (predictions s2) i = get (predictions s1) i
    ∧ Prediction.isResolved (get (predictions s2) i) = true
    ∧ ∀ sender' now' price',
        resolvePrediction sender' now' i price' s2
        = Err (RequireFailed "Prediction already resolved")
        ∧ execute sender' now' (ResolvePrediction i price') s2
          = (s2, Some (RequireFailed "Prediction already resolved")).
Proof.
  intros H s2 Hsteps.
  pose proof (sealed_steps _ _ _ _ (resolvePrediction_seals _ _ _ _ _ _ _ H) Hsteps)
    as Hsealed.
  destruct Hsealed as (Hi & Hp & Hr).
  split; [done|]. split; [by rewrite Hp|].
  intros sender' now' price'.
  assert (Hrej : resolvePrediction sender' now' i price' s2
                 = Err (RequireFailed "Prediction already resolved"))
    by (by eapply sealed_rejects). 
  split; [done|]. unfold execute. cbn [dispatch]. by rewrite Hrej.
Qed.

Lemma resolution_write_once_witness :
  get (predictions scenario_later) 1
  = Prediction.mk 1 7 "BTC" 50000 55000 100 3700 "LSTM" true 54000 true 9815 "{}"
  ∧ resolvePrediction 1 6000 1 60000 scenario_later
    = Err (RequireFailed "Prediction already resolved").
Proof.
  assert (H : resolvePrediction 7 4000 1 54000 scenario_submitted
              = Ok (scenario_resolved, tt)) by (vm_compute; reflexivity).
  destruct (resolution_write_once 7 4000 1 54000 _ _ _ H scenario_later (steps_run _ _))
    as (Hsame & _ & Hrej).
  split; [rewrite Hsame; vm_compute; reflexivity|].
  apply (Hrej 1 6000 60000).
Defined.

(** ** What a resolution leaves alone *)

(** C9.  A successful [resolvePrediction i] keeps every field of prediction [i]
    other than the four resolution fields, keeps every other stored
    prediction, keeps [totalPredictions] and the per-model and per-asset
    counts of every user (and the whole [UserStats] of everyone but the
    predictor), keeps [totalPredictions] of every model (and the whole
    [ModelPerformance] of every model but the prediction's), and keeps the
    three id lists, [predictionCounter] and [accuracyThreshold]. *)
Theorem resolvePrediction_frame sender now i price (s s' : State) u :
  resolvePrediction sender now i price s = Ok (s', u) →
  let p := get (predictions s) i in
  let p' := get (predictions s') i in
  (Prediction.id p' = Prediction.id p
   ∧ Prediction.predictor p' = Prediction.predictor p
   ∧ Prediction.cryptocurrency p' = Prediction.cryptocurrency p
   ∧ Prediction.currentPrice p' = Prediction.currentPrice p
   ∧ Prediction.predictedPrice p' = Prediction.predictedPrice p
   ∧ Prediction.predictionTimestamp p' = Prediction.predictionTimestamp p
   ∧ Prediction.targetTimestamp p' = Prediction.targetTimestamp p
   ∧ Prediction.modelType p' = Prediction.modelType p
   ∧ Prediction.additionalData p' = Prediction.additionalData p)
  ∧ (∀ j, j ≠ i → predictions s' !! j = predictions s !! j)
  ∧ (∀ v, UserStats.totalPredictions (get (userStats s') v)
          = UserStats.totalPredictions (get (userStats s) v)
          ∧ UserStats.modelTypeCount (get (userStats s') v)
            = UserStats.modelTypeCount (get (userStats s) v)
          ∧ UserStats.cryptoCount (get (userStats s') v)
            = UserStats.cryptoCount (get (userStats s) v)
          ∧ (v ≠ Prediction.predictor p → userStats s' !! v = userStats s !! v))
  ∧ (∀ m, ModelPerformance.totalPredictions (get (modelPerformance s') m)
          = ModelPerformance.totalPredictions (get (modelPerformance s) m)
          ∧ ModelPerformance.cryptoPerformance (get (modelPerformance s') m)
            = ModelPerformance.cryptoPerformance (get (modelPerformance s) m)
          ∧ (m ≠ Prediction.modelType p →
             modelPerformance s' !! m = modelPerformance s !! m))
  ∧ userPredictions s' = userPredictions s
  ∧ cryptoPredictions s' = cryptoPredictions s
  ∧ modelTypePredictions s' = modelTypePredictions s
  ∧ predictionCounter s' = predictionCounter s
  ∧ accuracyThreshold s' = accuracyThreshold s
  ∧ paused s' = paused s
  ∧ roles s' = roles s.
Proof.
  intros H p p'. subst p'.
  apply resolvePrediction_Ok in H
    as (accuracy & stats' & perf' & _ & _ & _ & _ & _ & _
        & Ht & _ & _ & Hmc & Hcc & Hpt & _ & _ & Hcp & ->).
  fold p in Ht, Hmc, Hcc, Hpt, Hcp. fold p.
  cbn [predictions userStats userPredictions modelPerformance cryptoPredictions
       modelTypePredictions predictionCounter accuracyThreshold paused roles].
  rewrite get_insert_eq.
  split; [done|].
  split; [intros j Hj; by rewrite lookup_insert_ne|].
  split.
  { intros v. destruct (decide (Prediction.predictor p = v)) as [<-|Hv].
    - rewrite get_insert_eq. by rewrite Ht, Hmc, Hcc.
    - rewrite get_insert_ne by done. repeat split. intros _. by rewrite lookup_insert_ne. }
  split; [|done].
  intros m. destruct (decide (Prediction.modelType p = m)) as [<-|Hm].
  - rewrite get_insert_eq. by rewrite Hpt, Hcp.
  - rewrite get_insert_ne by done. repeat split. intros _. by rewrite lookup_insert_ne.
Qed.

Lemma resolvePrediction_frame_witness :
  get (predictions scenario_resolved) 1
  = Prediction.mk 1 7 "BTC" 50000 55000 100 3700 "LSTM" true 54000 true 9815 "{}"
  ∧ UserStats.totalPredictions (get (userStats scenario_resolved) 7) = 1
  ∧ predictionCounter scenario_resolved = 1
  ∧ accuracyThreshold scenario_resolved = 500
  ∧ userPredictions scenario_resolved = userPredictions scenario_submitted.
Proof.
  assert (H : resolvePrediction 7 4000 1 54000 scenario_submitted
              = Ok (scenario_resolved, tt)) by (vm_compute; reflexivity).
  destruct (resolvePrediction_frame 7 4000 1 54000 _ _ _ H)
    as (_ & _ & Hu & _ & Hup & _ & _ & Hc & Ht & _).
  destruct (Hu 7) as (Htot & _).
  split; [vm_compute; reflexivity|].
  split; [rewrite Htot; vm_compute; reflexivity|].
  split; [rewrite Hc; vm_compute; reflexivity|].
  split; [rewrite Ht; vm_compute; reflexivity|].
  exact Hup.
Defined.

(** ** Pausing *)

Lemma makePrediction_paused sender now c cur pred target m d s :
  paused s = true → entered s = false →
  makePrediction sender now c cur pred target m d s = Err EnforcedPause.
Proof.
  intros Hp He. unfold makePrediction, nonReentrantBefore. rewrite He.
  cbn [mbind Result_bind]. unfold whenNotPaused. cbn [set_entered paused].
  by rewrite Hp.
Qed.

Lemma reachable_not_entered s : reachable s → entered s = false.
Proof.
  induction 1 as [deployer|s s' _ IH Hstep]; [done|].
  destruct (step_cases _ _ Hstep)
    as [(? & ? & ? & ? & ? & ? & ? & ? & j & H)|[(? & ? & j & ? & ? & H)|H]].
  - apply makePrediction_Ok in H
      as (stats' & perf' & _ & _ & _ & _ & _ & _ & _ & _ & _ & _ & _ & _ & ->).
    done.
  - apply resolvePrediction_Ok in H
      as (accuracy & stats' & perf' & _ & _ & _ & _ & _ & _ & _ & _ & _ & _ & _ & _ & _ & _ & _ & ->).
    done.
  - destruct H as (_ & _ & _ & _ & _ & _ & _ & He). by rewrite He.
Qed.

(** [resolvePrediction] never reads the pause flag. *)
Lemma resolvePrediction_ignores_paused b sender now i price s :
  resolvePrediction sender now i price (set_paused b s)
  = (λ r, (set_paused b r.1, r.2)) <$> resolvePrediction sender now i price s.
Proof.
  unfold resolvePrediction, predictionExists, notResolved, hasRole.
  cbn [set_paused predictions userStats userPredictions modelPerformance
       cryptoPredictions modelTypePredictions predictionCounter accuracyThreshold
       paused entered roles].
  cbv zeta.
  repeat (match goal with
          | |- mbind _ ?r = _ <$> mbind _ ?r =>
              destruct r; cbn [mbind Result_bind fmap Result_fmap]; [|reflexivity]
          end).
  reflexivity.
Qed.

Lemma checked_add_fits a b : a + b <= MAX_UINT256 → checked_add a b = Ok (a + b).
Proof. intros H. unfold checked_add. by rewrite (proj2 (Z.leb_le _ _) H). Qed.

(** Sufficient conditions for a resolution to go through; the pause flag is
    not among them. *)
Lemma resolvePrediction_succeeds sender now i price s accuracy :
  let p := get (predictions s) i in
  0 < i <= predictionCounter s →
  Prediction.isResolved p = false →
  hasRole ORACLE_ROLE sender s = true ∨ Prediction.predictor p = sender →
  0 < price →
  Prediction.targetTimestamp p <= now →
  calculateAccuracy (Prediction.predictedPrice p) price = Ok accuracy →
  accuracyThreshold s <= BASIS_POINTS →
  UserStats.accuratePredictions (get (userStats s) (Prediction.predictor p)) + 1
    <= MAX_UINT256 →
  UserStats.totalAccuracyScore (get (userStats s) (Prediction.predictor p)) + accuracy
    <= MAX_UINT256 →
  ModelPerformance.accuratePredictions (get (modelPerformance s) (Prediction.modelType p)) + 1
    <= MAX_UINT256 →
  ModelPerformance.totalAccuracyScore (get (modelPerformance s) (Prediction.modelType p))
    + accuracy <= MAX_UINT256 →
  ∃ s', resolvePrediction sender now i price s = Ok (s', tt)
        ∧ paused s' = paused s
        ∧ Prediction.isResolved (get (predictions s') i) = true
        ∧ Prediction.actualPrice (get (predictions s') i) = price.
Proof.
  intros p [Hlo Hhi] Hunres Hauth Hprice Htime Hacc Hthr Hua Hus Hma Hms.
  assert (Hok : ∃ s', resolvePrediction sender now i price s = Ok (s', tt)).
  { assert (Hauthb : hasRole ORACLE_ROLE sender s
                     || bool_decide (Prediction.predictor p = sender) = true).
    { destruct Hauth as [->|Hp]; [done|]. rewrite (bool_decide_eq_true_2 _ Hp).
      apply orb_true_r. }
    destruct (BASIS_POINTS - accuracyThreshold s <=? accuracy) eqn:Hb; eexists;
      unfold resolvePrediction, predictionExists, notResolved; fold p;
      rewrite (proj2 (Z.ltb_lt 0 i) Hlo), (proj2 (Z.leb_le _ _) Hhi), Hunres;
      cbn [andb negb require mbind Result_bind];
      rewrite Hauthb, (proj2 (Z.ltb_lt 0 price) Hprice), (proj2 (Z.leb_le _ _) Htime), Hacc;
      cbn [require mbind Result_bind];
      rewrite (checked_sub_ok _ _ Hthr); cbn [mbind Result_bind];
      rewrite Hb, (checked_add_fits _ _ Hus), (checked_add_fits _ _ Hms);
      rewrite ?(checked_add_fits _ _ Hua), ?(checked_add_fits _ _ Hma);
      reflexivity. }
  destruct Hok as [s' Hok]. exists s'. split; [done|].
  apply resolvePrediction_Ok in Hok
    as (? & ? & ? & _ & _ & _ & _ & _ & _ & _ & _ & _ & _ & _ & _ & _ & _ & _ & ->).
  cbn [paused predictions]. rewrite get_insert_eq. done.
Qed.

Lemma set_paused_id s : set_paused (paused s) s = s.
Proof. by destruct s. Qed.

(** C6.  In a paused state every [makePrediction] reverts with [EnforcedPause]
    and leaves the storage as it was, while [resolvePrediction] behaves
    exactly as it would with the flag clear: on an existing unresolved
    prediction, sent by the predictor or an oracle with a positive price once
    the target time has passed, it succeeds. *)
Theorem paused_blocks_submit_not_resolve (s : State) :
  reachable s → paused s = true →
  (∀ sender now c cur pred target m d,
     makePrediction sender now c cur pred target m d s = Err EnforcedPause
     ∧ execute sender now (MakePrediction c cur pred target m d) s = (s, Some EnforcedPause))
  ∧ (∀ sender now i price,
       resolvePrediction sender now i price s
       = (λ r, (set_paused true r.1, r.2))
           <$> resolvePrediction sender now i price (set_paused false s))
  ∧ (∀ sender now i price accuracy,
       let p := get (predictions s) i in
       0 < i <= predictionCounter s →
       Prediction.isResolved p = false →
       hasRole ORACLE_ROLE sender s = true ∨ Prediction.predictor p = sender →
       0 < price →
       Prediction.targetTimestamp p <= now →
       calculateAccuracy (Prediction.predictedPrice p) price = Ok accuracy →
       accuracyThreshold s <= BASIS_POINTS →
       UserStats.accuratePredictions (get (userStats s) (Prediction.predictor p)) + 1
         <= MAX_UINT256 →
       UserStats.totalAccuracyScore (get (userStats s) (Prediction.predictor p)) + accuracy
         <= MAX_UINT256 →
       ModelPerformance.accuratePredictions
           (get (modelPerformance s) (Prediction.modelType p)) + 1 <= MAX_UINT256 →
       ModelPerformance.totalAccuracyScore
           (get (modelPerformance s) (Prediction.modelType p)) + accuracy <= MAX_UINT256 →
       ∃ s', resolvePrediction sender now i price s = Ok (s', tt)
             ∧ paused s' = true
             ∧ Prediction.isResolved (get (predictions s') i) = true).
Proof.
  intros Hr Hp. pose proof (reachable_not_entered s Hr) as He.
  split.
  { intros.
    assert (Hm : makePrediction sender now c cur pred target m d s = Err EnforcedPause)
      by (by apply makePrediction_paused).
    split; [done|]. unfold execute. cbn [dispatch]. by rewrite Hm. }
  split.
  { intros. rewrite <- resolvePrediction_ignores_paused.
    replace (set_paused true (set_paused false s)) with (set_paused (paused s) s)
      by (rewrite Hp; reflexivity).
    by rewrite set_paused_id. }
  intros sender now i price accuracy p **.
  destruct (resolvePrediction_succeeds sender now i price s accuracy)
    as (s' & Hok & Hps & Hres & _); try done.
  exists s'. rewrite Hps, Hp. done.
Qed.

Lemma paused_blocks_submit_not_resolve_witness :
  paused scenario_paused = true
  ∧ makePrediction 7 300 "ETH" 3000 3300 9000 "LSTM" "{}" scenario_paused
    = Err EnforcedPause
  ∧ ∃ s', resolvePrediction 7 4000 1 54000 scenario_paused = Ok (s', tt)
          ∧ paused s' = true
          ∧ Prediction.isResolved (get (predictions s') 1) = true.
Proof.
  assert (Hr : reachable scenario_paused)
    by (apply reachable_run, reachable_run, reachable_constructor).
  assert (Hp : paused scenario_paused = true) by (vm_compute; reflexivity).
  destruct (paused_blocks_submit_not_resolve scenario_paused Hr Hp) as (Hmake & _ & Hres).
  split; [exact Hp|]. split; [apply Hmake|].
  apply (Hres 7 4000 1 54000 9815);
    first [ by vm_compute | right; by vm_compute | vm_compute; intuition discriminate ].
Defined.

(** ** Sentiment classification *)

Lemma SFcompare_refl x : SFcompare x x = Some Eq ∨ SFcompare x x = None.
Proof.
  destruct x as [s|s| |s m e]; cbn [SFcompare]; auto.
  - destruct s; auto.
  - left. destruct s; rewrite Z.compare_refl.
    + unfold CompOpp. by rewrite Pos.compare_cont_refl.
    + by rewrite Pos.compare_cont_refl.
Qed.

Lemma SFltb_irrefl x : SFltb x x = false.
Proof. unfold SFltb. by destruct (SFcompare_refl x) as [-> | ->]. Qed.

Section SentimentFacts.
Variable parseFloat : string → spec_float.

Lemma foldl_countSentiment l b r :
  foldl (countSentiment parseFloat) (b, r) l
  = (b + Z.of_nat (length (List.filter (predictsRise parseFloat) l)),
     r + Z.of_nat (length (List.filter (λ p, negb (predictsRise parseFloat p)) l))).
Proof.
  revert b r. induction l as [|p l IH]; intros b r.
  - cbn. f_equal; lia.
  - cbn [foldl countSentiment List.filter]. fold (predictsRise parseFloat p).
    destruct (predictsRise parseFloat p); cbn [negb]; rewrite IH; cbn [length]; f_equal; lia.
Qed.

Lemma filter_partition_length {A} (f : A → bool) (l : list A) :
  (length (List.filter f l) + length (List.filter (λ x, negb (f x)) l) = length l)%nat.
Proof.
  induction l as [|x l IH]; [done|]. cbn [List.filter].
  destruct (f x); cbn [negb length]; lia.
Qed.

(** Every prediction lands in one of the two counted buckets: the bearish
    count is the number of predictions that do not predict a rise, equal
    prices included, and the residual bucket is always empty. *)
Lemma analyseSentiment_counts l :
  Api.bullish (analyseSentiment parseFloat l)
  = Z.of_nat (length (List.filter (predictsRise parseFloat) l))
  ∧ Api.bearish (analyseSentiment parseFloat l)
    = Z.of_nat (length (List.filter (λ p, negb (predictsRise parseFloat p)) l))
  ∧ Api.neutral (analyseSentiment parseFloat l) = 0.
Proof.
  unfold analyseSentiment. rewrite foldl_countSentiment. cbn [Api.bullish Api.bearish Api.neutral].
  pose proof (filter_partition_length (predictsRise parseFloat) l). repeat split; lia.
Qed.

End SentimentFacts.

(** C8 fails on the code.  A single prediction with
    [predictedPrice = currentPrice = "50000.0"] is counted as bearish and the
    neutral bucket stays 0, whatever [parseFloat] makes of the string; the claim
    wants it counted in neither bucket and reported as neutral. *)
Theorem equal_prices_counted_bearish (parseFloat : string → spec_float) :
  analyseSentiment parseFloat [flat_prediction]
  = Api.mkSentiment 0 1 0 "bearish".
Proof.
  unfold analyseSentiment. cbn [foldl countSentiment flat_prediction
    Api.currentPrice Api.predictedPrice].
  rewrite SFltb_irrefl. reflexivity.
Qed.

(** ** Bulk resolution *)

Section BulkResolveFacts.
Context {Chain : Type}.
Variable StringToNumber : string → spec_float.
Variable ObjectToNumber : JsValue → spec_float.
Variable resolveOnChain : JsValue → JsValue → Chain → Chain * (string + Receipt).

Abbreviation iter := (iteration StringToNumber ObjectToNumber resolveOnChain).
Abbreviation loop := (forOf StringToNumber ObjectToNumber resolveOnChain).


Example JNum_values :
  JNum 0 = JNumber js_zero ∧ JNum 1 = JNumber js_one ∧ ToBoolean (JNum 0) = false.
Proof. repeat split; reflexivity. Qed.

(** An entry without a price is recorded as invalid, without a call to the
    ledger. *)
Example iteration_missing_price chain results errors :
  iter (JObject [("predictionId", JNum 4)]) (chain, results, errors)
  = inr (chain, results, errors ++ [mkFailedItem (JNum 4) "Invalid prediction data"]).
Proof. reflexivity. Qed.




(** C7 fails on the code.  In the batch
    [[{predictionId: 1, actualPrice: 54000}, null, {predictionId: 2, actualPrice: 3200}]]
    the first entry is sent to the ledger, the [null] entry makes the [catch]
    block itself throw, and the handler forwards that TypeError: no report is
    returned and the third entry is never processed. *)
Theorem bulkResolve_null_entry_aborts (chain : Chain) :
  bulkResolve StringToNumber ObjectToNumber resolveOnChain
    (batch [entry 1 54000; JNull; entry 2 3200]) chain
  = ((resolveOnChain (JNum 1) (JNum 54000) chain).1, Next TypeError).
Proof.
  unfold bulkResolve, batch.
  cbn [getProp lookupProp String.eqb Ascii.eqb Bool.eqb length Nat.eqb].
  cbn [forOf]. unfold iteration at 1, tryBody at 1.
  assert (Hvalid : negb (ToBoolean (jsOr (JNum 1) JUndefined))
                   || negb (ToBoolean (JNum 54000))
                   || SFleb (ToNumber StringToNumber ObjectToNumber (JNum 54000)) js_zero
                   = false) by (vm_compute; reflexivity).
  change (getProp (entry 1 54000) "predictionId") with (inr (JNum 1) : Thrown + JsValue).
  change (getProp (entry 1 54000) "id") with (inr JUndefined : Thrown + JsValue).
  change (getProp (entry 1 54000) "actualPrice") with (inr (JNum 54000) : Thrown + JsValue).
  cbv iota beta. rewrite Hvalid.
  change (jsOr (JNum 1) JUndefined) with (JNum 1).
  destruct (resolveOnChain (JNum 1) (JNum 54000) chain) as [chain' [message|result]];
    reflexivity.
Qed.

End BulkResolveFacts.

(** ** A batch of four over the contract *)

Section BulkOverContract.
Variable StringToNumber : string → spec_float.
Variable ObjectToNumber : JsValue → spec_float.
Variable toUint256 : JsValue → option Z.
Variable parseUnits18 : JsValue → option Z.
Variable receiptOf : State → Receipt.
Variable invalidValueMessage : JsValue → string.
Variable revertMessage : Error → string.

(** ethers on a number that is a safe integer: it encodes as that integer,
    and its decimal string parses to that many units of 10^18. *)
Hypothesis toUint256_safe : ∀ n, 0 <= n < 2 ^ 53 → toUint256 (JNum n) = Some n.
Hypothesis parseUnits18_safe : ∀ n, 0 <= n < 2 ^ 53 → parseUnits18 (JNum n) = Some (ether n).

Abbreviation service :=
  (serviceResolvePrediction toUint256 parseUnits18 receiptOf invalidValueMessage
     revertMessage).

Lemma iteration_entry {Chain} (resolveOnChain : JsValue → JsValue → Chain → _) n a st :
  ToBoolean (JNum n) = true →
  ToBoolean (JNum a) = true →
  SFleb (binary_normalize 53 1024 a 0 false) js_zero = false →
  iteration StringToNumber ObjectToNumber resolveOnChain (entry n a) st
  = match resolveOnChain (JNum n) (JNum a) st.1.1 with
    | (chain', inr result) =>
        inr (chain', st.1.2 ++ [mkResolvedItem (JNum n) result], st.2)
    | (chain', inl message) =>
        inr (chain', st.1.2, st.2 ++ [mkFailedItem (JNum n) message])
    end.
Proof.
  intros Hn Ha Hle. destruct st as [[chain results] errors].
  unfold iteration, tryBody.
  change (getProp (entry n a) "predictionId") with (inr (JNum n) : Thrown + JsValue).
  change (getProp (entry n a) "id") with (inr JUndefined : Thrown + JsValue).
  change (getProp (entry n a) "actualPrice") with (inr (JNum a) : Thrown + JsValue).
  cbv iota beta. unfold jsOr. rewrite Hn. cbv iota. rewrite ?Hn, Ha.
  change (ToNumber StringToNumber ObjectToNumber (JNum a))
    with (binary_normalize 53 1024 a 0 false).
  rewrite Hle. cbn [negb orb fst snd].
  destruct (resolveOnChain (JNum n) (JNum a) chain) as [chain' [message|result]];
    [|reflexivity].
  unfold catchBlock.
  change (getProp (entry n a) "predictionId") with (inr (JNum n) : Thrown + JsValue).
  cbv iota beta. by rewrite Hn.
Qed.

Lemma service_resolves n a (s s' : State) :
  0 <= n < 2 ^ 53 → 0 <= a < 2 ^ 53 →
  resolvePrediction 1 10000 n (ether a) s = Ok (s', tt) →
  service (JNum n) (JNum a) (mkLedger s 1 10000)
  = (mkLedger s' 1 10000, inr (receiptOf s')).
Proof.
  intros Hn Ha Hres. unfold serviceResolvePrediction.
  rewrite (parseUnits18_safe a Ha), (toUint256_safe n Hn).
  cbn [signer blockTimestamp contractState]. by rewrite Hres.
Qed.

Lemma service_reverts n a (s : State) e :
  0 <= n < 2 ^ 53 → 0 <= a < 2 ^ 53 →
  resolvePrediction 1 10000 n (ether a) s = Err e →
  service (JNum n) (JNum a) (mkLedger s 1 10000)
  = (mkLedger s 1 10000, inl (revertMessage e)).
Proof.
  intros Hn Ha Hres. unfold serviceResolvePrediction.
  rewrite (parseUnits18_safe a Ha), (toUint256_safe n Hn).
  cbn [signer blockTimestamp contractState]. by rewrite Hres.
Qed.

(** The bulk partial-success scenario: of four entries the second names the
    prediction 99, which does not exist.  The report counts three resolved and
    one failed, the failure is recorded for the id 99 with the message of the
    reverted call, and the three existing
    predictions are resolved in the ledger the handler leaves. *)
Lemma bulkResolve_four_one_missing :
  bulkResolve StringToNumber ObjectToNumber service
    (batch [entry 1 54000; entry 99 100; entry 2 3200; entry 3 150])
    (mkLedger bulk_state_0 1 10000)
  = (mkLedger bulk_state_3 1 10000,
     Json (mkBulkReport 3 1
             [mkResolvedItem (JNum 1) (receiptOf bulk_state_1);
              mkResolvedItem (JNum 2) (receiptOf bulk_state_2);
              mkResolvedItem (JNum 3) (receiptOf bulk_state_3)]
             [mkFailedItem (JNum 99)
                (revertMessage (RequireFailed "Prediction does not exist"))]
             4 3 1))
  ∧ Forall (λ i, Prediction.isResolved (get (predictions bulk_state_3) i) = true)
           [1; 2; 3].
Proof.
  split; [|repeat constructor; vm_compute; reflexivity].
  unfold bulkResolve, batch.
  cbn [getProp lookupProp String.eqb Ascii.eqb Bool.eqb length Nat.eqb forOf].
  rewrite iteration_entry by (vm_compute; reflexivity). cbn [fst snd].
  rewrite (service_resolves 1 54000 bulk_state_0 bulk_state_1)
    by (lia || (vm_compute; reflexivity)).
  rewrite iteration_entry by (vm_compute; reflexivity). cbn [fst snd].
  rewrite (service_reverts 99 100 bulk_state_1 (RequireFailed "Prediction does not exist"))
    by (lia || (vm_compute; reflexivity)).
  rewrite iteration_entry by (vm_compute; reflexivity). cbn [fst snd].
  rewrite (service_resolves 2 3200 bulk_state_1 bulk_state_2)
    by (lia || (vm_compute; reflexivity)).
  rewrite iteration_entry by (vm_compute; reflexivity). cbn [fst snd].
  rewrite (service_resolves 3 150 bulk_state_2 bulk_state_3)
    by (lia || (vm_compute; reflexivity)).
  reflexivity.
Qed.

End BulkOverContract.


(** * Further properties of the contract *)

(** ** The state a successful call commits *)

Lemma makePrediction_Ok_state sender now c cur pred target m d s s' i :
  makePrediction sender now c cur pred target m d s = Ok (s', i) →
  entered s = false ∧ paused s = false
  ∧ c ≠ "" ∧ 0 < cur ∧ 0 < pred ∧ now < target ∧ m ≠ ""
  ∧ predictionCounter s + 1 <= MAX_UINT256
  ∧ i = predictionCounter s + 1
  ∧ s' = submitted sender now c cur pred target m d s.
Proof.
  intros H. unfold makePrediction in H.
  apply bind_Ok in H as (s1 & Hguard & H).
  unfold nonReentrantBefore in Hguard.
  destruct (entered s) eqn:Hentered; [discriminate|]. injection Hguard as <-.
  cbn [set_entered predictions userStats userPredictions modelPerformance
       cryptoPredictions modelTypePredictions predictionCounter accuracyThreshold
       paused entered roles] in H.
  apply bind_Ok in H as (? & Hpause & H).
  unfold whenNotPaused in Hpause. cbn [set_entered paused] in Hpause.
  destruct (paused s) eqn:Hpaused; [discriminate|].
  inv_bind H.
  apply require_Ok in E, E0, E1, E2, E3.
  apply checked_add_Ok in E4 as [-> Hfit], E5 as [-> _], E6 as [-> _], E7 as [-> _],
    E8 as [-> _].
  injection H as <- <-.
  assert (Hc : c ≠ "") by (intros ->; discriminate E).
  assert (Hm : m ≠ "") by (intros ->; discriminate E3).
  unfold submitted, nonReentrantAfter, set_entered. cbn [predictions userStats
    userPredictions modelPerformance cryptoPredictions modelTypePredictions
    predictionCounter accuracyThreshold paused entered roles].
  rewrite Hpaused. repeat split; try done; lia.
Qed.

Lemma resolvePrediction_Ok_state sender now i price s s' u :
  resolvePrediction sender now i price s = Ok (s', u) →
  ∃ accuracy,
    (0 < i <= predictionCounter s)
    ∧ Prediction.isResolved (get (predictions s) i) = false
    ∧ (hasRole ORACLE_ROLE sender s = true
       ∨ Prediction.predictor (get (predictions s) i) = sender)
    ∧ 0 < price
    ∧ Prediction.targetTimestamp (get (predictions s) i) <= now
    ∧ calculateAccuracy (Prediction.predictedPrice (get (predictions s) i)) price
      = Ok accuracy
    ∧ s' = settled i price accuracy s.
Proof.
  intros H. unfold resolvePrediction in H.
  inv_bind H.
  apply require_Ok, andb_prop in E as [Hlo Hhi].
  apply require_Ok, negb_true_iff in E0.
  apply require_Ok, orb_prop in E1.
  apply require_Ok in E2, E3.
  apply checked_sub_Ok in E5 as [-> Hthr].
  fold (meetsThreshold s x4) in *.
  exists x4.
  assert (Hs' : s' = settled i price x4 s).
  { unfold settled. destruct (meetsThreshold s x4); cbn [flag].
    - apply checked_add_Ok in E6 as [-> _], E7 as [-> _], E8 as [-> _], E9 as [-> _].
      by injection H as <- <-.
    - injection E6 as <-. injection E8 as <-.
      apply checked_add_Ok in E7 as [-> _], E9 as [-> _].
      injection H as <- <-. by rewrite !Z.add_0_r. }
  repeat split; try done; try lia.
  destruct E1 as [Ho|Hp]; [by left | right]. by apply bool_decide_eq_true in Hp.
Qed.

(** ** How tallies and index lists change *)

Lemma foldr_sum_app {A} (f : A → Z) (l1 l2 : list A) :
  foldr (λ p acc, f p + acc) 0 (l1 ++ l2)
  = foldr (λ p acc, f p + acc) 0 l1 + foldr (λ p acc, f p + acc) 0 l2.
Proof. induction l1 as [|x l1 IH]; cbn [foldr app]; lia. Qed.

Lemma tally_submitted f sender now c cur pred target m d s :
  0 <= predictionCounter s →
  tally f (submitted sender now c cur pred target m d s)
  = tally f s
    + f (Prediction.mk (predictionCounter s + 1) sender c cur pred now target m
                       false 0 false 0 d).
Proof.
  intros Hc. unfold tally.
  erewrite (storedPredictions_push s) by (exact Hc || reflexivity).
  rewrite foldr_sum_app. cbn [foldr]. lia.
Qed.

Lemma tally_settled f i price accuracy s :
  0 < i <= predictionCounter s →
  tally f (settled i price accuracy s)
  = tally f s - f (get (predictions s) i)
    + f (Prediction.resolve (get (predictions s) i) price accuracy
                            (meetsThreshold s accuracy)).
Proof.
  intros Hi. unfold tally.
  rewrite (storedPredictions_split s i) by done.
  rewrite (storedPredictions_split (settled i price accuracy s) i) by done.
  cbn [settled predictions predictionCounter]. rewrite get_insert_eq.
  rewrite !fmap_get_insert_fresh by (rewrite elem_of_seqZ_iff; lia).
  rewrite !foldr_sum_app. cbn [foldr]. lia.
Qed.

Lemma tally_same_ledger f s s' : same_ledger s s' → tally f s' = tally f s.
Proof. intros H. unfold tally. by rewrite (storedPredictions_same_ledger _ _ H). Qed.

Lemma idsWhere_submitted P sender now c cur pred target m d s :
  0 <= predictionCounter s →
  idsWhere P (submitted sender now c cur pred target m d s)
  = idsWhere P s
    ++ (if P (Prediction.mk (predictionCounter s + 1) sender c cur pred now target m
                            false 0 false 0 d)
        then [predictionCounter s + 1] else []).
Proof.
  intros Hc. unfold idsWhere. cbn [submitted predictions predictionCounter].
  rewrite seqZ_app by lia. rewrite List.filter_app. f_equal.
  - apply List.filter_ext_in. intros j Hj.
    apply list_elem_of_In, elem_of_seqZ_iff in Hj.
    rewrite get_insert_ne by lia. done.
  - rewrite seqZ_cons by lia. rewrite seqZ_nil by lia. cbn [List.filter].
    replace (1 + predictionCounter s) with (predictionCounter s + 1) by lia.
    by rewrite get_insert_eq.
Qed.

Lemma idsWhere_settled P i price accuracy s :
  P (Prediction.resolve (get (predictions s) i) price accuracy (meetsThreshold s accuracy))
  = P (get (predictions s) i) →
  idsWhere P (settled i price accuracy s) = idsWhere P s.
Proof.
  intros HP. unfold idsWhere. cbn [settled predictions predictionCounter].
  apply List.filter_ext_in. intros j _.
  destruct (decide (i = j)) as [<-|Hne].
  - by rewrite get_insert_eq.
  - by rewrite get_insert_ne.
Qed.

Lemma idsWhere_same_ledger P s s' : same_ledger s s' → idsWhere P s' = idsWhere P s.
Proof. intros (Hp & _ & _ & _ & _ & _ & Hc & _). unfold idsWhere. by rewrite Hp, Hc. Qed.

(** ** The score is a number of basis points *)

Lemma calculateAccuracy_range predicted actual r :
  0 < actual → calculateAccuracy predicted actual = Ok r → 0 <= r <= BASIS_POINTS.
Proof.
  intros Ha H. unfold calculateAccuracy in H.
  destruct (predicted =? actual); [injection H as <-; done|].
  apply bind_Ok in H as (diff & Hdiff & H).
  assert (0 <= diff).
  { destruct (predicted >? actual); apply checked_sub_Ok in Hdiff; lia. }
  apply bind_Ok in H as (scaled & Hscaled & H).
  unfold checked_mul in Hscaled.
  destruct (diff * BASIS_POINTS <=? MAX_UINT256); [|discriminate].
  injection Hscaled as <-.
  apply bind_Ok in H as (pd & Hpd & H).
  unfold checked_div in Hpd. destruct (actual =? 0); [discriminate|].
  injection Hpd as <-.
  assert (0 <= diff * BASIS_POINTS / actual)
    by (apply Z.div_pos; unfold BASIS_POINTS; lia).
  destruct (Z.geb_spec (diff * BASIS_POINTS / actual) BASIS_POINTS).
  - injection H as <-. unfold BASIS_POINTS. lia.
  - apply checked_sub_Ok in H as [-> _]. lia.
Qed.

(** ** Every stored prediction is well formed *)

Lemma get_lookup_Some {K V} `{Countable K} `{ZeroValue V} (m : gmap K V) k v :
  m !! k = Some v → get m k = v.
Proof. intros Hk. unfold get. by rewrite Hk. Qed.

Lemma ledger_well_formed_constructor deployer : ledger_well_formed (constructor deployer).
Proof.
  split; [done|]. split.
  - intros i Hi. cbn [constructor predictionCounter] in Hi. lia.
  - intros i _. apply lookup_empty.
Qed.

Lemma ledger_well_formed_submitted sender now c cur pred target m d s :
  c ≠ "" → 0 < cur → 0 < pred → now < target → m ≠ "" →
  ledger_well_formed s →
  ledger_well_formed (submitted sender now c cur pred target m d s).
Proof.
  intros Hc Hcur Hpred Htime Hm (Hcount & Hin & Hout).
  split; [cbn [submitted predictionCounter]; lia|]. split.
  - intros i Hi. cbn [submitted predictionCounter predictions] in *.
    destruct (decide (i = predictionCounter s + 1)) as [->|Hne].
    + rewrite lookup_insert_eq. eexists. split; [done|].
      repeat split; cbn; try done; intros [=].
    + rewrite lookup_insert_ne by done. apply Hin. lia.
  - intros i Hi. cbn [submitted predictionCounter predictions] in *.
    rewrite lookup_insert_ne by lia. apply Hout. lia.
Qed.

Lemma ledger_well_formed_settled i price accuracy s :
  0 < i <= predictionCounter s → 0 < price → 0 <= accuracy <= BASIS_POINTS →
  ledger_well_formed s →
  ledger_well_formed (settled i price accuracy s).
Proof.
  intros Hi Hprice Hacc (Hcount & Hin & Hout).
  split; [done|]. split.
  - intros j Hj. cbn [settled predictionCounter predictions] in *.
    destruct (decide (j = i)) as [->|Hne].
    + rewrite lookup_insert_eq. destruct (Hin i Hi) as (p & Hp & Hwf).
      rewrite (get_lookup_Some _ _ _ Hp). eexists. split; [done|].
      destruct Hwf as (? & ? & ? & ? & ? & ? & _ & _).
      repeat split; cbn; try done; try lia; intros [=].
    + rewrite lookup_insert_ne by done. by apply Hin.
  - intros j Hj. cbn [settled predictionCounter predictions] in *.
    rewrite lookup_insert_ne by lia. by apply Hout.
Qed.

Lemma ledger_well_formed_step s s' : ledger_well_formed s → step s s' → ledger_well_formed s'.
Proof.
  intros Hwf Hstep.
  destruct (step_cases _ _ Hstep)
    as [(? & ? & ? & ? & ? & ? & ? & ? & ? & H)|[(? & ? & i & price & ? & H)|H]].
  - apply makePrediction_Ok_state in H as (_ & _ & ? & ? & ? & ? & ? & _ & _ & ->).
    by apply ledger_well_formed_submitted.
  - apply resolvePrediction_Ok_state in H as (accuracy & Hi & _ & _ & Hp & _ & Hacc & ->).
    apply ledger_well_formed_settled; try done.
    by eapply calculateAccuracy_range.
  - destruct Hwf as (Hc & Hin & Hout).
    destruct H as (Hp & _ & _ & _ & _ & _ & Hcount & _).
    split; [by rewrite Hcount|]. rewrite Hp, Hcount. done.
Qed.

Lemma reachable_well_formed s : reachable s → ledger_well_formed s.
Proof.
  induction 1 as [deployer|s s' _ IH Hstep].
  - apply ledger_well_formed_constructor.
  - by eapply ledger_well_formed_step.
Qed.

(** ** The aggregates are tallies *)

Ltac tally_cases :=
  unfold by_user, with_model, on_crypto, resolved_accurate in *;
  cbn [Prediction.predictor Prediction.modelType Prediction.cryptocurrency
       Prediction.isResolved Prediction.wasAccurate Prediction.accuracyPercentage
       Prediction.resolve andb];
  repeat case_bool_decide; simplify_eq;
  rewrite ?get_insert_eq; rewrite ?get_insert_ne by done;
  cbn [UserStats.totalPredictions UserStats.accuratePredictions
       UserStats.totalAccuracyScore UserStats.modelTypeCount UserStats.cryptoCount
       ModelPerformance.totalPredictions ModelPerformance.accuratePredictions
       ModelPerformance.totalAccuracyScore andb];
  rewrite ?get_insert_eq; rewrite ?get_insert_ne by done.

Lemma aggregates_consistent_constructor deployer :
  aggregates_consistent (constructor deployer).
Proof.
  unfold aggregates_consistent, getUserModelTypeCount, getUserCryptoCount,
    getUserPredictions, getCryptoPredictions, getModelTypePredictions.
  cbn [constructor userStats modelPerformance userPredictions cryptoPredictions
       modelTypePredictions].
  repeat split; intros; rewrite ?get_empty; reflexivity.
Qed.

Lemma aggregates_consistent_submitted sender now c cur pred target m d s :
  0 <= predictionCounter s →
  aggregates_consistent s →
  aggregates_consistent (submitted sender now c cur pred target m d s).
Proof.
  intros Hc (Hus & Hum & Huc & Hmt & Hma & Hms & Hlu & Hlc & Hlm).
  unfold aggregates_consistent, getUserModelTypeCount, getUserCryptoCount,
    getUserPredictions, getCryptoPredictions, getModelTypePredictions,
    countWhere, scoreWhere in *.
  repeat split; intros;
    rewrite ?tally_submitted, ?idsWhere_submitted by done;
    cbn [submitted userStats modelPerformance userPredictions cryptoPredictions
         modelTypePredictions].
  - specialize (Hus u). tally_cases; lia.
  - specialize (Hum u m0). tally_cases; lia.
  - specialize (Huc u c0). tally_cases; lia.
  - specialize (Hmt m0). tally_cases; lia.
  - specialize (Hma m0). tally_cases; lia.
  - specialize (Hms m0). tally_cases; lia.
  - specialize (Hlu u). tally_cases; by rewrite ?Hlu, ?app_nil_r.
  - specialize (Hlc c0). tally_cases; by rewrite ?Hlc, ?app_nil_r.
  - specialize (Hlm m0). tally_cases; by rewrite ?Hlm, ?app_nil_r.
Qed.

Lemma aggregates_consistent_settled i price accuracy s :
  0 < i <= predictionCounter s →
  Prediction.isResolved (get (predictions s) i) = false →
  aggregates_consistent s →
  aggregates_consistent (settled i price accuracy s).
Proof.
  intros Hi Hunres (Hus & Hum & Huc & Hmt & Hma & Hms & Hlu & Hlc & Hlm).
  unfold aggregates_consistent, getUserModelTypeCount, getUserCryptoCount,
    getUserPredictions, getCryptoPredictions, getModelTypePredictions,
    countWhere, scoreWhere in *.
  repeat split; intros; rewrite ?tally_settled by done;
    rewrite ?idsWhere_settled by reflexivity;
    cbn [settled userStats modelPerformance userPredictions cryptoPredictions
         modelTypePredictions]; cbv beta; try done.
  - specialize (Hus u). rewrite Hunres. tally_cases; lia.
  - specialize (Hum u m). tally_cases; lia.
  - specialize (Huc u c). tally_cases; lia.
  - specialize (Hmt m). tally_cases; lia.
  - specialize (Hma m). unfold resolved_accurate at 2. rewrite Hunres.
    destruct (meetsThreshold s accuracy); tally_cases; cbn [flag]; lia.
  - specialize (Hms m). rewrite Hunres. tally_cases; lia.
Qed.

Lemma aggregates_consistent_same_ledger s s' :
  same_ledger s s' → aggregates_consistent s → aggregates_consistent s'.
Proof.
  intros Hsame H. pose proof Hsame as (_ & Hu & Hup & Hm & Hcp & Hmp & _ & _).
  unfold aggregates_consistent, getUserModelTypeCount, getUserCryptoCount,
    getUserPredictions, getCryptoPredictions, getModelTypePredictions,
    countWhere, scoreWhere in *.
  rewrite Hu, Hup, Hm, Hcp, Hmp.
  repeat split; intros; rewrite ?(tally_same_ledger _ _ _ Hsame),
    ?(idsWhere_same_ledger _ _ _ Hsame); apply H.
Qed.

Lemma aggregates_consistent_step s s' :
  0 <= predictionCounter s → aggregates_consistent s → step s s' →
  aggregates_consistent s'.
Proof.
  intros Hc Hagg Hstep.
  destruct (step_cases _ _ Hstep)
    as [(? & ? & ? & ? & ? & ? & ? & ? & ? & H)|[(? & ? & i & price & ? & H)|H]].
  - apply makePrediction_Ok_state in H as (_ & _ & _ & _ & _ & _ & _ & _ & _ & ->).
    by apply aggregates_consistent_submitted.
  - apply resolvePrediction_Ok_state in H as (accuracy & Hi & Hunres & _ & _ & _ & _ & ->).
    by apply aggregates_consistent_settled.
  - by eapply aggregates_consistent_same_ledger.
Qed.

Lemma reachable_aggregates s : reachable s → aggregates_consistent s.
Proof.
  induction 1 as [deployer|s s' Hs IH Hstep].
  - apply aggregates_consistent_constructor.
  - eapply aggregates_consistent_step; [|done|done].
    by destruct (reachable_ledger_inv s Hs).
Qed.

(** ** Identifiers and stored records *)

(** X1.  Identifiers are dense and start at 1: in a reachable state the keys
    of [predictions] are exactly [1 .. predictionCounter], the record stored
    under [i] carries [id = i], and a successful [makePrediction] returns the
    next identifier [predictionCounter + 1] and makes it the new counter. *)
Theorem prediction_ids_dense (s : State) :
  reachable s →
  0 <= predictionCounter s
  ∧ (∀ i, is_Some (predictions s !! i) ↔ 0 < i <= predictionCounter s)
  ∧ (∀ i, 0 < i <= predictionCounter s → Prediction.id (get (predictions s) i) = i)
  ∧ (∀ sender now c cur pred target m d s' i,
       makePrediction sender now c cur pred target m d s = Ok (s', i) →
       i = predictionCounter s + 1 ∧ predictionCounter s' = i
       ∧ predictions s !! i = None ∧ is_Some (predictions s' !! i)).
Proof.
  intros Hr. destruct (reachable_well_formed s Hr) as (Hc & Hin & Hout).
  split; [done|]. split; [|split].
  - intros i. split.
    + intros Hsome. destruct (decide (0 < i <= predictionCounter s)) as [|Hn]; [done|].
      rewrite (Hout i Hn) in Hsome. by destruct Hsome.
    + intros Hi. destruct (Hin i Hi) as (p & -> & _). by eexists.
  - intros i Hi. destruct (Hin i Hi) as (p & Hp & Hid & _).
    by rewrite (get_lookup_Some _ _ _ Hp).
  - intros * H. apply makePrediction_Ok_state in H
      as (_ & _ & _ & _ & _ & _ & _ & _ & -> & ->).
    split; [done|]. split; [done|]. split; [apply Hout; lia|].
    cbn [submitted predictions]. rewrite lookup_insert_eq. by eexists.
Qed.

Lemma prediction_ids_dense_witness :
  predictionCounter scenario_later = 2
  ∧ Prediction.id (get (predictions scenario_later) 2) = 2
  ∧ predictions scenario_later !! 3 = None.
Proof.
  assert (Hr : reachable scenario_later)
    by (apply reachable_run, reachable_run, reachable_run, reachable_constructor).
  destruct (prediction_ids_dense scenario_later Hr) as (_ & Hdom & Hid & _).
  split; [by vm_compute|]. split.
  - apply Hid. by vm_compute.
  - destruct (predictions scenario_later !! 3) eqn:E; [|done].
    assert (Hs : is_Some (predictions scenario_later !! 3)) by (by rewrite E).
    apply Hdom in Hs. vm_compute in Hs. destruct Hs as [_ Hs]. by destruct Hs.
Defined.

(** X2.  Every stored prediction of a reachable state has a non-empty asset
    and model label, positive current and predicted prices, and a target time
    strictly after its creation time. *)
Theorem stored_prediction_valid (s : State) (i : Z) :
  reachable s → 0 < i <= predictionCounter s →
  let p := get (predictions s) i in
  Prediction.cryptocurrency p ≠ ""
  ∧ Prediction.modelType p ≠ ""
  ∧ 0 < Prediction.currentPrice p
  ∧ 0 < Prediction.predictedPrice p
  ∧ Prediction.predictionTimestamp p < Prediction.targetTimestamp p.
Proof.
  intros Hr Hi p. destruct (reachable_well_formed s Hr) as (_ & Hin & _).
  destruct (Hin i Hi) as (q & Hq & _ & Hwf). subst p.
  rewrite (get_lookup_Some _ _ _ Hq). tauto.
Qed.

Lemma stored_prediction_valid_witness :
  Prediction.predictionTimestamp (get (predictions scenario_later) 2)
  < Prediction.targetTimestamp (get (predictions scenario_later) 2).
Proof.
  assert (Hr : reachable scenario_later)
    by (apply reachable_run, reachable_run, reachable_run, reachable_constructor).
  assert (Hi : 0 < 2 <= predictionCounter scenario_later) by (by vm_compute).
  apply (stored_prediction_valid scenario_later 2 Hr Hi).
Defined.

(** X3.  The resolution fields follow the [isResolved] flag: a pending stored
    prediction has [actualPrice = 0], [wasAccurate = false] and
    [accuracyPercentage = 0]; a resolved one has a positive [actualPrice] and
    an [accuracyPercentage] between 0 and 10000. *)
Theorem resolution_fields_follow_flag (s : State) (i : Z) :
  reachable s → 0 < i <= predictionCounter s →
  let p := get (predictions s) i in
  (Prediction.isResolved p = false →
   Prediction.actualPrice p = 0 ∧ Prediction.wasAccurate p = false
   ∧ Prediction.accuracyPercentage p = 0)
  ∧ (Prediction.isResolved p = true →
     0 < Prediction.actualPrice p ∧ 0 <= Prediction.accuracyPercentage p <= 10000).
Proof.
  intros Hr Hi p. destruct (reachable_well_formed s Hr) as (_ & Hin & _).
  destruct (Hin i Hi) as (q & Hq & Hwf). subst p.
  rewrite (get_lookup_Some _ _ _ Hq).
  destruct Hwf as (_ & _ & _ & _ & _ & _ & Hpending & Hresolved). done.
Qed.

Lemma resolution_fields_follow_flag_witness :
  (0 < Prediction.actualPrice (get (predictions scenario_later) 1)
   ∧ 0 <= Prediction.accuracyPercentage (get (predictions scenario_later) 1) <= 10000)
  ∧ Prediction.actualPrice (get (predictions scenario_later) 2) = 0.
Proof.
  assert (Hr : reachable scenario_later)
    by (apply reachable_run, reachable_run, reachable_run, reachable_constructor).
  split.
  - assert (Hi : 0 < 1 <= predictionCounter scenario_later) by (by vm_compute).
    apply (resolution_fields_follow_flag scenario_later 1 Hr Hi). by vm_compute.
  - assert (Hi : 0 < 2 <= predictionCounter scenario_later) by (by vm_compute).
    apply (resolution_fields_follow_flag scenario_later 2 Hr Hi). by vm_compute.
Defined.

(** ** More on the accuracy score *)

(** X4.  Whatever [calculateAccuracy] returns for an actual price that is not
    negative is a number of basis points between 0 and 10000. *)
Theorem calculateAccuracy_basis_points (predicted actual r : Z) :
  0 <= actual → calculateAccuracy predicted actual = Ok r → 0 <= r <= 10000.
Proof.
  intros Ha H. destruct (decide (actual = 0)) as [->|Hne].
  - unfold calculateAccuracy in H.
    destruct (predicted =? 0); [injection H as <-; done|].
    inv_bind H. discriminate E1.
  - apply (calculateAccuracy_range predicted actual); [lia | done].
Qed.

Lemma calculateAccuracy_basis_points_witness :
  0 <= 9815 <= 10000.
Proof.
  apply (calculateAccuracy_basis_points 55000 54000 9815); [lia | reflexivity].
Defined.

Lemma scaled_quotient_zero d a :
  0 <= d → 0 < a → (d * BASIS_POINTS / a <= 0 ↔ d * BASIS_POINTS < a).
Proof.
  intros Hd Ha. unfold BASIS_POINTS. split.
  - intros Hq. assert (Hz : d * 10000 / a = 0)
      by (pose proof (Z.div_pos (d * 10000) a); lia).
    apply Z.div_small_iff in Hz; lia.
  - intros Hs. rewrite Z.div_small by lia. lia.
Qed.

Lemma scaled_quotient_full d a :
  0 <= d → 0 < a → (BASIS_POINTS <= d * BASIS_POINTS / a ↔ a <= d).
Proof.
  intros Hd Ha. unfold BASIS_POINTS. split.
  - intros Hq. pose proof (Z.mul_div_le (d * 10000) a Ha). nia.
  - intros Hs. apply Z.div_le_lower_bound; lia.
Qed.

(** X5.  For a positive actual price and a scaled difference that fits a
    [uint256]: the score is the full 10000 exactly when the prediction is off
    by less than a ten-thousandth of the actual price (equality is not
    needed), and it is 0 exactly when the prediction is off by at least the
    actual price.  So a positive prediction below the actual price never
    scores 0, while one at or above twice the actual price always does. *)
Theorem calculateAccuracy_extremes (predicted actual : Z) :
  0 < actual → Z.abs (predicted - actual) * 10000 <= MAX_UINT256 →
  (calculateAccuracy predicted actual = Ok 10000
   ↔ Z.abs (predicted - actual) * 10000 < actual)
  ∧ (calculateAccuracy predicted actual = Ok 0 ↔ actual <= Z.abs (predicted - actual))
  ∧ (0 < predicted < actual → ∃ r, calculateAccuracy predicted actual = Ok r ∧ 0 < r)
  ∧ (2 * actual <= predicted → calculateAccuracy predicted actual = Ok 0).
Proof.
  intros Ha Hfit.
  destruct (decide (predicted = actual)) as [->|Hne].
  - rewrite calculateAccuracy_refl, Z.sub_diag. cbn [Z.abs Z.mul].
    unfold BASIS_POINTS.
    repeat split; intros; try done; try lia; try discriminate.
  - rewrite (calculateAccuracy_differ predicted actual) by (done || lia).
    pose proof (Z.abs_nonneg (predicted - actual)) as Hd.
    pose proof (scaled_quotient_zero _ _ Hd Ha) as Hzero.
    pose proof (scaled_quotient_full _ _ Hd Ha) as Hfull.
    pose proof (Z.div_pos (Z.abs (predicted - actual) * BASIS_POINTS) actual) as Hq.
    unfold BASIS_POINTS in *.
    assert (H10000 : Ok (0 `max` (10000 - Z.abs (predicted - actual) * 10000 / actual))
                     = Ok 10000 ↔ Z.abs (predicted - actual) * 10000 < actual).
    { rewrite <- Hzero. split; [intros [= H]|intros H; f_equal]; lia. }
    assert (H0 : Ok (0 `max` (10000 - Z.abs (predicted - actual) * 10000 / actual))
                 = Ok 0 ↔ actual <= Z.abs (predicted - actual)).
    { rewrite <- Hfull. split; [intros [= H]|intros H; f_equal]; lia. }
    split; [done|]. split; [done|]. split.
    + intros Hp. eexists. split; [reflexivity|].
      assert (¬ 10000 <= Z.abs (predicted - actual) * 10000 / actual)
        by (rewrite Hfull; lia).
      lia.
    + intros Hp. apply H0. lia.
Qed.

Lemma calculateAccuracy_extremes_witness :
  calculateAccuracy 1000000 1000001 = Ok 10000
  ∧ calculateAccuracy 110000 54000 = Ok 0
  ∧ ∃ r, calculateAccuracy 1 54000 = Ok r ∧ 0 < r.
Proof.
  split; [|split].
  - apply (calculateAccuracy_extremes 1000000 1000001); [lia | by vm_compute | lia].
  - apply (calculateAccuracy_extremes 110000 54000); [lia | by vm_compute | lia].
  - apply (calculateAccuracy_extremes 1 54000); [lia | by vm_compute | lia].
Defined.

(** ** Index lists and aggregates *)

(** X6.  In a reachable state the three index lists are what their getters
    promise: [getUserPredictions u] is the list of the stored identifiers
    whose predictor is [u], [getCryptoPredictions c] of those whose asset is
    [c] and [getModelTypePredictions m] of those whose model is [m], each in
    increasing order of identifier, that is in creation order. *)
Theorem index_lists_complete (s : State) :
  reachable s →
  (∀ u, getUserPredictions u s = idsWhere (by_user u) s)
  ∧ (∀ c, getCryptoPredictions c s = idsWhere (on_crypto c) s)
  ∧ (∀ m, getModelTypePredictions m s = idsWhere (with_model m) s).
Proof.
  intros Hr. destruct (reachable_aggregates s Hr) as (_ & _ & _ & _ & _ & _ & H).
  exact H.
Qed.

Lemma index_lists_complete_witness :
  getUserPredictions 7 scenario_later = [1; 2]
  ∧ getCryptoPredictions "BTC" scenario_later = [1; 2]
  ∧ getModelTypePredictions "ARIMA" scenario_later = [2].
Proof.
  assert (Hr : reachable scenario_later)
    by (apply reachable_run, reachable_run, reachable_run, reachable_constructor).
  destruct (index_lists_complete scenario_later Hr) as (Hu & Hc & Hm).
  rewrite Hu, Hc, Hm. by vm_compute.
Defined.

(** X7.  In a reachable state the [ModelPerformance] of every model label
    agrees with the ledger: [totalPredictions] is the number of stored
    predictions with that model, [accuratePredictions] the number of those
    that are resolved and accurate, and [totalAccuracyScore] the sum of the
    scores of the resolved ones. *)
Theorem model_performance_consistent (s : State) (m : string) :
  reachable s →
  ModelPerformance.totalPredictions (get (modelPerformance s) m)
  = countWhere (with_model m) s
  ∧ ModelPerformance.accuratePredictions (get (modelPerformance s) m)
    = countWhere (λ p, with_model m p && resolved_accurate p) s
  ∧ ModelPerformance.totalAccuracyScore (get (modelPerformance s) m)
    = scoreWhere (λ p, with_model m p && Prediction.isResolved p) s.
Proof.
  intros Hr.
  destruct (reachable_aggregates s Hr) as (_ & _ & _ & Ht & Ha & Hs & _).
  auto.
Qed.

Lemma model_performance_consistent_witness :
  ModelPerformance.totalPredictions (get (modelPerformance scenario_pending) "LSTM") = 2
  ∧ ModelPerformance.accuratePredictions (get (modelPerformance scenario_pending) "LSTM") = 1
  ∧ ModelPerformance.totalAccuracyScore (get (modelPerformance scenario_pending) "LSTM")
    = 9815.
Proof.
  assert (Hr : reachable scenario_pending)
    by (apply reachable_run, reachable_run, reachable_run, reachable_constructor).
  destruct (model_performance_consistent scenario_pending "LSTM" Hr) as (-> & -> & ->).
  by vm_compute.
Defined.

(** X8.  In a reachable state [totalAccuracyScore] of a user is the sum of the
    scores of the user's resolved predictions, and the per-model and per-asset
    counters that [getUserModelTypeCount] and [getUserCryptoCount] read are
    the numbers of the user's stored predictions with that model and that
    asset (0 for a label the user never used). *)
Theorem user_breakdown_consistent (s : State) (u : address) :
  reachable s →
  UserStats.totalAccuracyScore (get (userStats s) u)
  = scoreWhere (λ p, by_user u p && Prediction.isResolved p) s
  ∧ (∀ m, getUserModelTypeCount u m s
          = countWhere (λ p, by_user u p && with_model m p) s)
  ∧ (∀ c, getUserCryptoCount u c s
          = countWhere (λ p, by_user u p && on_crypto c p) s).
Proof.
  intros Hr.
  destruct (reachable_aggregates s Hr) as (Hs & Hm & Hc & _).
  auto.
Qed.

Lemma user_breakdown_consistent_witness :
  UserStats.totalAccuracyScore (get (userStats scenario_later) 7) = 9815
  ∧ getUserModelTypeCount 7 "LSTM" scenario_later = 1
  ∧ getUserCryptoCount 7 "BTC" scenario_later = 2
  ∧ getUserCryptoCount 7 "DOGE" scenario_later = 0.
Proof.
  assert (Hr : reachable scenario_later)
    by (apply reachable_run, reachable_run, reachable_run, reachable_constructor).
  destruct (user_breakdown_consistent scenario_later 7 Hr) as (-> & Hm & Hc).
  rewrite Hm, !Hc. by vm_compute.
Defined.

(** ** Rates and averages stay within 0 .. 10000 *)


Lemma length_filter_as_sum (u : address) (l : list Prediction.t) :
  Z.of_nat (length (filter (madeBy u) l))
  = foldr (λ p acc, (if by_user u p then 1 else 0) + acc) 0 l.
Proof.
  induction l as [|p l IH]; [done|].
  rewrite filter_cons. cbn [foldr]. unfold by_user at 1, madeBy at 1.
  destruct (decide (Prediction.predictor p = u)) as [Hp|Hp].
  - rewrite (bool_decide_eq_true_2 _ Hp). cbn [length]. lia.
  - rewrite (bool_decide_eq_false_2 _ Hp). lia.
Qed.

Lemma length_filter_le {A} (P Q : A → Prop) `{∀ x, Decision (P x)} `{∀ x, Decision (Q x)}
    (l : list A) :
  (∀ x, P x → Q x) → (length (filter P l) <= length (filter Q l))%nat.
Proof.
  intros HPQ. induction l as [|x l IH]; [done|].
  rewrite !filter_cons.
  destruct (decide (P x)) as [HP|HP].
  - rewrite decide_True by auto. cbn [length]. lia.
  - destruct (decide (Q x)); cbn [length]; lia.
Qed.



Lemma quotient_bounded a b : 0 <= a <= BASIS_POINTS * b → b ≠ 0 → 0 <= a / b <= BASIS_POINTS.
Proof.
  intros Ha Hb. unfold BASIS_POINTS in *. assert (0 < b) by lia. split.
  - apply Z.div_pos; lia.
  - apply Z.div_le_upper_bound; lia.
Qed.



(** X10.  In a reachable state, whenever [getUserAccuracyRate] or
    [getModelAccuracyRate] returns, the rate is between 0 and 10000: the
    accurate predictions are never more than the total. *)
Theorem accuracy_rate_bounded (s : State) (u : address) (m : string) (v : Z) :
  reachable s →
  (getUserAccuracyRate u s = Ok v → 0 <= v <= 10000)
  ∧ (getModelAccuracyRate m s = Ok v → 0 <= v <= 10000)
  ∧ 0 <= UserStats.accuratePredictions (get (userStats s) u)
       <= UserStats.totalPredictions (get (userStats s) u)
  ∧ 0 <= ModelPerformance.accuratePredictions (get (modelPerformance s) m)
       <= ModelPerformance.totalPredictions (get (modelPerformance s) m).
Proof.
  intros Hr.
  destruct (reachable_ledger_inv s Hr) as [_ Hcons].
  destruct (reachable_aggregates s Hr) as (_ & _ & _ & Hmt & Hma & _).
  assert (Hu : 0 <= UserStats.accuratePredictions (get (userStats s) u)
               <= UserStats.totalPredictions (get (userStats s) u)).
  { destruct (Hcons u) as [-> ->]. unfold countAccurateBy, countMadeBy.
    pose proof (length_filter_le (accurateBy u) (madeBy u) (storedPredictions s)
                  ltac:(by intros p (Hp & _))).
    lia. }
  assert (Hm : 0 <= ModelPerformance.accuratePredictions (get (modelPerformance s) m)
               <= ModelPerformance.totalPredictions (get (modelPerformance s) m)).
  { rewrite Hmt, Hma. unfold countWhere, tally.
    generalize (storedPredictions s). intros l.
    induction l as [|p l IH]; cbn [foldr]; [lia|].
    destruct (with_model m p), (resolved_accurate p); cbn [andb]; lia. }
  split; [|split; [|done]].
  - unfold getUserAccuracyRate.
    destruct (Z.eqb_spec (UserStats.totalPredictions (get (userStats s) u)) 0) as [|Hne];
      [intros [= <-]; lia|].
    intros H. apply bind_Ok in H as (scaled & Hs & H).
    unfold checked_mul in Hs. destruct (_ <=? MAX_UINT256); [|discriminate].
    injection Hs as <-. unfold checked_div in H.
    rewrite (proj2 (Z.eqb_neq _ _) Hne) in H. injection H as <-.
    apply quotient_bounded; [unfold BASIS_POINTS; lia | done].
  - unfold getModelAccuracyRate.
    destruct (Z.eqb_spec (ModelPerformance.totalPredictions (get (modelPerformance s) m)) 0)
      as [|Hne]; [intros [= <-]; lia|].
    intros H. apply bind_Ok in H as (scaled & Hs & H).
    unfold checked_mul in Hs. destruct (_ <=? MAX_UINT256); [|discriminate].
    injection Hs as <-. unfold checked_div in H.
    rewrite (proj2 (Z.eqb_neq _ _) Hne) in H. injection H as <-.
    apply quotient_bounded; [unfold BASIS_POINTS; lia | done].
Qed.

Lemma accuracy_rate_bounded_witness :
  0 <= 5000 <= 10000.
Proof.
  assert (Hr : reachable scenario_pending)
    by (apply reachable_run, reachable_run, reachable_run, reachable_constructor).
  destruct (accuracy_rate_bounded scenario_pending 7 "LSTM" 5000 Hr) as (Hu & Hm & _).
  apply Hm. by vm_compute.
Defined.


(** ** Predictions are never deleted or rewritten *)

Lemma creation_step s s' i :
  step s s' → 0 < i <= predictionCounter s →
  predictionCounter s <= predictionCounter s'
  ∧ same_creation (get (predictions s) i) (get (predictions s') i)
  ∧ (Prediction.isResolved (get (predictions s) i) = true →
     Prediction.isResolved (get (predictions s') i) = true).
Proof.
  intros Hstep Hi.
  destruct (step_cases _ _ Hstep)
    as [(? & ? & ? & ? & ? & ? & ? & ? & ? & H)|[(? & ? & j & price & ? & H)|H]].
  - apply makePrediction_Ok_state in H as (_ & _ & _ & _ & _ & _ & _ & _ & _ & ->).
    cbn [submitted predictionCounter predictions]. rewrite get_insert_ne by lia.
    split; [lia|]. split; [by repeat split|done].
  - apply resolvePrediction_Ok_state in H as (accuracy & _ & _ & _ & _ & _ & _ & ->).
    cbn [settled predictionCounter predictions]. split; [lia|].
    destruct (decide (j = i)) as [->|Hne].
    + rewrite get_insert_eq. split; [by repeat split|done].
    + rewrite get_insert_ne by done. split; [by repeat split|done].
  - destruct H as (Hp & _ & _ & _ & _ & _ & Hc & _). rewrite Hp, Hc.
    split; [lia|]. split; [by repeat split|done].
Qed.

(** X11.  Across any number of committed transactions the counter never
    decreases, an existing prediction stays in the ledger, its creation fields
    (id, predictor, asset, both prices, both timestamps, model, metadata) keep
    their values, and a resolved prediction stays resolved. *)
Theorem creation_fields_immutable (s s' : State) (i : Z) :
  rtc step s s' → 0 < i <= predictionCounter s →
  0 < i <= predictionCounter s'
  ∧ same_creation (get (predictions s) i) (get (predictions s') i)
  ∧ (Prediction.isResolved (get (predictions s) i) = true →
     Prediction.isResolved (get (predictions s') i) = true).
Proof.
  intros Hsteps. induction Hsteps as [s|s s1 s2 Hstep _ IH]; intros Hi.
  - split; [done|]. split; [by repeat split|done].
  - destruct (creation_step s s1 i Hstep Hi) as (Hc & Hsame & Hres).
    destruct (IH ltac:(lia)) as (Hi2 & Hsame2 & Hres2).
    split; [done|]. split; [|auto].
    unfold same_creation in *.
    destruct Hsame2 as (-> & -> & -> & -> & -> & -> & -> & -> & ->). exact Hsame.
Qed.

Lemma creation_fields_immutable_witness :
  Prediction.predictedPrice (get (predictions scenario_later) 1) = 55000
  ∧ Prediction.predictor (get (predictions scenario_later) 1) = 7.
Proof.
  assert (Hi : 0 < 1 <= predictionCounter scenario_submitted) by (by vm_compute).
  assert (Hsteps : rtc step scenario_submitted scenario_later)
    by (eapply rtc_trans; apply steps_run).
  destruct (creation_fields_immutable scenario_submitted scenario_later 1 Hsteps Hi)
    as (_ & (_ & Hpredictor & _ & _ & Hprice & _) & _).
  rewrite Hprice, Hpredictor. by vm_compute.
Defined.

(** ** Rejections *)

(** X12.  [makePrediction] on an unpaused contract checks its arguments in
    order and reverts with the message of the first check that fails: empty
    asset, current price 0, predicted price 0, target time not after the
    block time (a target equal to now is rejected too), empty model. *)
Theorem makePrediction_rejections (s : State) sender now c cur pred target m d :
  entered s = false → paused s = false →
  (c = "" →
   makePrediction sender now c cur pred target m d s
   = Err (RequireFailed "Cryptocurrency cannot be empty"))
  ∧ (c ≠ "" → cur <= 0 →
     makePrediction sender now c cur pred target m d s
     = Err (RequireFailed "Current price must be greater than 0"))
  ∧ (c ≠ "" → 0 < cur → pred <= 0 →
     makePrediction sender now c cur pred target m d s
     = Err (RequireFailed "Predicted price must be greater than 0"))
  ∧ (c ≠ "" → 0 < cur → 0 < pred → target <= now →
     makePrediction sender now c cur pred target m d s
     = Err (RequireFailed "Target timestamp must be in the future"))
  ∧ (c ≠ "" → 0 < cur → 0 < pred → now < target → m = "" →
     makePrediction sender now c cur pred target m d s
     = Err (RequireFailed "Model type cannot be empty")).
Proof.
  intros He Hp.
  assert (Hlen : ∀ x : string, x ≠ "" → (0 <? Z.of_nat (String.length x)) = true).
  { intros [|a x] Hx; [done|]. apply Z.ltb_lt. cbn [String.length]. lia. }
  assert (Hstart : ∀ k : State → Result (State * Z),
            (s0 ← nonReentrantBefore s; _ ← whenNotPaused s0; k s0)
            = k (set_entered true s)).
  { intros k. unfold nonReentrantBefore, whenNotPaused. rewrite He.
    cbn [mbind Result_bind set_entered paused]. by rewrite Hp. }
  unfold makePrediction. rewrite Hstart.
  repeat split.
  - intros ->. reflexivity.
  - intros Hc Hcur. rewrite (Hlen c Hc), (proj2 (Z.ltb_ge 0 cur) Hcur). reflexivity.
  - intros Hc Hcur Hpred.
    rewrite (Hlen c Hc), (proj2 (Z.ltb_lt 0 cur) Hcur), (proj2 (Z.ltb_ge 0 pred) Hpred).
    reflexivity.
  - intros Hc Hcur Hpred Ht.
    rewrite (Hlen c Hc), (proj2 (Z.ltb_lt 0 cur) Hcur), (proj2 (Z.ltb_lt 0 pred) Hpred),
      (proj2 (Z.ltb_ge now target) Ht).
    reflexivity.
  - intros Hc Hcur Hpred Ht ->.
    rewrite (Hlen c Hc), (proj2 (Z.ltb_lt 0 cur) Hcur), (proj2 (Z.ltb_lt 0 pred) Hpred),
      (proj2 (Z.ltb_lt now target) Ht).
    reflexivity.
Qed.

Lemma makePrediction_rejections_witness :
  makePrediction 7 5000 "BTC" 50000 55000 4999 "LSTM" "{}" scenario_resolved
  = Err (RequireFailed "Target timestamp must be in the future")
  ∧ makePrediction 7 5000 "BTC" 50000 55000 5000 "LSTM" "{}" scenario_resolved
    = Err (RequireFailed "Target timestamp must be in the future").
Proof.
  assert (He : entered scenario_resolved = false) by (by vm_compute).
  assert (Hp : paused scenario_resolved = false) by (by vm_compute).
  split.
  - apply (makePrediction_rejections scenario_resolved 7 5000 "BTC" 50000 55000 4999
             "LSTM" "{}" He Hp); (done || lia).
  - apply (makePrediction_rejections scenario_resolved 7 5000 "BTC" 50000 55000 5000
             "LSTM" "{}" He Hp); (done || lia).
Defined.

(** X13.  [resolvePrediction] reverts with "Prediction does not exist" for
    the id 0 and for every id above the counter; for a pending prediction it
    reverts with "Not authorized to resolve prediction" when the sender is
    neither an oracle nor the predictor, then with "Actual price must be
    greater than 0" for the price 0, then with "Cannot resolve before target
    timestamp" while the block time is before the target, for the predictor
    and for oracles alike. *)
Theorem resolvePrediction_rejections (s : State) sender now i price :
  (¬ (0 < i <= predictionCounter s) →
   resolvePrediction sender now i price s
   = Err (RequireFailed "Prediction does not exist"))
  ∧ (0 < i <= predictionCounter s →
     Prediction.isResolved (get (predictions s) i) = false →
     (hasRole ORACLE_ROLE sender s = false →
      Prediction.predictor (get (predictions s) i) ≠ sender →
      resolvePrediction sender now i price s
      = Err (RequireFailed "Not authorized to resolve prediction"))
     ∧ (hasRole ORACLE_ROLE sender s = true
        ∨ Prediction.predictor (get (predictions s) i) = sender →
        (price <= 0 →
         resolvePrediction sender now i price s
         = Err (RequireFailed "Actual price must be greater than 0"))
        ∧ (0 < price → now < Prediction.targetTimestamp (get (predictions s) i) →
           resolvePrediction sender now i price s
           = Err (RequireFailed "Cannot resolve before target timestamp")))).
Proof.
  split.
  - intros Hi. unfold resolvePrediction, predictionExists.
    assert (Hb : (0 <? i) && (i <=? predictionCounter s) = false).
    { apply andb_false_iff. destruct (Z.ltb_spec 0 i); [right|by left].
      apply Z.leb_gt. lia. }
    by rewrite Hb.
  - intros [Hlo Hhi] Hunres.
    assert (Hstart : ∀ k : Result (State * unit),
              (_ ← predictionExists i s; _ ← notResolved i s; k) = k).
    { intros k. unfold predictionExists, notResolved.
      by rewrite (proj2 (Z.ltb_lt 0 i) Hlo), (proj2 (Z.leb_le _ _) Hhi), Hunres. }
    unfold resolvePrediction. rewrite Hstart. cbv zeta. split.
    + intros Ho Hp. rewrite Ho, (bool_decide_eq_false_2 _ Hp). reflexivity.
    + intros Hauth.
      assert (Hb : hasRole ORACLE_ROLE sender s
                   || bool_decide (Prediction.predictor (get (predictions s) i) = sender)
                   = true).
      { destruct Hauth as [->|Hp]; [done|]. rewrite (bool_decide_eq_true_2 _ Hp).
        apply orb_true_r. }
      rewrite Hb. split.
      * intros Hprice. by rewrite (proj2 (Z.ltb_ge 0 price) Hprice).
      * intros Hprice Htime.
        by rewrite (proj2 (Z.ltb_lt 0 price) Hprice), (proj2 (Z.leb_gt _ _) Htime).
Qed.

(** X14.  A caller who is neither the predictor nor an oracle can never
    resolve a prediction: whatever the id, price and time, the call reverts
    and the transaction leaves the storage as it was. *)
Theorem outsider_cannot_resolve (s : State) sender now i price :
  hasRole ORACLE_ROLE sender s = false →
  Prediction.predictor (get (predictions s) i) ≠ sender →
  (∃ e, resolvePrediction sender now i price s = Err e)
  ∧ (execute sender now (ResolvePrediction i price) s).1 = s.
Proof.
  intros Ho Hp.
  assert (H : ∃ e, resolvePrediction sender now i price s = Err e).
  { destruct (resolvePrediction sender now i price s) as [[s' u]|e] eqn:E; [|by eexists].
    apply resolvePrediction_Ok_state in E as (_ & _ & _ & [Ho'|Hp'] & _).
    - rewrite Ho in Ho'. discriminate Ho'.
    - done. }
  split; [done|]. destruct H as [e He]. unfold execute. cbn [dispatch]. by rewrite He.
Qed.

Lemma outsider_cannot_resolve_witness :
  ∃ e, resolvePrediction 8 4000 1 54000 scenario_submitted = Err e.
Proof.
  apply (outsider_cannot_resolve scenario_submitted 8 4000 1 54000); by vm_compute.
Defined.

(** ** Administration *)

(** Every admin function reverts with
    [AccessControlUnauthorizedAccount(sender, ADMIN_ROLE)] for a sender without
    the admin role, before looking at its argument or at the pause flag. *)
Theorem admin_functions_guarded (s : State) (sender : address) :
  hasRole ADMIN_ROLE sender s = false →
  (∀ t, setAccuracyThreshold sender t s
        = Err (AccessControlUnauthorizedAccount sender ADMIN_ROLE))
  ∧ pause sender s = Err (AccessControlUnauthorizedAccount sender ADMIN_ROLE)
  ∧ unpause sender s = Err (AccessControlUnauthorizedAccount sender ADMIN_ROLE)
  ∧ (∀ o, grantOracleRole sender o s
          = Err (AccessControlUnauthorizedAccount sender ADMIN_ROLE))
  ∧ (∀ o, revokeOracleRole sender o s
          = Err (AccessControlUnauthorizedAccount sender ADMIN_ROLE)).
Proof.
  intros H.
  unfold setAccuracyThreshold, pause, unpause, grantOracleRole, revokeOracleRole, onlyRole.
  rewrite H. by repeat split.
Qed.

Lemma admin_functions_guarded_witness :
  pause 7 scenario_submitted = Err (AccessControlUnauthorizedAccount 7 ADMIN_ROLE)
  ∧ setAccuracyThreshold 7 0 scenario_submitted
    = Err (AccessControlUnauthorizedAccount 7 ADMIN_ROLE).
Proof.
  assert (H : hasRole ADMIN_ROLE 7 scenario_submitted = false) by (by vm_compute).
  destruct (admin_functions_guarded scenario_submitted 7 H) as (Ht & Hp & _).
  split; [exact Hp | apply Ht].
Defined.

Lemma step_threshold s s' :
  step s s' →
  accuracyThreshold s' = accuracyThreshold s ∨ accuracyThreshold s' <= BASIS_POINTS.
Proof.
  intros (sender & now & call & H).
  destruct call; cbn [dispatch] in H; apply fmap_Ok in H as ([s1 v] & H & ->);
    cbn [fst].
  - apply makePrediction_Ok_state in H as (_ & _ & _ & _ & _ & _ & _ & _ & _ & ->).
    by left.
  - apply resolvePrediction_Ok_state in H as (accuracy & _ & _ & _ & _ & _ & _ & ->).
    by left.
  - unfold setAccuracyThreshold in H. inv_bind H. apply require_Ok in E0.
    injection H as <- <-. right. cbn [set_accuracyThreshold accuracyThreshold]. lia.
  - unfold pause in H. inv_bind H. injection H as <- <-. by left.
  - unfold unpause in H. inv_bind H. injection H as <- <-. by left.
  - unfold grantOracleRole in H. inv_bind H. injection H as <- <-. by left.
  - unfold revokeOracleRole in H. inv_bind H. injection H as <- <-. by left.
  - unfold grantRole in H. inv_bind H. injection H as <- <-. by left.
  - unfold revokeRole in H. inv_bind H. injection H as <- <-. by left.
  - unfold renounceRole in H. case_bool_decide; [|discriminate].
    injection H as <- <-. by left.
Qed.

(** X16.  The accuracy threshold of a reachable state never exceeds 10000, so
    the subtraction [BASIS_POINTS - accuracyThreshold] in [resolvePrediction]
    never underflows.  [setAccuracyThreshold] by an admin rejects a value
    above 10000 with "Threshold cannot exceed 100%" and otherwise stores
    exactly the new value and touches nothing else. *)
Theorem accuracyThreshold_bounded (s : State) :
  reachable s →
  accuracyThreshold s <= 10000
  ∧ checked_sub BASIS_POINTS (accuracyThreshold s) = Ok (10000 - accuracyThreshold s)
  ∧ (∀ sender t, hasRole ADMIN_ROLE sender s = true →
       (10000 < t →
        setAccuracyThreshold sender t s
        = Err (RequireFailed "Threshold cannot exceed 100%"))
       ∧ (t <= 10000 →
          setAccuracyThreshold sender t s = Ok (set_accuracyThreshold t s, tt)
          ∧ accuracyThreshold (set_accuracyThreshold t s) = t
          ∧ same_ledger s (set_accuracyThreshold t s)
          ∧ paused (set_accuracyThreshold t s) = paused s
          ∧ roles (set_accuracyThreshold t s) = roles s)).
Proof.
  intros Hr.
  assert (Hb : accuracyThreshold s <= BASIS_POINTS).
  { induction Hr as [deployer|s s' _ IH Hstep]; [by vm_compute|].
    destruct (step_threshold _ _ Hstep) as [->|H]; done. }
  split; [exact Hb|]. split; [by apply checked_sub_ok|].
  intros sender t Hadmin. unfold setAccuracyThreshold, onlyRole. rewrite Hadmin.
  cbn [mbind Result_bind]. split.
  - intros Ht. by rewrite (proj2 (Z.leb_gt t BASIS_POINTS) Ht).
  - intros Ht. rewrite (proj2 (Z.leb_le t BASIS_POINTS) Ht). by repeat split.
Qed.

Lemma accuracyThreshold_bounded_witness :
  accuracyThreshold scenario_later <= 10000
  ∧ setAccuracyThreshold 1 10001 scenario_later
    = Err (RequireFailed "Threshold cannot exceed 100%").
Proof.
  assert (Hr : reachable scenario_later)
    by (apply reachable_run, reachable_run, reachable_run, reachable_constructor).
  destruct (accuracyThreshold_bounded scenario_later Hr) as (Hb & _ & Hset).
  split; [exact Hb|]. apply Hset; [by vm_compute | lia].
Defined.

(** X17.  For an admin, [pause] succeeds exactly on an unpaused contract (a
    second [pause] reverts with [EnforcedPause]) and [unpause] exactly on a
    paused one (otherwise [ExpectedPause]); each only flips the flag, and
    [pause] followed by [unpause] restores the storage. *)
Theorem pause_unpause (s : State) (sender : address) :
  hasRole ADMIN_ROLE sender s = true →
  pause sender s = (if paused s then Err EnforcedPause else Ok (set_paused true s, tt))
  ∧ unpause sender s = (if paused s then Ok (set_paused false s, tt) else Err ExpectedPause)
  ∧ pause sender (set_paused true s) = Err EnforcedPause
  ∧ unpause sender (set_paused false s) = Err ExpectedPause
  ∧ (paused s = false →
     unpause sender (set_paused true s) = Ok (s, tt)).
Proof.
  intros Hadmin.
  assert (Hadmin' : ∀ b, hasRole ADMIN_ROLE sender (set_paused b s) = true)
    by (intros b; exact Hadmin).
  unfold pause, unpause, onlyRole, whenNotPaused, whenPaused.
  rewrite Hadmin, !Hadmin'. cbn [mbind Result_bind set_paused paused].
  repeat split; try by destruct (paused s).
  intros Hp. rewrite <- (set_paused_id s) at 2. by rewrite Hp.
Qed.

Lemma pause_unpause_witness :
  pause 1 scenario_paused = Err EnforcedPause
  ∧ unpause 1 scenario_submitted = Err ExpectedPause.
Proof.
  split.
  - assert (H : hasRole ADMIN_ROLE 1 scenario_paused = true) by (by vm_compute).
    destruct (pause_unpause scenario_paused 1 H) as (-> & _). by vm_compute.
  - assert (H : hasRole ADMIN_ROLE 1 scenario_submitted = true) by (by vm_compute).
    destruct (pause_unpause scenario_submitted 1 H) as (_ & -> & _). by vm_compute.
Defined.

(** X18.  For an admin, [grantOracleRole o] makes [o] an oracle and
    [revokeOracleRole o] makes it none, neither touches any other role
    membership, and both are idempotent: granting to an oracle or revoking
    from a non-oracle succeeds and leaves the storage as it was. *)
Theorem oracle_role_management (s : State) (sender o : address) :
  hasRole ADMIN_ROLE sender s = true →
  grantOracleRole sender o s = Ok (_grantRole ORACLE_ROLE o s, tt)
  ∧ revokeOracleRole sender o s = Ok (_revokeRole ORACLE_ROLE o s, tt)
  ∧ hasRole ORACLE_ROLE o (_grantRole ORACLE_ROLE o s) = true
  ∧ hasRole ORACLE_ROLE o (_revokeRole ORACLE_ROLE o s) = false
  ∧ (∀ r a, (r, a) ≠ (ORACLE_ROLE, o) →
       hasRole r a (_grantRole ORACLE_ROLE o s) = hasRole r a s
       ∧ hasRole r a (_revokeRole ORACLE_ROLE o s) = hasRole r a s)
  ∧ (hasRole ORACLE_ROLE o s = true → _grantRole ORACLE_ROLE o s = s)
  ∧ (hasRole ORACLE_ROLE o s = false → _revokeRole ORACLE_ROLE o s = s).
Proof.
  intros Hadmin.
  unfold grantOracleRole, revokeOracleRole, onlyRole. rewrite Hadmin.
  split; [done|]. split; [done|].
  unfold hasRole, _grantRole, _revokeRole. cbn [set_roles roles].
  split; [apply bool_decide_eq_true; set_solver|].
  split; [apply bool_decide_eq_false; set_solver|].
  split.
  - intros r a Hne. split; apply bool_decide_ext; set_solver.
  - split; intros H.
    + apply bool_decide_eq_true in H.
      replace ({[(ORACLE_ROLE, o)]} ∪ roles s) with (roles s) by set_solver.
      by destruct s.
    + apply bool_decide_eq_false in H.
      replace (roles s ∖ {[(ORACLE_ROLE, o)]}) with (roles s) by set_solver.
      by destruct s.
Qed.

Lemma oracle_role_management_witness :
  hasRole ORACLE_ROLE 8 (_grantRole ORACLE_ROLE 8 scenario_submitted) = true
  ∧ _revokeRole ORACLE_ROLE 8 scenario_submitted = scenario_submitted.
Proof.
  assert (H : hasRole ADMIN_ROLE 1 scenario_submitted = true) by (by vm_compute).
  destruct (oracle_role_management scenario_submitted 1 8 H)
    as (_ & _ & Hg & _ & _ & _ & Hr).
  split; [exact Hg|]. apply Hr. by vm_compute.
Defined.

(** ** What a submission and a resolution store *)

(** X19.  A successful [makePrediction] stores, under the identifier it
    returns, a pending record with the sender as predictor, the block time as
    creation time and the arguments as given; it appends that identifier at
    the end of the sender's, the asset's and the model's index lists, adds one
    to the sender's [totalPredictions], and leaves every other stored
    prediction, every other user's statistics, the threshold, the pause flag
    and the roles as they were. *)
Theorem makePrediction_effect sender now c cur pred target m d (s s' : State) i :
  makePrediction sender now c cur pred target m d s = Ok (s', i) →
  get (predictions s') i
  = Prediction.mk i sender c cur pred now target m false 0 false 0 d
  ∧ (∀ j, j ≠ i → predictions s' !! j = predictions s !! j)
  ∧ getUserPredictions sender s' = getUserPredictions sender s ++ [i]
  ∧ getCryptoPredictions c s' = getCryptoPredictions c s ++ [i]
  ∧ getModelTypePredictions m s' = getModelTypePredictions m s ++ [i]
  ∧ UserStats.totalPredictions (get (userStats s') sender)
    = UserStats.totalPredictions (get (userStats s) sender) + 1
  ∧ getUserModelTypeCount sender m s' = getUserModelTypeCount sender m s + 1
  ∧ getUserCryptoCount sender c s' = getUserCryptoCount sender c s + 1
  ∧ (∀ u, u ≠ sender →
       userStats s' !! u = userStats s !! u
       ∧ getUserPredictions u s' = getUserPredictions u s)
  ∧ accuracyThreshold s' = accuracyThreshold s
  ∧ paused s' = paused s
  ∧ roles s' = roles s.
Proof.
  intros H.
  apply makePrediction_Ok_state in H as (_ & Hp & _ & _ & _ & _ & _ & _ & -> & ->).
  unfold getUserPredictions, getCryptoPredictions, getModelTypePredictions,
    getUserModelTypeCount, getUserCryptoCount.
  cbn [submitted predictions userStats userPredictions cryptoPredictions
       modelTypePredictions accuracyThreshold paused roles].
  rewrite !get_insert_eq.
  cbn [UserStats.totalPredictions UserStats.modelTypeCount UserStats.cryptoCount].
  rewrite !get_insert_eq.
  repeat split; try done.
  - intros j Hj. by rewrite lookup_insert_ne.
  - by rewrite lookup_insert_ne.
  - by rewrite get_insert_ne.
Qed.

Lemma makePrediction_effect_witness :
  get (predictions scenario_submitted) 1
  = Prediction.mk 1 7 "BTC" 50000 55000 100 3700 "LSTM" false 0 false 0 "{}"
  ∧ getUserPredictions 7 scenario_submitted = [1].
Proof.
  assert (H : makePrediction 7 100 "BTC" 50000 55000 3700 "LSTM" "{}" (constructor 1)
              = Ok (scenario_submitted, 1)) by (vm_compute; reflexivity).
  destruct (makePrediction_effect _ _ _ _ _ _ _ _ _ _ _ H) as (Hp & _ & Hl & _).
  split; [exact Hp|]. rewrite Hl. by vm_compute.
Defined.

(** X20.  A successful [resolvePrediction] stores the given actual price and
    the score [calculateAccuracy] gives for the stored predicted price
    against it, and flags the prediction accurate exactly when that score is
    at least [10000 - accuracyThreshold]; the same score is added to the
    predictor's and the model's [totalAccuracyScore], and their
    [accuratePredictions] grows by one exactly when the flag is set.  With a
    threshold of 10000 every resolution is accurate. *)
Theorem resolvePrediction_effect sender now i price (s s' : State) u :
  resolvePrediction sender now i price s = Ok (s', u) →
  let p := get (predictions s) i in
  let p' := get (predictions s') i in
  ∃ accuracy,
    calculateAccuracy (Prediction.predictedPrice p) price = Ok accuracy
    ∧ Prediction.isResolved p' = true
    ∧ Prediction.actualPrice p' = price
    ∧ Prediction.accuracyPercentage p' = accuracy
    ∧ (Prediction.wasAccurate p' = true ↔ 10000 - accuracyThreshold s <= accuracy)
    ∧ (accuracyThreshold s = 10000 → Prediction.wasAccurate p' = true)
    ∧ UserStats.totalAccuracyScore (get (userStats s') (Prediction.predictor p))
      = UserStats.totalAccuracyScore (get (userStats s) (Prediction.predictor p)) + accuracy
    ∧ UserStats.accuratePredictions (get (userStats s') (Prediction.predictor p))
      = UserStats.accuratePredictions (get (userStats s) (Prediction.predictor p))
        + (if Prediction.wasAccurate p' then 1 else 0)
    ∧ ModelPerformance.totalAccuracyScore
        (get (modelPerformance s') (Prediction.modelType p))
      = ModelPerformance.totalAccuracyScore
          (get (modelPerformance s) (Prediction.modelType p)) + accuracy
    ∧ ModelPerformance.accuratePredictions
        (get (modelPerformance s') (Prediction.modelType p))
      = ModelPerformance.accuratePredictions
          (get (modelPerformance s) (Prediction.modelType p))
        + (if Prediction.wasAccurate p' then 1 else 0).
Proof.
  intros H p p'. subst p p'.
  pose proof H as H0.
  apply resolvePrediction_Ok_state in H as (accuracy & _ & _ & _ & Hprice & _ & Hacc & ->).
  exists accuracy.
  cbn [settled predictions userStats modelPerformance]. rewrite !get_insert_eq.
  cbn [Prediction.resolve Prediction.isResolved Prediction.actualPrice
       Prediction.accuracyPercentage Prediction.wasAccurate
       UserStats.totalAccuracyScore UserStats.accuratePredictions
       ModelPerformance.totalAccuracyScore ModelPerformance.accuratePredictions].
  assert (Hflag : meetsThreshold s accuracy = true
                  ↔ 10000 - accuracyThreshold s <= accuracy).
  { unfold meetsThreshold, BASIS_POINTS. apply Z.leb_le. }
  repeat split; try done; try apply Hflag.
  intros Ht. apply Hflag. rewrite Ht.
  pose proof (calculateAccuracy_range _ _ _ Hprice Hacc). lia.
Qed.

Lemma resolvePrediction_effect_witness :
  ∃ accuracy,
    calculateAccuracy 55000 54000 = Ok accuracy
    ∧ Prediction.accuracyPercentage (get (predictions scenario_resolved) 1) = accuracy.
Proof.
  assert (H : resolvePrediction 7 4000 1 54000 scenario_submitted
              = Ok (scenario_resolved, tt)) by (vm_compute; reflexivity).
  destruct (resolvePrediction_effect 7 4000 1 54000 _ _ _ H)
    as (accuracy & Hacc & _ & _ & Hstored & _).
  exists accuracy. split; [|exact Hstored].
  rewrite <- Hacc. by vm_compute.
Defined.


(** * Further properties of the API layer *)

(** ** Bulk resolution: guards and report *)


(** X22.  The bulk-resolve route answers 403 without an admin key or with a
    wrong one, and 400 when [predictions] is missing, is not an array or is
    the empty array; in each of these cases the ledger is not contacted,
    whatever else the body holds. *)
Theorem bulkResolveRoute_guards {Chain : Type}
    (StringToNumber : string → spec_float) (ObjectToNumber : JsValue → spec_float)
    (resolveOnChain : JsValue → JsValue → Chain → Chain * (string + Receipt))
    (adminKey envKey : option string) (body : JsValue) (chain : Chain) :
  (adminKey = None ∨ adminKey = Some "" ∨ adminKey ≠ envKey →
   bulkResolveRoute StringToNumber ObjectToNumber resolveOnChain adminKey envKey body chain
   = (chain, Forbidden "Admin privileges required"))
  ∧ (∀ k, k ≠ "" → adminKey = Some k → envKey = Some k →
       (∀ v, getProp body "predictions" = inr v → (∀ items, v ≠ JArray items) →
          bulkResolveRoute StringToNumber ObjectToNumber resolveOnChain
            adminKey envKey body chain
          = (chain, BadRequest "Predictions array is required and must not be empty"))
       ∧ (getProp body "predictions" = inr (JArray []) →
          bulkResolveRoute StringToNumber ObjectToNumber resolveOnChain
            adminKey envKey body chain
          = (chain, BadRequest "Predictions array is required and must not be empty"))).
Proof.
  split.
  - intros H. unfold bulkResolveRoute, requireAdmin.
    destruct adminKey as [k|]; [|done].
    destruct (String.eqb_spec k "") as [->|Hk]; [done|]. cbn [negb andb].
    destruct H as [H|[H|H]]; [discriminate H | by injection H |].
    rewrite bool_decide_eq_false_2; [done|]. by intros ->.
  - intros k Hk -> ->.
    unfold bulkResolveRoute, requireAdmin.
    rewrite (proj2 (String.eqb_neq k "") Hk), bool_decide_eq_true_2 by done.
    cbn [negb andb]. unfold bulkResolve. split.
    + intros v Hbody Hv. rewrite Hbody.
      destruct v as [| | | | |items|]; try reflexivity. by destruct (Hv items).
    + intros Hbody. by rewrite Hbody.
Qed.

(** ** The pause and unpause routes *)

Lemma receiptData_receiptObject (toStringOf : JsValue → string) (r : Receipt) :
  receiptData toStringOf (receiptObject r) = inl TypeError.
Proof. reflexivity. Qed.

(** X23.  [POST /api/admin/pause] and [/unpause] never send their success
    response when the service returns what [pauseContract] and
    [unpauseContract] build, an object [{ txHash, blockNumber, gasUsed }]:
    the handler reads [result.receipt.hash], [result.receipt] is undefined and
    the TypeError goes to [next].  With an admin signer and an unpaused
    contract the pause transaction is committed all the same: the ledger ends
    paused and the request ends in that error. *)
Theorem pause_routes_never_succeed (toStringOf : JsValue → string)
    (receiptOf : State → Receipt) (revertMessage : Error → string)
    (k : string) (l : Ledger) :
  k ≠ "" →
  (∀ data message,
     (pauseRoute toStringOf (servicePauseContract receiptOf revertMessage)
        (Some k) (Some k) l).2
     ≠ AdminJson data message
     ∧ (unpauseRoute toStringOf (serviceUnpauseContract receiptOf revertMessage)
          (Some k) (Some k) l).2
       ≠ AdminJson data message)
  ∧ (hasRole ADMIN_ROLE (signer l) (contractState l) = true →
     paused (contractState l) = false →
     pauseRoute toStringOf (servicePauseContract receiptOf revertMessage)
       (Some k) (Some k) l
     = (mkLedger (set_paused true (contractState l)) (signer l) (blockTimestamp l),
        AdminNext TypeError)).
Proof.
  intros Hk.
  assert (Hadmin : requireAdmin (Some k) (Some k) = true).
  { unfold requireAdmin. rewrite (proj2 (String.eqb_neq k "") Hk).
    by rewrite bool_decide_eq_true_2. }
  unfold pauseRoute, unpauseRoute, adminRoute. rewrite Hadmin. split.
  - intros data message. unfold servicePauseContract, serviceUnpauseContract. split.
    + destruct (pause (signer l) (contractState l)) as [[s' u]|e]; [|done].
      by rewrite receiptData_receiptObject.
    + destruct (unpause (signer l) (contractState l)) as [[s' u]|e]; [|done].
      by rewrite receiptData_receiptObject.
  - intros Hrole Hp. unfold servicePauseContract, pause, onlyRole, whenNotPaused.
    rewrite Hrole, Hp. cbn [mbind Result_bind]. by rewrite receiptData_receiptObject.
Qed.

Lemma pause_routes_never_succeed_witness :
  pauseRoute (λ _, "") (servicePauseContract (λ _, mkReceipt "0xabc" 9 "21000")
                                              (λ _, "execution reverted"))
             (Some "key") (Some "key") (mkLedger scenario_submitted 1 200)
  = (mkLedger (set_paused true scenario_submitted) 1 200, AdminNext TypeError).
Proof.
  apply (pause_routes_never_succeed (λ _, "") (λ _, mkReceipt "0xabc" 9 "21000")
           (λ _, "execution reverted") "key"
           (mkLedger scenario_submitted 1 200)); by vm_compute.
Defined.

(** ** Sentiment counts and label *)

(** X24.  The sentiment analysis puts every prediction of the set into the
    bullish or the bearish count, so the two add up to the size of the set
    and the neutral count is always 0; the overall label is "bullish" when
    the bullish count is larger, "bearish" when the bearish count is larger
    and "neutral" only on a tie (in particular for the empty set). *)
Theorem sentiment_counts_and_label (parseFloat : string → spec_float)
    (l : list Api.Prediction) :
  let r := analyseSentiment parseFloat l in
  Api.bullish r + Api.bearish r = Z.of_nat (length l)
  ∧ Api.neutral r = 0
  ∧ 0 <= Api.bullish r ∧ 0 <= Api.bearish r
  ∧ (Api.sentiment r = "bullish" ↔ Api.bearish r < Api.bullish r)
  ∧ (Api.sentiment r = "bearish" ↔ Api.bullish r < Api.bearish r)
  ∧ (Api.sentiment r = "neutral" ↔ Api.bullish r = Api.bearish r).
Proof.
  intros r. subst r. unfold analyseSentiment. rewrite foldl_countSentiment.
  cbn [Api.bullish Api.bearish Api.neutral Api.sentiment].
  pose proof (filter_partition_length (predictsRise parseFloat) l) as Hlen.
  set (b := Z.of_nat (length (List.filter (predictsRise parseFloat) l))) in *.
  set (n := Z.of_nat (length (List.filter (λ p, negb (predictsRise parseFloat p)) l))) in *.
  assert (0 <= b) by (subst b; lia). assert (0 <= n) by (subst n; lia).
  assert (b + n = Z.of_nat (length l)) by (subst b n; lia).
  rewrite !Z.add_0_l.
  split; [done|]. split; [lia|]. split; [done|]. split; [done|].
  destruct (Z.ltb_spec n b); [|destruct (Z.ltb_spec b n)];
    repeat split; intros; try done; try lia.
Qed.

(** ** Query filters *)

Lemma filter_sublist {A} (f : A → bool) (l : list A) : List.filter f l `sublist_of` l.
Proof.
  induction l as [|x l IH]; cbn [List.filter]; [constructor|].
  destruct (f x); by constructor.
Qed.

Lemma elem_of_filter_bool {A} (f : A → bool) (l : list A) x :
  x ∈ List.filter f l ↔ x ∈ l ∧ f x = true.
Proof. rewrite !list_elem_of_In. apply List.filter_In. Qed.

(** X25.  The query filters of the predictions listing are conjunctive: a
    prediction is returned exactly when it is in the list and passes every
    filter that is given, and the returned list keeps the order of the
    input.  The [resolved] filter applies whenever the parameter is
    present and keeps the resolved predictions only for the value "true":
    any other value keeps the pending ones.  An empty [modelType] or [user]
    does not filter. *)
Theorem applyFilters_conjunctive (toLowerCase : string → string)
    (resolved modelType user : option string) (predictions : list Api.Prediction) :
  applyFilters toLowerCase resolved modelType user predictions `sublist_of` predictions
  ∧ ∀ p, p ∈ applyFilters toLowerCase resolved modelType user predictions
         ↔ p ∈ predictions
           ∧ (∀ r, resolved = Some r → Api.isResolved p = String.eqb r "true")
           ∧ (∀ m, modelType = Some m → m ≠ "" →
                   toLowerCase (Api.modelType p) = toLowerCase m)
           ∧ (∀ u, user = Some u → u ≠ "" →
                   toLowerCase (Api.predictor p) = toLowerCase u).
Proof.
  unfold applyFilters. split.
  - destruct resolved as [r|], modelType as [m|], user as [u|];
      try destruct (String.eqb m ""); try destruct (String.eqb u "");
      repeat (etrans; [apply filter_sublist|]); done.
  - intros p.
    destruct resolved as [r|], modelType as [m|], user as [u|];
      try destruct (String.eqb_spec m ""); try destruct (String.eqb_spec u "");
      rewrite ?elem_of_filter_bool, ?Bool.eqb_true_iff, ?String.eqb_eq;
      split; intros; destruct_and?; repeat split; try done;
      intros; simplify_eq; auto.
Qed.

(** ** Trending *)

Lemma insertByScore_perm x l : insertByScore x l ≡ₚ x :: l.
Proof.
  induction l as [|y l IH]; cbn [insertByScore]; [done|].
  destruct (Trend.trendScore x <? Trend.trendScore y); [|done].
  rewrite IH. apply Permutation_swap.
Qed.

Lemma sortByScore_perm l : sortByScore l ≡ₚ l.
Proof.
  induction l as [|x l IH]; [done|]. cbn [sortByScore foldr].
  rewrite insertByScore_perm. by f_equiv.
Qed.

Lemma insertByScore_sorted x l :
  StronglySorted outranks l → StronglySorted outranks (insertByScore x l).
Proof.
  induction 1 as [|y l Hsorted IH Hall]; cbn [insertByScore].
  - repeat constructor.
  - destruct (Z.ltb_spec (Trend.trendScore x) (Trend.trendScore y)).
    + constructor; [done|]. rewrite insertByScore_perm.
      constructor; [unfold outranks; lia | done].
    + constructor; [by constructor|].
      constructor; [unfold outranks; lia|].
      eapply Forall_impl; [exact Hall|]. unfold outranks. intros; lia.
Qed.

Lemma sortByScore_sorted l : StronglySorted outranks (sortByScore l).
Proof.
  induction l as [|x l IH]; [constructor|]. by apply insertByScore_sorted.
Qed.

Lemma StronglySorted_take {A} (R : A → A → Prop) n (l : list A) :
  StronglySorted R l → StronglySorted R (take n l).
Proof.
  intros H. revert n. induction H as [|x l Hs IH Hall]; intros [|n]; cbn [take];
    try constructor; [apply IH | by apply Forall_take].
Qed.

Lemma sliceTo_take {A} limit (l : list A) : ∃ n, sliceTo limit l = take n l.
Proof.
  destruct limit as [k|]; cbn [sliceTo]; [|by exists 0%nat].
  destruct (k <? 0); eauto.
Qed.

(** X26.  The trending list is ranked by trend score from high to low, holds
    only symbols of the fixed list with a positive score (so none whose
    service call failed and none without predictions), each with
    [trendScore = 2 * recentPredictions + totalPredictions], and has at most
    ten entries and at most [limit] entries for a limit that parses to a
    non-negative number; a limit that does not parse gives the empty list. *)
Theorem trending_ranked (parseInt : string → option Z)
    (fetchPredictions : string → string + list Api.Prediction) (now : Z)
    (limit : option string) :
  let result := trending parseInt fetchPredictions now limit in
  StronglySorted outranks result
  ∧ (∀ e, e ∈ result →
       0 < Trend.trendScore e
       ∧ Trend.symbol e ∈ trendingCryptos
       ∧ e = activityOf parseInt fetchPredictions now (Trend.symbol e)
       ∧ Trend.trendScore e = 2 * Trend.recentPredictions e + Trend.totalPredictions e
       ∧ 0 <= Trend.recentPredictions e <= Trend.totalPredictions e
       ∧ ∃ predictions, fetchPredictions (Trend.symbol e) = inr predictions
                        ∧ predictions ≠ [])
  ∧ (length result <= 10)%nat
  ∧ (∀ l n, limit = Some l → parseInt l = Some n → 0 <= n →
       (length result <= Z.to_nat n)%nat)
  ∧ (∀ l, limit = Some l → parseInt l = None → result = []).
Proof.
  intros result. subst result. unfold trending.
  set (limitValue := match limit with Some l => parseInt l | None => Some 10 end).
  set (ranked := sortByScore _).
  destruct (sliceTo_take limitValue ranked) as [n Hn].
  assert (Hranked : ranked ≡ₚ List.filter (λ e, 0 <? Trend.trendScore e)
                      (map (activityOf parseInt fetchPredictions now) trendingCryptos))
    by apply sortByScore_perm.
  assert (Hlen : (length ranked <= 10)%nat).
  { rewrite Hranked.
    pose proof (sublist_length _ _ (filter_sublist (λ e, 0 <? Trend.trendScore e)
      (map (activityOf parseInt fetchPredictions now) trendingCryptos))) as Hl.
    rewrite length_map in Hl. exact Hl. }
  split; [|split; [|split; [|split]]].
  - rewrite Hn. apply StronglySorted_take, sortByScore_sorted.
  - intros e He. rewrite Hn in He.
    apply (λ H, elem_of_sublist _ _ _ H (sublist_take ranked n)) in He.
    rewrite Hranked in He. apply elem_of_filter_bool in He as [He Hpos].
    apply Z.ltb_lt in Hpos.
    apply list_elem_of_In, List.in_map_iff in He as (c & <- & Hc).
    apply list_elem_of_In in Hc.
    unfold activityOf in *. destruct (fetchPredictions c) as [err|predictions] eqn:Hf.
    + cbn [Trend.trendScore] in Hpos. lia.
    + cbn [Trend.trendScore Trend.symbol Trend.recentPredictions
           Trend.totalPredictions] in *.
      rewrite Hf.
      pose proof (sublist_length _ _ (filter_sublist (isRecent parseInt now) predictions)).
      repeat split; try done; try lia.
      exists predictions. split; [done|]. intros ->. cbn in Hpos. lia.
  - rewrite Hn, length_take. lia.
  - intros l k -> Hk Hpos. subst limitValue. cbn beta iota. rewrite Hk.
    cbn [sliceTo]. rewrite (proj2 (Z.ltb_ge k 0) Hpos), length_take. lia.
  - intros l -> Hl. subst limitValue. cbn beta iota. by rewrite Hl.
Qed.

(** ** Reading predictions through the service *)

Lemma reachable_counter_fits s : reachable s → predictionCounter s <= MAX_UINT256.
Proof.
  induction 1 as [deployer|s s' _ IH Hstep]; [by vm_compute|].
  destruct (step_cases _ _ Hstep)
    as [(? & ? & ? & ? & ? & ? & ? & ? & ? & H)|[(? & ? & j & price & ? & H)|H]].
  - apply makePrediction_Ok_state in H as (_ & _ & _ & _ & _ & _ & _ & Hfit & _ & ->).
    exact Hfit.
  - apply resolvePrediction_Ok_state in H as (accuracy & _ & _ & _ & _ & _ & _ & ->).
    exact IH.
  - destruct H as (_ & _ & _ & _ & _ & _ & Hc & _). by rewrite Hc.
Qed.

Lemma promiseAll_fulfilled {A B} (f : A → string + B) (g : A → B) (l : list A) :
  (∀ x, x ∈ l → f x = inr (g x)) → promiseAll (map f l) = inr (map g l).
Proof.
  induction l as [|x l IH]; intros H; [done|]. cbn [map promiseAll].
  rewrite (H x (list_elem_of_here x l)).
  rewrite IH; [done|]. intros y Hy. apply H. by apply list_elem_of_further.
Qed.

(** X27.  [getPrediction] throws, before any call, for an identifier that is
    no [uint256] (negative or above 2^256 - 1).  For a [uint256] that was
    never assigned (0, or above the counter) it does not fail: on a reachable
    ledger it returns the hydrated zero record (pending, no actual price,
    empty asset and model).  For an assigned identifier it returns an object
    whose [id] is the string of the identifier asked for and whose
    [actualPrice] is [null] exactly when the prediction is pending. *)
Theorem getPrediction_unknown_and_pending
    (formatUnits18 uintToString : Z → string) (addressToString : address → string)
    (outOfRangeMessage : Z → string) (s : State) (i : Z) :
  reachable s →
  (¬ (0 <= i <= MAX_UINT256) →
   serviceGetPrediction formatUnits18 uintToString addressToString outOfRangeMessage i s
   = inl (outOfRangeMessage i))
  ∧ (i = 0 ∨ predictionCounter s < i <= MAX_UINT256 →
     serviceGetPrediction formatUnits18 uintToString addressToString outOfRangeMessage i s
     = inr (hydrate formatUnits18 uintToString addressToString Prediction.zero))
  ∧ (0 < i <= predictionCounter s →
     ∃ p,
       serviceGetPrediction formatUnits18 uintToString addressToString
         outOfRangeMessage i s = inr p
       ∧ Api.id p = uintToString i
       ∧ (Api.actualPrice p = None ↔ Api.isResolved p = false)).
Proof.
  intros Hr. destruct (reachable_well_formed s Hr) as (Hc & Hin & Hout).
  pose proof (reachable_counter_fits s Hr) as Hfit.
  unfold serviceGetPrediction. split; [|split].
  - intros Hi.
    assert (Hb : (0 <=? i) && (i <=? MAX_UINT256) = false).
    { apply andb_false_iff. destruct (Z.leb_spec 0 i); [right|by left].
      apply Z.leb_gt. lia. }
    by rewrite Hb.
  - intros Hi.
    rewrite (proj2 (Z.leb_le 0 i)), (proj2 (Z.leb_le i MAX_UINT256)) by lia.
    cbn [andb]. unfold get. rewrite (Hout i) by lia. done.
  - intros Hi.
    rewrite (proj2 (Z.leb_le 0 i)), (proj2 (Z.leb_le i MAX_UINT256)) by lia.
    cbn [andb]. eexists. split; [reflexivity|].
    destruct (Hin i Hi) as (q & Hq & Hwf).
    rewrite (get_lookup_Some _ _ _ Hq).
    destruct Hwf as (Hid & _ & _ & _ & _ & _ & Hpending & Hresolved).
    cbn [hydrate Api.id Api.actualPrice Api.isResolved]. rewrite Hid.
    split; [done|].
    destruct (Prediction.isResolved q).
    + destruct (Hresolved eq_refl) as [Hprice _].
      rewrite (proj2 (Z.eqb_neq _ 0)) by lia. split; intros [=].
    + destruct (Hpending eq_refl) as (-> & _). done.
Qed.

Lemma getPrediction_unknown_and_pending_witness :
  serviceGetPrediction (λ _, "") (λ _, "") (λ _, "") (λ _, "out of range") (-1)
    scenario_later
  = inl "out of range"
  ∧ serviceGetPrediction (λ _, "") (λ _, "") (λ _, "") (λ _, "out of range") 99
      scenario_later
    = inr (hydrate (λ _, "") (λ _, "") (λ _, "") Prediction.zero)
  ∧ ∃ p, serviceGetPrediction (λ _, "") (λ _, "") (λ _, "") (λ _, "out of range") 2
           scenario_later = inr p
         ∧ Api.actualPrice p = None.
Proof.
  assert (Hr : reachable scenario_later)
    by (apply reachable_run, reachable_run, reachable_run, reachable_constructor).
  split; [|split].
  - destruct (getPrediction_unknown_and_pending (λ _, "") (λ _, "") (λ _, "")
                (λ _, "out of range") scenario_later (-1) Hr) as (H & _).
    apply H. lia.
  - destruct (getPrediction_unknown_and_pending (λ _, "") (λ _, "") (λ _, "")
                (λ _, "out of range") scenario_later 99 Hr) as (_ & H & _).
    apply H. right. by vm_compute.
  - destruct (getPrediction_unknown_and_pending (λ _, "") (λ _, "") (λ _, "")
                (λ _, "out of range") scenario_later 2 Hr) as (_ & _ & H).
    destruct H as (p & Hp & _ & Hnull); [by vm_compute|].
    exists p. split; [exact Hp|]. apply Hnull.
    vm_compute in Hp. injection Hp as <-. reflexivity.
Defined.

Lemma length_filter_ids (P : Prediction.t → bool) (f : Z → Prediction.t) (l : list Z) :
  Z.of_nat (length (List.filter (λ i, P (f i)) l))
  = foldr (λ p acc, (if P p then 1 else 0) + acc) 0 (f <$> l).
Proof.
  induction l as [|i l IH]; [done|]. cbn [List.filter fmap list_fmap foldr].
  destruct (P (f i)); cbn [length]; lia.
Qed.

(** X28.  On a reachable ledger [getUserPredictions user] does not fail and
    returns one object per prediction of that user and no other: every object
    names the user as predictor, the identifiers are those of the contract's
    list in its order, and the number of objects is the user's
    [totalPredictions]. *)
Theorem getUserPredictions_complete
    (formatUnits18 uintToString : Z → string) (addressToString : address → string)
    (outOfRangeMessage : Z → string) (s : State) (u : address) :
  reachable s →
  ∃ result,
    serviceGetUserPredictions formatUnits18 uintToString addressToString
      outOfRangeMessage u s = inr result
    ∧ Z.of_nat (length result) = UserStats.totalPredictions (get (userStats s) u)
    ∧ Forall (λ p, Api.predictor p = addressToString u) result
    ∧ map Api.id result = map uintToString (getUserPredictions u s).
Proof.
  intros Hr.
  destruct (reachable_aggregates s Hr) as (_ & _ & _ & _ & _ & _ & Hlu & _).
  destruct (reachable_ledger_inv s Hr) as [_ Hcons].
  destruct (reachable_well_formed s Hr) as (_ & Hin & _).
  pose proof (reachable_counter_fits s Hr) as Hfit.
  exists (map (λ id, hydrate formatUnits18 uintToString addressToString
                       (get (predictions s) id))
              (getUserPredictions u s)).
  split.
  { unfold serviceGetUserPredictions. apply promiseAll_fulfilled. intros i Hi.
    rewrite Hlu in Hi. unfold idsWhere in Hi.
    apply elem_of_filter_bool in Hi as [Hi _]. apply elem_of_seqZ_iff in Hi.
    unfold serviceGetPrediction.
    by rewrite (proj2 (Z.leb_le 0 i)), (proj2 (Z.leb_le i MAX_UINT256)) by lia. }
  rewrite length_map, Hlu. split; [|split].
  - destruct (Hcons u) as [-> _]. unfold countMadeBy, idsWhere.
    rewrite length_filter_as_sum, length_filter_ids. done.
  - apply Forall_forall. intros p Hp.
    apply list_elem_of_In, List.in_map_iff in Hp as (i & <- & Hi).
    apply List.filter_In in Hi as [_ Hi]. apply bool_decide_eq_true in Hi.
    cbn [hydrate Api.predictor]. by rewrite Hi.
  - rewrite List.map_map. apply List.map_ext_in. intros i Hi.
    apply List.filter_In in Hi as [Hi _].
    apply list_elem_of_In, elem_of_seqZ_iff in Hi.
    destruct (Hin i ltac:(lia)) as (q & Hq & Hid & _).
    rewrite (get_lookup_Some _ _ _ Hq).
    cbn [hydrate Api.id]. by rewrite Hid.
Qed.

Lemma getUserPredictions_complete_witness :
  ∃ result,
    serviceGetUserPredictions (λ _, "") (λ _, "") (λ _, "u") (λ _, "") 7 scenario_later
    = inr result
    ∧ length result = 2%nat.
Proof.
  assert (Hr : reachable scenario_later)
    by (apply reachable_run, reachable_run, reachable_run, reachable_constructor).
  destruct (getUserPredictions_complete (λ _, "") (λ _, "") (λ _, "u") (λ _, "")
              scenario_later 7 Hr) as (result & Hres & Hlen & _).
  exists result. split; [exact Hres|].
  apply Nat2Z.inj. rewrite Hlen. by vm_compute.
Defined.

(** ** What a caller without the admin role cannot do *)

(** X15.  No transaction sent by an account without [ADMIN_ROLE] changes the
    accuracy threshold or the pause flag, whichever function it calls; and
    unless the sender holds [DEFAULT_ADMIN_ROLE], it grants no role to
    anyone. *)
Theorem non_admin_cannot_reconfigure (s s' : State) (sender : address) (now : Z)
    (call : Call) :
  dispatch sender now call s = Ok s' →
  hasRole ADMIN_ROLE sender s = false →
  accuracyThreshold s' = accuracyThreshold s
  ∧ paused s' = paused s
  ∧ (hasRole DEFAULT_ADMIN_ROLE sender s = false →
     ∀ r a, hasRole r a s' = true → hasRole r a s = true).
Proof.
  intros H Hadmin.
  destruct (admin_functions_guarded s sender Hadmin) as (Ht & Hp & Hu & Hg & Hr).
  destruct call; cbn [dispatch] in H; apply fmap_Ok in H as ([s1 v] & H & ->);
    cbn [fst].
  - apply makePrediction_Ok_state in H as (_ & Hpaused & _ & _ & _ & _ & _ & _ & _ & ->).
    cbn [submitted accuracyThreshold paused]. done.
  - apply resolvePrediction_Ok_state in H as (accuracy & _ & _ & _ & _ & _ & _ & ->).
    done.
  - rewrite Ht in H. discriminate H.
  - rewrite Hp in H. discriminate H.
  - rewrite Hu in H. discriminate H.
  - rewrite Hg in H. discriminate H.
  - rewrite Hr in H. discriminate H.
  - split; [|split].
    + unfold grantRole in H. inv_bind H. by injection H as <- <-.
    + unfold grantRole in H. inv_bind H. by injection H as <- <-.
    + intros Hd. unfold grantRole, onlyRole in H. rewrite Hd in H. discriminate H.
  - split; [|split].
    + unfold revokeRole in H. inv_bind H. by injection H as <- <-.
    + unfold revokeRole in H. inv_bind H. by injection H as <- <-.
    + intros Hd. unfold revokeRole, onlyRole in H. rewrite Hd in H. discriminate H.
  - unfold renounceRole in H. case_bool_decide; [|discriminate].
    injection H as <- <-. split; [done|]. split; [done|].
    intros _ r0 a. unfold hasRole, _revokeRole. cbn [set_roles roles].
    intros Hin. apply bool_decide_eq_true in Hin. apply bool_decide_eq_true.
    set_solver.
Qed.

Lemma non_admin_cannot_reconfigure_witness :
  accuracyThreshold scenario_resolved = accuracyThreshold scenario_submitted
  ∧ paused scenario_resolved = paused scenario_submitted.
Proof.
  assert (H : dispatch 7 4000 (ResolvePrediction 1 54000) scenario_submitted
              = Ok scenario_resolved) by (vm_compute; reflexivity).
  assert (Hadmin : hasRole ADMIN_ROLE 7 scenario_submitted = false) by (by vm_compute).
  destruct (non_admin_cannot_reconfigure _ _ _ _ _ H Hadmin) as (Ht & Hp & _).
  split; [exact Ht | exact Hp].
Defined.
